(** * AI-Proxy-Protector: a shallow embedding of the proxy and its PII gate

    The repository holds one PII detector ([pii-detector.js]), one
    certificate manager ([src/unnamed/part_000]) and three revisions of the
    proxy server:
    - [Server]   : [src/server.js], lines 1-338 (CONNECT handling, pass-through);
    - [Server2]  : [src/server.js], lines 339-650;
    - [Part001]  : [src/unnamed/part_001].

    Conventions of the embedding.
    - A JavaScript string is a [string]; one [ascii] stands for one UTF-16
      code unit in the range 0..255.
    - A JavaScript value is a [JsValue]; the values that reach the code are
      the ones [JSON.parse] builds, plus [undefined].
    - An abrupt completion is [Throw]; a promise is an [Await].
    - What the platform does and the sources do not (parsing JSON, the
      network, the clock, the coercions of [>] and of computed property
      keys on operands that are no numbers) is a field of [Env]. *)

From Stdlib Require Import String Ascii List ZArith Bool Arith Lia DecimalString.
Import ListNotations.
Open Scope string_scope.

Set Implicit Arguments.
Set Warnings "-register-all".

(** ** JavaScript values *)

Module JS.

Inductive JsError : Type :=
| TypeError (what : string)
| SyntaxError
| NetworkError (what : string).

(** Completion of an expression: a value, or a thrown error. *)
Inductive Completion (A : Type) : Type :=
| Normal (a : A)
| Throw (e : JsError).
Arguments Normal {A} a.
Arguments Throw {A} e.

(** State of a promise when it is awaited. [Pending] is the promise that
    never settles: the [await] never resumes. *)
Inductive Await (A : Type) : Type :=
| Fulfilled (a : A)
| Rejected (e : JsError)
| Pending.
Arguments Fulfilled {A} a.
Arguments Rejected {A} e.
Arguments Pending {A}.

(** A number as [JSON.parse] reads it: the decimal literal
    [mant * 10 ^ exp10]. The Number value is the nearest double. *)
Record JsNumber : Type := { mant : Z; exp10 : Z }.

Definition num_of_nat (n : nat) : JsNumber := {| mant := Z.of_nat n; exp10 := 0 |}.

Inductive JsValue : Type :=
| JUndefined
| JNull
| JBool (b : bool)
| JNum (n : JsNumber)
| JStr (s : string)
| JArr (elems : list JsValue)
| JObj (props : list (string * JsValue)).

(** [a * 10^e] compared with [c / 2^k], exactly. *)
Definition dec_leb (a e c : Z) (k : Z) : bool :=
  if (0 <=? e)%Z
  then (a * 10 ^ e * 2 ^ k <=? c)%Z
  else (a * 2 ^ k <=? c * 10 ^ (- e))%Z.

(** The literal rounds to the double 0: its magnitude is at most half the
    least subnormal, [2^-1075] (the tie goes to the even neighbour, 0). *)
Definition num_is_zero (n : JsNumber) : bool :=
  dec_leb (Z.abs (mant n)) (exp10 n) 1 1075.

(** [n > 10] on doubles: the double after 10 is [10 + 2^-49], and the tie
    [10 + 2^-50] rounds to 10. *)
Definition num_gt10 (n : JsNumber) : bool :=
  negb (dec_leb (mant n) (exp10 n) (10 * 2 ^ 50 + 1) 50).

(** ToBoolean. *)
Definition truthy (v : JsValue) : bool :=
  match v with
  | JUndefined | JNull => false
  | JBool b => b
  | JNum n => negb (num_is_zero n)
  | JStr s => negb (s =? "")
  | JArr _ | JObj _ => true
  end.

Definition nullish (v : JsValue) : bool :=
  match v with
  | JUndefined | JNull => true
  | _ => false
  end.

(** Own property of an object. *)
Fixpoint own_prop (props : list (string * JsValue)) (k : string) : option JsValue :=
  match props with
  | [] => None
  | (k', v) :: rest => if k' =? k then Some v else own_prop rest k
  end.

Definition own_or_undefined (props : list (string * JsValue)) (k : string) : JsValue :=
  match own_prop props k with
  | Some v => v
  | None => JUndefined
  end.

(** [v.k] for the data properties the sources read ([messages], [prompt],
    [input], [text], [query], [content], [length], [candidates], [parts]);
    none of them lives on a prototype except [length] of strings and
    arrays. Reading a property of [undefined] or [null] throws. *)
Definition member (v : JsValue) (k : string) : Completion JsValue :=
  match v with
  | JUndefined | JNull => Throw (TypeError "Cannot read properties of undefined or null")
  | JBool _ | JNum _ => Normal JUndefined
  | JStr s => Normal (if k =? "length" then JNum (num_of_nat (String.length s)) else JUndefined)
  | JArr l => Normal (if k =? "length" then JNum (num_of_nat (List.length l)) else JUndefined)
  | JObj props => Normal (own_or_undefined props k)
  end.

(** [v?.k]: [undefined] on a nullish receiver. *)
Definition opt_member (v : JsValue) (k : string) : JsValue :=
  match member v k with
  | Normal x => x
  | Throw _ => JUndefined
  end.

(** [v[0]]. *)
Definition index0 (v : JsValue) : Completion JsValue :=
  match v with
  | JUndefined | JNull => Throw (TypeError "Cannot read properties of undefined or null")
  | JBool _ | JNum _ => Normal JUndefined
  | JStr s => Normal (match s with
                      | EmptyString => JUndefined
                      | String c _ => JStr (String c EmptyString)
                      end)
  | JArr l => Normal (match l with
                      | [] => JUndefined
                      | x :: _ => x
                      end)
  | JObj props => Normal (own_or_undefined props "0")
  end.

(** [a || b] on values. *)
Definition js_or (a b : JsValue) : JsValue := if truthy a then a else b.

(** [s.substring(0, n)] when [s] is a string; any other receiver the code
    can hold has no callable [substring], and the call throws. *)
Definition call_substring (v : JsValue) (n : nat) : Completion string :=
  match v with
  | JStr s => Normal (substring 0 n s)
  | _ => Throw (TypeError "substring is not a function")
  end.

(** White space of [String.prototype.trim] within the modelled code units:
    TAB, LF, VT, FF, CR, SP and NBSP. *)
Definition is_trim_space (c : ascii) : bool :=
  let n := nat_of_ascii c in
  ((9 <=? n)%nat && (n <=? 13)%nat) || (n =? 32)%nat || (n =? 160)%nat.

Fixpoint trim_start (s : string) : string :=
  match s with
  | EmptyString => EmptyString
  | String c s' => if is_trim_space c then trim_start s' else s
  end.

(** Drops the trailing white space: a character is kept when something that
    is kept follows it, or when it is no white space. *)
Fixpoint trim_end (s : string) : string :=
  match s with
  | EmptyString => EmptyString
  | String c s' =>
      match trim_end s' with
      | EmptyString => if is_trim_space c then EmptyString else String c EmptyString
      | rest => String c rest
      end
  end.

Definition trim (s : string) : string := trim_end (trim_start s).

(** [v.trim()]: strings only have it. *)
Definition call_trim (v : JsValue) : Completion JsValue :=
  match v with
  | JStr s => Normal (JStr (trim s))
  | _ => Throw (TypeError "trim is not a function")
  end.

(** [v === 'literal']. *)
Definition strict_eq_str (v : JsValue) (lit : string) : bool :=
  match v with
  | JStr s => s =? lit
  | _ => false
  end.

(** [s.includes(p)]: [p] occurs in [s] as a contiguous run. *)
Fixpoint includes (s p : string) : bool :=
  prefix p s ||
  match s with
  | EmptyString => false
  | String _ s' => includes s' p
  end.

(** [++] (the counters are Numbers: exact below [2^53], stuck at it). *)
Definition incr (n : Z) : Z := if (n <? 2 ^ 53)%Z then (n + 1)%Z else n.

End JS.

(** ** A reference [JSON.parse]

    [JSON.parse] is the platform's. The code is stated over any parser
    ([Env.JSON_parse]); this one follows the JSON grammar (ECMA-404) and is
    the instance the concrete request bodies below are read with. An
    escape above [\u00FF] names a code unit outside the modelled range and
    is refused. *)

Module Json.
Import JS.

Definition code (c : ascii) : nat := nat_of_ascii c.

Definition is_ws (c : ascii) : bool :=
  let n := code c in
  (n =? 32)%nat || (n =? 9)%nat || (n =? 10)%nat || (n =? 13)%nat.

Definition is_digit (c : ascii) : bool :=
  let n := code c in (48 <=? n)%nat && (n <=? 57)%nat.

Definition digit_val (c : ascii) : Z := Z.of_nat (code c - 48).

Definition hex_val (c : ascii) : option nat :=
  let n := code c in
  if (48 <=? n)%nat && (n <=? 57)%nat then Some (n - 48)
  else if (65 <=? n)%nat && (n <=? 70)%nat then Some (n - 55)
  else if (97 <=? n)%nat && (n <=? 102)%nat then Some (n - 87)
  else None.

Definition hex4 (a b c d : ascii) : option nat :=
  match hex_val a, hex_val b, hex_val c, hex_val d with
  | Some x, Some y, Some z, Some w => Some (((x * 16 + y) * 16 + z) * 16 + w)
  | _, _, _, _ => None
  end.

Fixpoint skip_ws (s : string) : string :=
  match s with
  | String c s' => if is_ws c then skip_ws s' else s
  | EmptyString => s
  end.

Fixpoint strip_prefix (p s : string) : option string :=
  match p, s with
  | EmptyString, _ => Some s
  | String a p', String b s' => if Ascii.eqb a b then strip_prefix p' s' else None
  | String _ _, EmptyString => None
  end.

(** A maximal run of digits, accumulated onto [acc]; [n] counts them. *)
Fixpoint read_digits (acc : Z) (n : nat) (s : string) : Z * nat * string :=
  match s with
  | String c s' =>
      if is_digit c then read_digits (acc * 10 + digit_val c)%Z (S n) s' else (acc, n, s)
  | EmptyString => (acc, n, s)
  end.

Definition read_int (s : string) : option (Z * string) :=
  match s with
  | String c s' =>
      if (code c =? 48)%nat then Some (0%Z, s')
      else if is_digit c then
        let '(v, _, r) := read_digits 0 0 s in Some (v, r)
      else None
  | EmptyString => None
  end.

Definition read_frac (m : Z) (s : string) : option (Z * Z * string) :=
  match s with
  | String c s' =>
      if (code c =? 46)%nat then
        let '(v, n, r) := read_digits m 0 s' in
        match n with
        | O => None
        | S _ => Some (v, (- Z.of_nat n)%Z, r)
        end
      else Some (m, 0%Z, s)
  | EmptyString => Some (m, 0%Z, s)
  end.

Definition read_exp (s : string) : option (Z * string) :=
  match s with
  | String c s' =>
      if (code c =? 101)%nat || (code c =? 69)%nat then
        let '(neg, s1) :=
          match s' with
          | String d s'' =>
              if (code d =? 45)%nat then (true, s'')
              else if (code d =? 43)%nat then (false, s'')
              else (false, s')
          | EmptyString => (false, s')
          end in
        let '(v, n, r) := read_digits 0 0 s1 in
        match n with
        | O => None
        | S _ => Some ((if neg then - v else v)%Z, r)
        end
      else Some (0%Z, s)
  | EmptyString => Some (0%Z, s)
  end.

Definition parse_number (s : string) : option (JsNumber * string) :=
  let '(neg, s1) :=
    match s with
    | String c s' => if (code c =? 45)%nat then (true, s') else (false, s)
    | EmptyString => (false, s)
    end in
  match read_int s1 with
  | None => None
  | Some (i, s2) =>
      match read_frac i s2 with
      | None => None
      | Some (m, e1, s3) =>
          match read_exp s3 with
          | None => None
          | Some (e2, s4) =>
              Some ({| mant := if neg then (- m)%Z else m; exp10 := (e1 + e2)%Z |}, s4)
          end
      end
  end.

Definition cons_char (c : ascii) (r : option (string * string)) : option (string * string) :=
  match r with
  | Some (t, rest) => Some (String c t, rest)
  | None => None
  end.

(** The characters of a string literal, read after its opening quote. *)
Fixpoint read_string (s : string) : option (string * string) :=
  match s with
  | EmptyString => None
  | String c s' =>
      let n := code c in
      if (n =? 34)%nat then Some (EmptyString, s')
      else if (n =? 92)%nat then
        match s' with
        | EmptyString => None
        | String e s'' =>
            let m := code e in
            if (m =? 34)%nat || (m =? 92)%nat || (m =? 47)%nat then cons_char e (read_string s'')
            else if (m =? 98)%nat then cons_char (ascii_of_nat 8) (read_string s'')
            else if (m =? 102)%nat then cons_char (ascii_of_nat 12) (read_string s'')
            else if (m =? 110)%nat then cons_char (ascii_of_nat 10) (read_string s'')
            else if (m =? 114)%nat then cons_char (ascii_of_nat 13) (read_string s'')
            else if (m =? 116)%nat then cons_char (ascii_of_nat 9) (read_string s'')
            else if (m =? 117)%nat then
              match s'' with
              | String h1 (String h2 (String h3 (String h4 s5))) =>
                  match hex4 h1 h2 h3 h4 with
                  | Some u =>
                      if (u <? 256)%nat then cons_char (ascii_of_nat u) (read_string s5)
                      else None
                  | None => None
                  end
              | _ => None
              end
            else None
        end
      else if (n <? 32)%nat then None
      else cons_char c (read_string s')
  end.

(** Defining a property: a repeated key keeps its place and takes the
    later value. *)
Fixpoint set_prop (props : list (string * JsValue)) (k : string) (v : JsValue)
  : list (string * JsValue) :=
  match props with
  | [] => [(k, v)]
  | (k', v') :: rest => if k' =? k then (k, v) :: rest else (k', v') :: set_prop rest k v
  end.

Fixpoint parse_value (fuel : nat) (s : string) : option (JsValue * string) :=
  match fuel with
  | O => None
  | S f =>
      match skip_ws s with
      | EmptyString => None
      | String c rest =>
          let n := code c in
          if (n =? 123)%nat then
            match skip_ws rest with
            | String d r' => if (code d =? 125)%nat then Some (JObj [], r')
                             else parse_members f [] rest
            | EmptyString => None
            end
          else if (n =? 91)%nat then
            match skip_ws rest with
            | String d r' => if (code d =? 93)%nat then Some (JArr [], r')
                             else parse_elems f [] rest
            | EmptyString => None
            end
          else if (n =? 34)%nat then
            match read_string rest with
            | Some (t, r) => Some (JStr t, r)
            | None => None
            end
          else if (n =? 116)%nat then
            option_map (fun r => (JBool true, r)) (strip_prefix "rue" rest)
          else if (n =? 102)%nat then
            option_map (fun r => (JBool false, r)) (strip_prefix "alse" rest)
          else if (n =? 110)%nat then
            option_map (fun r => (JNull, r)) (strip_prefix "ull" rest)
          else
            option_map (fun '(x, r) => (JNum x, r)) (parse_number (String c rest))
      end
  end

with parse_elems (fuel : nat) (acc : list JsValue) (s : string) : option (JsValue * string) :=
  match fuel with
  | O => None
  | S f =>
      match parse_value f s with
      | None => None
      | Some (v, r) =>
          match skip_ws r with
          | String c r' =>
              if (code c =? 44)%nat then parse_elems f (acc ++ [v]) r'
              else if (code c =? 93)%nat then Some (JArr (acc ++ [v]), r')
              else None
          | EmptyString => None
          end
      end
  end

with parse_members (fuel : nat) (acc : list (string * JsValue)) (s : string)
  : option (JsValue * string) :=
  match fuel with
  | O => None
  | S f =>
      match skip_ws s with
      | String q r0 =>
          if (code q =? 34)%nat then
            match read_string r0 with
            | None => None
            | Some (k, r1) =>
                match skip_ws r1 with
                | String c r2 =>
                    if (code c =? 58)%nat then
                      match parse_value f r2 with
                      | None => None
                      | Some (v, r3) =>
                          match skip_ws r3 with
                          | String d r4 =>
                              if (code d =? 44)%nat then parse_members f (set_prop acc k v) r4
                              else if (code d =? 125)%nat then Some (JObj (set_prop acc k v), r4)
                              else None
                          | EmptyString => None
                          end
                      end
                    else None
                | EmptyString => None
                end
            end
          else None
      | EmptyString => None
      end
  end.

(** [JSON.parse(text)]: [None] is the thrown [SyntaxError]. Strings are
    strings of bytes here: a text with an escape above [\u00FF] is outside
    what this parser reads, and it answers [None] for it. *)
Definition parse (text : string) : option JsValue :=
  match parse_value (2 * String.length text + 2) text with
  | Some (v, r) =>
      match skip_ws r with
      | EmptyString => Some v
      | String _ _ => None
      end
  | None => None
  end.

(** Writes a text with ['] standing for the double quote, so that request
    bodies read as they are sent. *)
Fixpoint dq (s : string) : string :=
  match s with
  | EmptyString => EmptyString
  | String c s' => String (if (code c =? 39)%nat then ascii_of_nat 34 else c) (dq s')
  end.

End Json.

(** ** Effects: the counters, the observable events, and the monad the
    handlers run in *)

Module Eff.
Import JS.

(** [this.stats]. [startTime] is set once by the constructor and never
    written again; it is left out. *)
Record Stats : Type := {
  requestsBlocked : Z;
  requestsAllowed : Z;
  piiDetections : Z
}.

(** A value of the [init] object handed to [fetch]. *)
Inductive InitValue : Type :=
| IString (s : string)
| IHeaders (h : list (string * string))
| IStringify (v : JsValue).        (* JSON.stringify(v) *)

Inductive Event : Type :=
| EvFetch (url : string) (init : list (string * InitValue))  (* fetch(url, init) *)
| EvJson (status : Z) (body : JsValue)        (* res.status(status).json(body) *)
| EvSend (status : Z) (text : string)         (* res.status(status).send(text) *)
| EvForward (target : string) (body : string) (* proxy that writes the buffered body *)
| EvProxy (target : string)                   (* proxy that streams the request *)
| EvNext.                                     (* next() *)

Inductive Result (A : Type) : Type :=
| Done (a : A)
| Thrown (e : JsError)
| Stuck.                 (* suspended on a promise that never settles *)
Arguments Done {A} a.
Arguments Thrown {A} e.
Arguments Stuck {A}.

(** A computation reads and writes the counters and appends to the trace;
    what it wrote before throwing stays written. *)
Definition M (A : Type) : Type := Stats -> Result A * Stats * list Event.

Definition ret {A} (a : A) : M A := fun st => (Done a, st, []).

Definition bind {A B} (m : M A) (f : A -> M B) : M B :=
  fun st =>
    match m st with
    | (Done a, st1, t1) => let '(r, st2, t2) := f a st1 in (r, st2, (t1 ++ t2)%list)
    | (Thrown e, st1, t1) => (Thrown e, st1, t1)
    | (Stuck, st1, t1) => (Stuck, st1, t1)
    end.

Definition throw {A} (e : JsError) : M A := fun st => (Thrown e, st, []).

(** [try { m } catch (error) { h error }]. *)
Definition try_catch {A} (m : M A) (h : JsError -> M A) : M A :=
  fun st =>
    match m st with
    | (Thrown e, st1, t1) => let '(r, st2, t2) := h e st1 in (r, st2, (t1 ++ t2)%list)
    | other => other
    end.

Definition emit (e : Event) : M unit := fun st => (Done tt, st, [e]).

Definition lift {A} (c : Completion A) : M A :=
  match c with
  | Normal a => ret a
  | Throw e => throw e
  end.

(** [await p]. *)
Definition await {A} (p : Await A) : M A :=
  match p with
  | Fulfilled a => ret a
  | Rejected e => throw e
  | Pending => fun st => (Stuck, st, [])
  end.

Definition requestsBlocked_incr : M unit :=
  fun st => (Done tt, {| requestsBlocked := incr (requestsBlocked st);
                         requestsAllowed := requestsAllowed st;
                         piiDetections := piiDetections st |}, []).

Definition requestsAllowed_incr : M unit :=
  fun st => (Done tt, {| requestsBlocked := requestsBlocked st;
                         requestsAllowed := incr (requestsAllowed st);
                         piiDetections := piiDetections st |}, []).

Definition piiDetections_incr : M unit :=
  fun st => (Done tt, {| requestsBlocked := requestsBlocked st;
                         requestsAllowed := requestsAllowed st;
                         piiDetections := incr (piiDetections st) |}, []).

(** The counters after a blocked request, and after an allowed one. *)
Definition after_block (st : Stats) : Stats :=
  {| requestsBlocked := incr (requestsBlocked st);
     requestsAllowed := requestsAllowed st;
     piiDetections := incr (piiDetections st) |}.

Definition after_allow (st : Stats) : Stats :=
  {| requestsBlocked := requestsBlocked st;
     requestsAllowed := incr (requestsAllowed st);
     piiDetections := piiDetections st |}.

Definition result_of {A} (x : Result A * Stats * list Event) : Result A := fst (fst x).
Definition stats_of {A} (x : Result A * Stats * list Event) : Stats := snd (fst x).
Definition trace_of {A} (x : Result A * Stats * list Event) : list Event := snd x.

Definition is_fetch (e : Event) : bool :=
  match e with EvFetch _ _ => true | _ => false end.

Definition is_forward (e : Event) : bool :=
  match e with EvForward _ _ | EvProxy _ => true | _ => false end.

(** The remote classifier was called. *)
Definition remote_called (t : list Event) : bool := existsb is_fetch t.

(** The request went upstream. *)
Definition forwarded (t : list Event) : bool := existsb is_forward t.

End Eff.

Declare Scope eff_scope.
Delimit Scope eff_scope with eff.
Notation "x <- m ;; k" := (Eff.bind m (fun x => k))
  (at level 61, m at next level, right associativity) : eff_scope.
Notation "m ;;; k" := (Eff.bind m (fun _ => k))
  (at level 61, right associativity) : eff_scope.

(** ** Regular expressions of the shape the detector uses: a sequence of
    bounded repetitions of one character class, and word boundaries *)

Module Regex.

Definition charset : Type := ascii -> bool.

Inductive item : Type :=
| Rep (cs : charset) (lo : nat) (hi : option nat)  (* cs{lo,hi}; no [hi]: unbounded *)
| WordBoundary.                                    (* \b *)

Definition regex : Type := list item.

Definition in_range (lo hi : nat) (c : ascii) : bool :=
  let n := nat_of_ascii c in (lo <=? n)%nat && (n <=? hi)%nat.

Definition is_char (k : nat) (c : ascii) : bool := (nat_of_ascii c =? k)%nat.

Definition digit : charset := in_range 48 57.                           (* \d *)
Definition upper : charset := in_range 65 90.
Definition lower : charset := in_range 97 122.
Definition word : charset :=                                            (* \w *)
  fun c => upper c || lower c || digit c || is_char 95 c.
Definition space : charset :=                                           (* \s *)
  fun c => in_range 9 13 c || is_char 32 c || is_char 160 c.

Definition is_word_at (c : option ascii) : bool :=
  match c with
  | Some a => word a
  | None => false
  end.

Definition first_char (s : string) : option ascii :=
  match s with
  | EmptyString => None
  | String c _ => Some c
  end.

(** Between [lo] and [hi] characters of [cs], then the continuation [k];
    [prev] is the character before the position. *)
Fixpoint match_rep (cs : charset) (lo : nat) (hi : option nat)
    (k : option ascii -> string -> bool) (prev : option ascii) (s : string) : bool :=
  match lo with
  | O => k prev s
  | S _ => false
  end ||
  match s with
  | EmptyString => false
  | String c s' =>
      cs c &&
      match hi with
      | Some O => false
      | Some (S h) => match_rep cs (pred lo) (Some h) k (Some c) s'
      | None => match_rep cs (pred lo) None k (Some c) s'
      end
  end.

Fixpoint match_here (r : regex) (prev : option ascii) (s : string) : bool :=
  match r with
  | [] => true
  | Rep cs lo hi :: r' => match_rep cs lo hi (match_here r') prev s
  | WordBoundary :: r' =>
      xorb (is_word_at prev) (is_word_at (first_char s)) && match_here r' prev s
  end.

Fixpoint search (r : regex) (prev : option ascii) (s : string) : bool :=
  match_here r prev s ||
  match s with
  | EmptyString => false
  | String c s' => search r (Some c) s'
  end.

(** [pattern.test(text)] for a pattern without flags. *)
Definition test (r : regex) (text : string) : bool := search r None text.

Definition exactly (n : nat) (cs : charset) : item := Rep cs n (Some n).
Definition one (cs : charset) : item := Rep cs 1 (Some 1).
Definition optional (cs : charset) : item := Rep cs 0 (Some 1).
Definition plus (cs : charset) : item := Rep cs 1 None.
Definition at_least (n : nat) (cs : charset) : item := Rep cs n None.
Definition between (lo hi : nat) (cs : charset) : item := Rep cs lo (Some hi).

End Regex.

(** ** The platform *)

Module Platform.
Import JS Eff.

(** What [fetch] resolves to; [json] is the promise [response.json()]
    returns. *)
Record Response : Type := {
  ok : bool;
  status : Z;
  statusText : string;
  json : Await JsValue
}.

Record Env : Type := {
  (** [JSON.parse]; [None] is the thrown [SyntaxError]. *)
  JSON_parse : string -> option JsValue;
  (** The network: the promise [fetch(url, init)] returns. *)
  fetch : string -> list (string * InitValue) -> Await Response;
  (** [v > 10] for an operand that is a string, an array or an object
      (ToPrimitive, then StringToNumber); it may throw. *)
  gt10_coerced : JsValue -> Completion bool;
  (** The property key of [v - 1] for an operand [v] read from the [length]
      of a plain object. *)
  key_before : JsValue -> Completion string;
  (** [new Date().toISOString()]. *)
  now_iso : string;
  (** In [part_001] the handler goes on after
      [await this.handleChatRequest(req, res)] while the [end] listener
      is still to run or already running: how many steps of the listener
      have been taken when the handler goes on (0 when the body arrives
      later; an empty body has its listener run first). *)
  handler_resumes_after : nat;
  (** [res.headersSent] at the time the listener of [part_001] answers
      403: the request has been proxied by then, and the upstream answer
      may have started. *)
  headers_sent : bool
}.

End Platform.

(** ** [src/pii-detector.js] *)

Module PIIDetector.
Import JS Eff Platform Regex.
Local Open Scope eff_scope.

(** [constructor(geminiApiKey)]. *)
Record PIIDetector : Type := { apiKey : string; apiUrl : string }.

Definition new (geminiApiKey : string) : PIIDetector :=
  {| apiKey := geminiApiKey;
     apiUrl := "https://generativelanguage.googleapis.com/v1beta/models/gemini-pro:generateContent" |}.

(** The template literal of [detectPII] (['] stands for the double quote). *)
Definition prompt_head : string := Json.dq
"Analyze the following text for personally identifiable information (PII) including but not limited to:
- Names, email addresses, phone numbers
- Social security numbers, credit card numbers
- Addresses, dates of birth
- IP addresses, user IDs, passwords
- Medical information, financial data
- Any other sensitive personal information

Text to analyze: '".

Definition prompt_tail : string := Json.dq
"'

Respond with only:
- 'PII_DETECTED' if any PII is found
- 'NO_PII' if no PII is found

Do not include any other explanation.".

Definition prompt_for (text : string) : string := prompt_head ++ text ++ prompt_tail.

(** [data.candidates[0]?.content?.parts[0]?.text]: the reply's text, or
    [undefined] where the chain is cut short. *)
Definition candidate_part_text (data : JsValue) : Completion JsValue :=
  match member data "candidates" with
  | Throw e => Throw e
  | Normal candidates =>
      match index0 candidates with
      | Throw e => Throw e
      | Normal c0 =>
          if nullish c0 then Normal JUndefined else
          let content := opt_member c0 "content" in
          if nullish content then Normal JUndefined else
          match index0 (opt_member content "parts") with
          | Throw e => Throw e
          | Normal p0 =>
              if nullish p0 then Normal JUndefined else
              Normal (opt_member p0 "text")
          end
      end
  end.

(** [data.candidates[0]?.content?.parts[0]?.text?.trim()]. *)
Definition candidate_text (data : JsValue) : Completion JsValue :=
  match candidate_part_text data with
  | Throw e => Throw e
  | Normal text => if nullish text then Normal JUndefined else call_trim text
  end.

Definition request_url (self : PIIDetector) : string :=
  apiUrl self ++ "?key=" ++ apiKey self.

Definition request_init (text : string) : list (string * InitValue) :=
  [ ("method", IString "POST");
    ("headers", IHeaders [("Content-Type", "application/json")]);
    ("body", IStringify
       (JObj [("contents",
               JArr [JObj [("parts", JArr [JObj [("text", JStr (prompt_for text))]])]])])) ].

(** [async detectPII(text)], lines 7-51. *)
Definition detectPII (env : Env) (self : PIIDetector) (text : string) : M bool :=
  try_catch
    (emit (EvFetch (request_url self) (request_init text)) ;;;
     response <- await (fetch env (request_url self) (request_init text)) ;;
     if negb (ok response) then
       ret false                                   (* Fail open for user experience *)
     else
       data <- await (json response) ;;
       result <- lift (candidate_text data) ;;
       ret (strict_eq_str result "PII_DETECTED"))
    (fun _ => ret false).                           (* Fail open on error *)

(** What the remote call decides: the value [detectPII] settles with. *)
Definition verdict (env : Env) (self : PIIDetector) (text : string) : Result bool :=
  match fetch env (request_url self) (request_init text) with
  | Pending => Stuck
  | Rejected _ => Done false
  | Fulfilled response =>
      if negb (ok response) then Done false
      else match json response with
           | Pending => Stuck
           | Rejected _ => Done false
           | Fulfilled data =>
               match candidate_text data with
               | Throw _ => Done false
               | Normal result => Done (strict_eq_str result "PII_DETECTED")
               end
           end
  end.

Definition dash : charset := is_char 45.
Definition dot : charset := is_char 46.

(** [piiPatterns], lines 55-61. *)
Definition ssn : regex :=          (* /\b\d{3}-\d{2}-\d{4}\b/ *)
  [ WordBoundary; exactly 3 digit; one dash; exactly 2 digit; one dash;
    exactly 4 digit; WordBoundary ].

Definition dash_or_space : charset := fun c => dash c || space c.      (* [-\s] *)

Definition credit_card : regex :=  (* /\b\d{4}[-\s]?\d{4}[-\s]?\d{4}[-\s]?\d{4}\b/ *)
  [ WordBoundary; exactly 4 digit; optional dash_or_space; exactly 4 digit;
    optional dash_or_space; exactly 4 digit; optional dash_or_space;
    exactly 4 digit; WordBoundary ].

Definition local_part : charset :=                                     (* [A-Za-z0-9._%+-] *)
  fun c => upper c || lower c || digit c || dot c || is_char 95 c || is_char 37 c
           || is_char 43 c || dash c.
Definition domain_part : charset :=                                    (* [A-Za-z0-9.-] *)
  fun c => upper c || lower c || digit c || dot c || dash c.
Definition tld_part : charset :=                                       (* [A-Z|a-z] *)
  fun c => upper c || is_char 124 c || lower c.

Definition email : regex :=  (* /\b[A-Za-z0-9._%+-]+@[A-Za-z0-9.-]+\.[A-Z|a-z]{2,}\b/ *)
  [ WordBoundary; plus local_part; one (is_char 64); plus domain_part; one dot;
    at_least 2 tld_part; WordBoundary ].

Definition dash_or_dot : charset := fun c => dash c || dot c.          (* [-.] *)

Definition phone : regex :=        (* /\b\d{3}[-.]?\d{3}[-.]?\d{4}\b/ *)
  [ WordBoundary; exactly 3 digit; optional dash_or_dot; exactly 3 digit;
    optional dash_or_dot; exactly 4 digit; WordBoundary ].

Definition ip_address : regex :=   (* /\b\d{1,3}\.\d{1,3}\.\d{1,3}\.\d{1,3}\b/ *)
  [ WordBoundary; between 1 3 digit; one dot; between 1 3 digit; one dot;
    between 1 3 digit; one dot; between 1 3 digit; WordBoundary ].

Definition piiPatterns : list regex := [ssn; credit_card; email; phone; ip_address].

(** [quickPIICheck(text)], lines 54-64. *)
Definition quickPIICheck (text : string) : bool :=
  existsb (fun pattern => test pattern text) piiPatterns.

End PIIDetector.

(** ** What the three servers share: the request, and the test
    [prompt && prompt.length > 10] *)

Module Http.
Import JS Eff Platform.

(** An incoming request: [req.method], [req.originalUrl], [req.get('host')]
    ([None]: no Host header), the chunks its [data] events carry, and
    [req.connection.encrypted]. It is a request whose body is still
    unread when the route handler runs, so that the [data] and [end]
    listeners the handler registers do fire. A body that [express.json()]
    (installed before the routes by [setupMiddleware]) has parsed is read
    by then: for such a request the listeners never fire, and what the
    handlers below do in their listeners does not happen. *)
Record Request : Type := {
  method : string;
  originalUrl : string;
  host : option string;
  chunks : list string;
  encrypted : bool
}.

(** [body += chunk.toString()] over the [data] events. *)
Definition body_of (req : Request) : string := String.concat "" (chunks req).

(** [v > 10]. *)
Definition gt10 (env : Env) (v : JsValue) : Completion bool :=
  match v with
  | JUndefined | JNull | JBool _ => Normal false
  | JNum n => Normal (num_gt10 n)
  | JStr _ | JArr _ | JObj _ => gt10_coerced env v
  end.

(** [prompt && prompt.length > 10]. *)
Definition long_prompt (env : Env) (prompt : JsValue) : Completion bool :=
  if truthy prompt then gt10 env (opt_member prompt "length") else Normal false.

(** [data.messages[data.messages.length - 1]] when [data.messages] is an
    array: its last element, [undefined] when it is empty. *)
Definition last_message (elems : list JsValue) : JsValue := last elems JUndefined.

Definition crlf : string := String (ascii_of_nat 13) (String (ascii_of_nat 10) EmptyString).

End Http.

(** ** [src/server.js], lines 1-338 *)

Module Server.
Import JS Eff Platform Http.
Local Open Scope eff_scope.

(** [this.aiPlatforms], lines 39-45. *)
Definition aiPlatforms : list string :=
  [ "chat.openai.com"; "claude.ai"; "bard.google.com"; "copilot.microsoft.com";
    "gemini.google.com" ].

(** [this.aiPlatforms.some(platform => host.includes(platform))],
    lines 92 and 231. *)
Definition isAIPlatform (host : string) : bool :=
  existsb (fun platform => includes host platform) aiPlatforms.

(** [isChatEndpoint(url)], lines 197-206. *)
Definition chatEndpoints : list string :=
  [ "/backend-api/conversation"; "/api/organizations/"; "/v1/chat/completions";
    "/api/generate" ].

Definition isChatEndpoint (url : string) : bool :=
  existsb (fun endpoint => includes url endpoint) chatEndpoints.

(** The [try] block of [extractPrompt], lines 210-219; falling off its end
    is [Normal None]. *)
Definition extractPrompt_try (env : Env) (body : string) : Completion (option JsValue) :=
  match JSON_parse env body with
  | None => Throw SyntaxError
  | Some data =>
      match member data "messages" with
      | Throw e => Throw e
      | Normal messages =>
          match messages with
          | JArr elems =>      (* data.messages && Array.isArray(data.messages) *)
              let lastMessage := last_message elems in
              Normal (Some (js_or (opt_member lastMessage "content") (JStr "")))
          | _ =>
              if truthy (opt_member data "prompt") then Normal (Some (opt_member data "prompt"))
              else if truthy (opt_member data "input") then Normal (Some (opt_member data "input"))
              else if truthy (opt_member data "text") then Normal (Some (opt_member data "text"))
              else Normal None
          end
      end
  end.

(** [extractPrompt(body)], lines 208-226. *)
Definition extractPrompt (env : Env) (body : string) : JsValue :=
  match extractPrompt_try env body with
  | Normal (Some v) => v
  | Normal None => JStr ""
  | Throw _ => JStr (substring 0 1000 body)
  end.

(** [proxyRegularWebsite(req, res, host)], lines 154-171. *)
Definition proxyRegularWebsite (req : Request) (host : string) : M unit :=
  emit (EvProxy ((if encrypted req then "https" else "http") ++ "://" ++ host)).

(** [forwardRequest(req, res, host, body)], lines 173-195. *)
Definition forwardRequest (req : Request) (host : string) (body : string) : M unit :=
  emit (EvForward ("https://" ++ host) body).

(** The body of the 403 response, lines 128-133. *)
Definition blocked_response : JsValue :=
  JObj [ ("error", JStr "PII Detected");
         ("message", JStr "Your request contains personally identifiable information and has been blocked.");
         ("suggestion", JStr "Please remove personal information like names, emails, phone numbers, or addresses.");
         ("blocked", JBool true) ].

(** The [try] block of the [end] listener, lines 115-141; [true] is its
    early [return res.status(403).json(...)]. *)
Definition inspect (env : Env) (piiDetector : PIIDetector.PIIDetector)
    (req : Request) (host body : string) : M unit :=
  let prompt := extractPrompt env body in
  long <- lift (long_prompt env prompt) ;;
  returned <-
    (if long : bool then
       _ <- lift (call_substring prompt 50) ;;       (* the log line *)
       match prompt with
       | JStr text =>
           hasPII <- PIIDetector.detectPII env piiDetector text ;;
           if hasPII : bool then
             requestsBlocked_incr ;;;
             piiDetections_incr ;;;
             emit (EvJson 403 blocked_response) ;;;
             ret true
           else ret false
       | _ => ret false
       end
     else ret false) ;;
  if returned : bool then ret tt
  else
    requestsAllowed_incr ;;;
    forwardRequest req host body.

(** [handleAIPlatform(req, res, host)], lines 104-152, run until the
    request's [end] listener has finished. *)
Definition handleAIPlatform (env : Env) (piiDetector : PIIDetector.PIIDetector)
    (req : Request) (host : string) : M unit :=
  if (method req =? "POST") && isChatEndpoint (originalUrl req) then
    let body := body_of req in
    try_catch
      (inspect env piiDetector req host body)
      (fun _ => forwardRequest req host body)
  else
    proxyRegularWebsite req host.

(** The catch-all route of [setupRoutes], lines 84-101. *)
Definition route (env : Env) (piiDetector : PIIDetector.PIIDetector) (req : Request) : M unit :=
  match host req with
  | None => emit (EvSend 400 "Bad Request")
  | Some h =>
      if h =? "" then emit (EvSend 400 "Bad Request")
      else if isAIPlatform h then handleAIPlatform env piiDetector req h
      else proxyRegularWebsite req h
  end.

(** *** CONNECT *)

(** A file of the certificate directory. *)
Inductive File : Type :=
| Missing
| Unreadable                    (* [existsSync] holds, [readFileSync] throws *)
| Content (bytes : string).

Definition FileSystem : Type := string -> File.

Definition existsSync (fs : FileSystem) (path : string) : bool :=
  match fs path with
  | Missing => false
  | _ => true
  end.

Definition readFileSync (fs : FileSystem) (path : string) : Completion string :=
  match fs path with
  | Content bytes => Normal bytes
  | _ => Throw (TypeError "readFileSync")
  end.

(** What is seen on the client socket and around it. *)
Inductive SocketEvent : Type :=
| SockWrite (data : string)             (* clientSocket.write(data) *)
| SockEnd (data : string)               (* clientSocket.end(data): writes and closes *)
| TlsHandshake (cert key : string)      (* a TLS server socket over clientSocket *)
| Tunnel (hostname : string) (port : Z) (* serverSocket.write(head) and the two pipes *)
| UpstreamEnd.                          (* serverSocket.end() *)

Definition established : string := "HTTP/1.1 200 Connection Established" ++ crlf ++ crlf.
Definition server_error : string := "HTTP/1.1 500 Internal Server Error" ++ crlf ++ crlf.

(** How a connection opened with [net.connect] goes on: it fails before
    it is established, or it is established and then stays open, fails,
    is closed by the upstream host, or the client leaves (its socket
    ends or fails). *)
Inductive Later : Type :=
| StaysOpen
| UpstreamFails
| UpstreamCloses
| ClientLeaves.

Inductive Upstream : Type :=
| Refused
| Connected (later : Later).

(** What the CONNECT handlers depend on: the directory of the script, the
    files, whether [https.createServer] accepts a certificate and key, and
    how a connection to a host and port goes. *)
Record ConnectEnv : Type := {
  dirname : string;
  files : FileSystem;
  tls_accepts : string -> string -> bool;
  net_connect : string -> Z -> Upstream
}.

Definition certPath (cenv : ConnectEnv) (hostname : string) : string :=
  dirname cenv ++ "/certificates/" ++ hostname ++ ".crt".
Definition keyPath (cenv : ConnectEnv) (hostname : string) : string :=
  dirname cenv ++ "/certificates/" ++ hostname ++ ".key".

(** [handleAIConnect(req, clientSocket, head, hostname, port)],
    lines 243-273: the events in order, and how the call completes.
    Line 266 is [new require('tls').TLSSocket(clientSocket, {...})], that
    is [(new require('tls')).TLSSocket(clientSocket, {...})]: [new] takes
    [require('tls')], which gives the module, and [TLSSocket] is then
    called as a function of the module, without [new]. That call throws a
    TypeError, so no TLS socket is made and line 272 is not reached. *)
Definition handleAIConnect (cenv : ConnectEnv) (hostname : string)
  : list SocketEvent * Completion unit :=
  if negb (existsSync (files cenv) (certPath cenv hostname))
     || negb (existsSync (files cenv) (keyPath cenv hostname))
  then ([SockEnd server_error], Normal tt)
  else
    match readFileSync (files cenv) (certPath cenv hostname) with
    | Throw e => ([SockWrite established], Throw e)
    | Normal cert =>
        match readFileSync (files cenv) (keyPath cenv hostname) with
        | Throw e => ([SockWrite established], Throw e)
        | Normal key =>
            if tls_accepts cenv cert key
            then ([SockWrite established],
                  Throw (TypeError "this._wrapHandle is not a function"))
            else ([SockWrite established], Throw (TypeError "createServer"))
        end
    end.

(** How many times the 200 line was written to the client socket. *)
Definition is_established (e : SocketEvent) : bool :=
  match e with
  | SockWrite data => data =? established
  | _ => false
  end.

Definition written_200 (events : list SocketEvent) : nat :=
  List.length (filter is_established events).

(** What the listeners and the pipes of the tunnel do once it stands:
    the [error] listener of [serverSocket] (lines 284-287) and the pipe
    from it (line 280) end the client socket; the [error] listener of
    [clientSocket] (lines 289-292) and the pipe from it (line 281) end
    [serverSocket]. *)
Definition tunnel_end (later : Later) : list SocketEvent :=
  match later with
  | StaysOpen => []
  | UpstreamFails | UpstreamCloses => [SockEnd EmptyString]
  | ClientLeaves => [UpstreamEnd]
  end.

(** [handleRegularConnect], lines 275-293 ([port || 443]). *)
Definition handleRegularConnect (cenv : ConnectEnv) (hostname : string) (port : option Z)
  : list SocketEvent * Completion unit :=
  let p := match port with Some n => n | None => 443%Z end in
  match net_connect cenv hostname p with
  | Connected later =>
      ((SockWrite established :: Tunnel hostname p :: tunnel_end later)%list, Normal tt)
  | Refused => ([SockEnd EmptyString], Normal tt)
  end.

(** [handleConnect(req, clientSocket, head)], lines 229-241; [hostname] and
    [port] are what [url.parse] returns for the request's target. *)
Definition handleConnect (cenv : ConnectEnv) (hostname : string) (port : option Z)
  : list SocketEvent * Completion unit :=
  if isAIPlatform hostname
  then handleAIConnect cenv hostname
  else handleRegularConnect cenv hostname port.

End Server.

(** ** [src/server.js], lines 339-650 *)

Module Server2.
Import JS Eff Platform Http.
Local Open Scope eff_scope.

(** [this.config.aiPlatforms]: an object from platform name to a flag;
    lines 397-402 give the default. *)
Definition default_aiPlatforms : list (string * JsValue) :=
  [ ("chat.openai.com", JBool true); ("claude.ai", JBool true);
    ("bard.google.com", JBool true); ("copilot.microsoft.com", JBool true) ].

(** Lines 458-460:
    [Object.keys(aiPlatforms).some(platform =>
       host && host.includes(platform) && aiPlatforms[platform])]. *)
Definition isAIPlatform (aiPlatforms : list (string * JsValue)) (host : option string) : bool :=
  existsb
    (fun platform =>
       match host with
       | Some h => negb (h =? "") && includes h platform
                   && truthy (own_or_undefined aiPlatforms platform)
       | None => false
       end)
    (map fst aiPlatforms).

(** [isChatEndpoint(url)], lines 478-487. *)
Definition chatEndpoints : list string :=
  [ "/backend-api/conversation"; "/api/organizations/"; "/v1/chat/completions";
    "/api/generate" ].

Definition isChatEndpoint (url : string) : bool :=
  existsb (fun endpoint => includes url endpoint) chatEndpoints.

(** The [try] block of [extractPrompt], lines 537-553. *)
Definition extractPrompt_try (env : Env) (body : string) : Completion (option JsValue) :=
  match JSON_parse env body with
  | None => Throw SyntaxError
  | Some data =>
      match member data "messages" with
      | Throw e => Throw e
      | Normal messages =>
          match messages with
          | JArr elems =>
              let lastMessage := last_message elems in
              Normal (Some (js_or (opt_member lastMessage "content") (JStr "")))
          | _ =>
              if truthy (opt_member data "prompt") then Normal (Some (opt_member data "prompt"))
              else if truthy (opt_member data "input") then Normal (Some (opt_member data "input"))
              else if truthy (opt_member data "text") then Normal (Some (opt_member data "text"))
              else if truthy (opt_member data "query") then Normal (Some (opt_member data "query"))
              else Normal None
          end
      end
  end.

(** [extractPrompt(body, host)], lines 535-561. *)
Definition extractPrompt (env : Env) (body : string) : JsValue :=
  match extractPrompt_try env body with
  | Normal (Some v) => v
  | Normal None => JStr ""
  | Throw _ => JStr (substring 0 1000 body)       (* First 1000 chars *)
  end.

(** [proxyRequestWithBody], lines 563-583, and [proxyRequest], 585-599. *)
Definition proxyRequestWithBody (host : string) (body : string) : M unit :=
  emit (EvForward ("https://" ++ host) body).

Definition proxyRequest (host : string) : M unit :=
  emit (EvProxy ("https://" ++ host)).

(** The body of the 403 response, lines 511-517. *)
Definition blocked_response (env : Env) : JsValue :=
  JObj [ ("error", JStr "PII Detected");
         ("message", JStr "Your request contains personally identifiable information and has been blocked.");
         ("suggestion", JStr "Please remove personal information like names, emails, phone numbers, or addresses.");
         ("blocked", JBool true);
         ("timestamp", JStr (now_iso env)) ].

(** The [try] block of the [end] listener, lines 498-525. *)
Definition inspect (env : Env) (piiDetector : PIIDetector.PIIDetector)
    (host body : string) : M unit :=
  let prompt := extractPrompt env body in
  long <- lift (long_prompt env prompt) ;;          (* Skip very short prompts *)
  returned <-
    (if long : bool then
       _ <- lift (call_substring prompt 50) ;;
       match prompt with
       | JStr text =>
           hasPII <- PIIDetector.detectPII env piiDetector text ;;
           if hasPII : bool then
             requestsBlocked_incr ;;;
             piiDetections_incr ;;;
             emit (EvJson 403 (blocked_response env)) ;;;
             ret true
           else ret false
       | _ => ret false
       end
     else ret false) ;;
  if returned : bool then ret tt
  else
    requestsAllowed_incr ;;;
    proxyRequestWithBody host body.

(** [handleChatRequest(req, res, host)], lines 489-533, run until the
    [end] listener has finished. *)
Definition handleChatRequest (env : Env) (piiDetector : PIIDetector.PIIDetector)
    (req : Request) (host : string) : M unit :=
  let body := body_of req in
  try_catch
    (inspect env piiDetector host body)
    (fun _ =>
       requestsAllowed_incr ;;;                      (* Fail open *)
       proxyRequestWithBody host body).

(** The handler [createProxyHandler()] returns, lines 453-476. *)
Definition createProxyHandler (env : Env) (piiDetector : PIIDetector.PIIDetector)
    (aiPlatforms : list (string * JsValue)) (req : Request) : M unit :=
  if negb (isAIPlatform aiPlatforms (host req)) then
    emit (EvJson 404 (JObj [("error", JStr "Not an AI platform")]))
  else
    match host req with
    | Some h =>
        if (method req =? "POST") && isChatEndpoint (originalUrl req)
        then handleChatRequest env piiDetector req h
        else proxyRequest h
    | None => ret tt
    end.

End Server2.

(** ** [src/unnamed/part_001] *)

Module Part001.
Import JS Eff Platform Http.
Local Open Scope eff_scope.

(** Lines 47-52. *)
Definition default_aiPlatforms : list (string * JsValue) :=
  [ ("chat.openai.com", JBool true); ("claude.ai", JBool true);
    ("bard.google.com", JBool true); ("copilot.microsoft.com", JBool true) ].

(** Lines 89-91. *)
Definition isAIPlatform (aiPlatforms : list (string * JsValue)) (host : option string) : bool :=
  existsb
    (fun platform =>
       match host with
       | Some h => negb (h =? "") && includes h platform
                   && truthy (own_or_undefined aiPlatforms platform)
       | None => false
       end)
    (map fst aiPlatforms).

(** [isChatEndpoint(url)], lines 110-118. *)
Definition chatEndpoints : list string :=
  [ "/backend-api/conversation"; "/api/organizations/"; "/v1/chat/completions" ].

Definition isChatEndpoint (url : string) : bool :=
  existsb (fun endpoint => includes url endpoint) chatEndpoints.

Fixpoint last_char (s : string) : JsValue :=
  match s with
  | EmptyString => JUndefined
  | String c EmptyString => JStr (String c EmptyString)
  | String _ s' => last_char s'
  end.

(** [data.messages[data.messages.length - 1]] for a truthy [data.messages]
    of any kind (this revision does not ask for an array). *)
Definition last_of (env : Env) (messages : JsValue) : Completion JsValue :=
  match messages with
  | JUndefined | JNull => Throw (TypeError "Cannot read properties of undefined or null")
  | JBool _ | JNum _ => Normal JUndefined
  | JStr s => Normal (last_char s)
  | JArr elems => Normal (last_message elems)
  | JObj props =>
      match key_before env (own_or_undefined props "length") with
      | Throw e => Throw e
      | Normal key => Normal (own_or_undefined props key)
      end
  end.

(** The [try] block of [extractPrompt], lines 176-194. *)
Definition extractPrompt_try (env : Env) (body : string) : Completion JsValue :=
  match JSON_parse env body with
  | None => Throw SyntaxError
  | Some data =>
      match member data "messages" with
      | Throw e => Throw e
      | Normal messages =>
          if truthy messages then                      (* ChatGPT format *)
            match last_of env messages with
            | Throw e => Throw e
            | Normal lastMessage => Normal (js_or (opt_member lastMessage "content") (JStr ""))
            end
          else if truthy (opt_member data "prompt") then Normal (opt_member data "prompt")
          else if truthy (opt_member data "input") then Normal (opt_member data "input")
          else Normal (JStr "")
      end
  end.

(** [extractPrompt(body, host)], lines 174-199. *)
Definition extractPrompt (env : Env) (body : string) : JsValue :=
  match extractPrompt_try env body with
  | Normal v => v
  | Throw _ => JStr ""
  end.

(** [forwardRequest(req, res, body)], lines 201-217, and
    [proxyRequest(req, res, host)], lines 219-229. *)
Definition host_text (h : option string) : string :=
  match h with
  | Some s => s
  | None => "undefined"
  end.

Definition forwardRequest (req : Request) (body : string) : M unit :=
  emit (EvForward ("https://" ++ host_text (host req)) body).

Definition proxyRequest (h : option string) : M unit :=
  emit (EvProxy ("https://" ++ host_text h)).

(** The body of the 403 response, lines 147-152. *)
Definition blocked_response : JsValue :=
  JObj [ ("error", JStr "PII Detected");
         ("message", JStr "Your request contains personally identifiable information and has been blocked for security reasons.");
         ("blocked", JBool true);
         ("suggestion", JStr "Please remove any personal information such as names, emails, phone numbers, or addresses and try again.") ].

(** [res.status(403).json(...)], lines 147-152: [res.json] sets a header,
    which throws once the headers of the response have been sent. *)
Definition answer_403 (env : Env) : M unit :=
  if headers_sent env
  then throw (TypeError "ERR_HTTP_HEADERS_SENT")
  else emit (EvJson 403 blocked_response).

(** The [end] listener, lines 128-164. Nothing catches what it throws. *)
Definition on_end (env : Env) (piiDetector : PIIDetector.PIIDetector)
    (req : Request) (body : string) : M unit :=
  let prompt := extractPrompt env body in
  returned <-
    (if truthy prompt then
       _ <- lift (call_substring prompt 100) ;;      (* the log line *)
       match prompt with
       | JStr text =>
           let quickCheck := PIIDetector.quickPIICheck text in   (* Quick pre-screen *)
           hasPII <- (if quickCheck
                      then PIIDetector.detectPII env piiDetector text   (* Full AI analysis *)
                      else ret false) ;;
           if hasPII : bool then
             requestsBlocked_incr ;;;
             piiDetections_incr ;;;
             answer_403 env ;;;
             ret true                                  (* Request blocked *)
           else ret false
       | _ => ret false
       end
     else ret false) ;;
  if returned : bool then ret tt
  else
    requestsAllowed_incr ;;;
    forwardRequest req body.

(** [handleChatRequest(req, res)], lines 120-172: it registers the two
    listeners and returns [false] at once (line 166). *)
Definition handleChatRequest (req : Request) : M bool :=
  try_catch
    (ret false)                                        (* Will be handled async *)
    (fun _ => requestsAllowed_incr ;;; ret false).     (* Fail open *)

(** The handler [createProxyHandler()] returns, lines 86-108. *)
Definition createProxyHandler (aiPlatforms : list (string * JsValue)) (req : Request) : M unit :=
  if negb (isAIPlatform aiPlatforms (host req)) then emit EvNext
  else
    blocked <-
      (if (method req =? "POST") && isChatEndpoint (originalUrl req)
       then handleChatRequest req
       else ret false) ;;
    if blocked : bool then ret tt
    else proxyRequest (host req).                      (* Proxy the request *)

(** The steps of the handler, taken after the first [k] steps of the
    listener. *)
Definition resumed_after (k : nat) (handler listener : list Event) : list Event :=
  (firstn k listener ++ handler ++ skipn k listener)%list.

(** A request from its arrival to the end of its [end] listener. For a
    chat submission the handler registers the listener, is suspended at
    its [await] (line 100) and goes on to [proxyRequest] (line 106) at a
    point that the arrival of the body decides; the listener runs once the
    body has arrived. The counters are the listener's: the handler does
    not touch them. *)
Definition serve (env : Env) (piiDetector : PIIDetector.PIIDetector)
    (aiPlatforms : list (string * JsValue)) (req : Request) : M unit :=
  fun st =>
    if isAIPlatform aiPlatforms (host req)
       && (method req =? "POST") && isChatEndpoint (originalUrl req)
    then
      let '(_, st1, handler) := createProxyHandler aiPlatforms req st in
      let '(r, st2, listener) := on_end env piiDetector req (body_of req) st1 in
      (r, st2, resumed_after (handler_resumes_after env) handler listener)
    else createProxyHandler aiPlatforms req st.

End Part001.

(** ** [src/unnamed/part_000]: the certificate manager *)

Module CertManager.
Import JS.

(** Keys. [forge.pki.rsa.generateKeyPair(2048)] draws a new pair each time
    it is called; the [n]-th pair drawn is [generateKeyPair n]. *)
Inductive PublicKey : Type := Pub (id : nat).
Inductive PrivateKey : Type := Priv (id : nat).
Record KeyPair : Type := { publicKey : PublicKey; privateKey : PrivateKey }.

Definition generateKeyPair (n : nat) : KeyPair :=
  {| publicKey := Pub n; privateKey := Priv n |}.

(** The public half of a private key. *)
Definition public_of (k : PrivateKey) : PublicKey :=
  match k with Priv n => Pub n end.

(** A [Date] by its local calendar fields. *)
Record Date : Type := { fullYear : Z; month : Z; date : Z; msOfDay : Z }.

Definition leap_year (y : Z) : bool :=
  ((y mod 4 =? 0) && negb (y mod 100 =? 0) || (y mod 400 =? 0))%Z.

(** [d.setFullYear(y)]: month, day and time are kept; 29 February of a
    year that has none becomes 1 March. *)
Definition setFullYear (d : Date) (y : Z) : Date :=
  if ((month d =? 1) && (date d =? 29))%Z && negb (leap_year y)
  then {| fullYear := y; month := 2; date := 1; msOfDay := msOfDay d |}
  else {| fullYear := y; month := month d; date := date d; msOfDay := msOfDay d |}.

(** One reading of the clock, [new Date()]: the epoch milliseconds and the
    calendar fields. *)
Record Reading : Type := { getTime : Z; calendar : Date }.

Record Attribute : Type := { name : string; value : string }.
Record AltName : Type := { type : Z; altValue : string }.

Inductive Extension : Type :=
| BasicConstraints (cA : bool)
| KeyUsage (keyCertSign digitalSignature keyEncipherment : bool)
| SubjectAltName (altNames : list AltName).

(** A certificate after [sign(key, sha256)]: [signedWith] is the key that
    signed it. *)
Record Certificate : Type := {
  certPublicKey : PublicKey;
  serialNumber : string;
  notBefore : Date;
  notAfter : Date;
  subject : list Attribute;
  issuer : list Attribute;
  extensions : list Extension;
  signedWith : PrivateKey
}.

(** A file of the certificate directory, by what its PEM text encodes;
    [Damaged] is a file that holds no PEM text (a write that was cut
    short leaves one). *)
Inductive Pem : Type :=
| CertificatePem (c : Certificate)
| PrivateKeyPem (k : PrivateKey)
| Damaged.

(** How a call of [fs.writeFileSync] ends: the file is written; or the
    call throws and the file is as it was (no permission, a read-only
    directory); or it throws after the file was opened and leaves it cut
    short (no space left). *)
Inductive WriteResult : Type :=
| Written
| Refused
| CutShort.

(** The world the manager acts on: the files, how many key pairs and
    clock readings have been drawn and how many writes have been tried so
    far, and how the [n]-th write ends. *)
Record World : Type := {
  fs : string -> option Pem;
  keysDrawn : nat;
  clockReads : nat;
  writes : nat;
  disk : nat -> WriteResult
}.

Definition with_file (path : string) (content : Pem) (w : World) : World :=
  {| fs := fun p => if p =? path then Some content else fs w p;
     keysDrawn := keysDrawn w;
     clockReads := clockReads w;
     writes := S (writes w);
     disk := disk w |}.

Definition writeFileSync (path : string) (content : Pem) (w : World)
  : Completion unit * World :=
  match disk w (writes w) with
  | Written => (Normal tt, with_file path content w)
  | Refused =>
      (Throw (TypeError "EACCES"),
       {| fs := fs w; keysDrawn := keysDrawn w; clockReads := clockReads w;
          writes := S (writes w); disk := disk w |})
  | CutShort => (Throw (TypeError "ENOSPC"), with_file path Damaged w)
  end.

Definition existsSync (w : World) (path : string) : bool :=
  match fs w path with
  | Some _ => true
  | None => false
  end.

Definition draw_key (w : World) : KeyPair * World :=
  (generateKeyPair (keysDrawn w),
   {| fs := fs w; keysDrawn := S (keysDrawn w); clockReads := clockReads w;
      writes := writes w; disk := disk w |}).

(** [new Date()] against a clock that answers the [n]-th reading. *)
Definition new_Date (clock : nat -> Reading) (w : World) : Reading * World :=
  (clock (clockReads w),
   {| fs := fs w; keysDrawn := keysDrawn w; clockReads := S (clockReads w);
      writes := writes w; disk := disk w |}).

Definition decimal (z : Z) : string := DecimalString.NilZero.string_of_int (Z.to_int z).

(** [this.certDir] is [path.join(__dirname, 'certificates')]. *)
Definition in_dir (certDir file : string) : string := certDir ++ "/" ++ file.

Definition caAttrs : list Attribute :=
  [ {| name := "commonName"; value := "AI Proxy Protector CA" |};
    {| name := "organizationName"; value := "AI Proxy Protector" |};
    {| name := "organizationalUnitName"; value := "Security" |} ].

(** [generateCA()], lines 17-65: what it returns, or what it throws, and
    the world it leaves. *)
Definition generateCA (clock : nat -> Reading) (certDir : string) (w : World)
  : Completion (Certificate * PrivateKey) * World :=
  let '(caKeys, w1) := draw_key w in
  let '(r1, w2) := new_Date clock w1 in
  let '(r2, w3) := new_Date clock w2 in
  let caCert :=
    {| certPublicKey := publicKey caKeys;
       serialNumber := "01";
       notBefore := calendar r1;
       notAfter := setFullYear (calendar r2) (fullYear (calendar r1) + 10);
       subject := caAttrs;
       issuer := caAttrs;
       extensions := [BasicConstraints true; KeyUsage true true true];
       signedWith := privateKey caKeys |} in
  match writeFileSync (in_dir certDir "ca.crt") (CertificatePem caCert) w3 with
  | (Throw e, w4) => (Throw e, w4)
  | (Normal _, w4) =>
      match writeFileSync (in_dir certDir "ca.key") (PrivateKeyPem (privateKey caKeys)) w4 with
      | (Throw e, w5) => (Throw e, w5)
      | (Normal _, w5) => (Normal (caCert, privateKey caKeys), w5)
      end
  end.

(** [fs.readFileSync] followed by [certificateFromPem] / [privateKeyFromPem]. *)
Definition load_certificate (w : World) (path : string) : Completion Certificate :=
  match fs w path with
  | Some (CertificatePem c) => Normal c
  | Some _ => Throw (TypeError "Invalid PEM formatted message")
  | None => Throw (TypeError "ENOENT")
  end.

Definition load_privateKey (w : World) (path : string) : Completion PrivateKey :=
  match fs w path with
  | Some (PrivateKeyPem k) => Normal k
  | Some _ => Throw (TypeError "Invalid PEM formatted message")
  | None => Throw (TypeError "ENOENT")
  end.

(** The certificate [generateServerCert] builds, lines 80-106. *)
Definition serverCert_for (hostname : string) (caCert : Certificate) (caKey : PrivateKey)
    (serverKeys : KeyPair) (serial before after : Reading) : Certificate :=
  {| certPublicKey := publicKey serverKeys;
     serialNumber := decimal (getTime serial);
     notBefore := calendar before;
     notAfter := setFullYear (calendar after) (fullYear (calendar before) + 1);
     subject := [ {| name := "commonName"; value := hostname |} ];
     issuer := subject caCert;
     extensions :=
       [ SubjectAltName [ {| type := 2; altValue := hostname |};
                          {| type := 2; altValue := "*." ++ hostname |} ] ];
     signedWith := caKey |}.

(** [generateServerCert(hostname)], lines 67-119: the paths it returns, or
    what it throws, and the world it leaves. *)
Definition generateServerCert (clock : nat -> Reading) (certDir hostname : string) (w : World)
  : Completion (string * string) * World :=
  match load_certificate w (in_dir certDir "ca.crt") with
  | Throw e => (Throw e, w)
  | Normal caCert =>
      match load_privateKey w (in_dir certDir "ca.key") with
      | Throw e => (Throw e, w)
      | Normal caKey =>
          let '(serverKeys, w1) := draw_key w in
          let '(r0, w2) := new_Date clock w1 in
          let '(r1, w3) := new_Date clock w2 in
          let '(r2, w4) := new_Date clock w3 in
          let serverCert := serverCert_for hostname caCert caKey serverKeys r0 r1 r2 in
          let certPath := in_dir certDir (hostname ++ ".crt") in
          let keyPath := in_dir certDir (hostname ++ ".key") in
          match writeFileSync certPath (CertificatePem serverCert) w4 with
          | (Throw e, w5) => (Throw e, w5)
          | (Normal _, w5) =>
              match writeFileSync keyPath (PrivateKeyPem (privateKey serverKeys)) w5 with
              | (Throw e, w6) => (Throw e, w6)
              | (Normal _, w6) => (Normal (certPath, keyPath), w6)
              end
          end
      end
  end.

(** Line 129. *)
Definition platforms : list string :=
  [ "chat.openai.com"; "claude.ai"; "bard.google.com"; "copilot.microsoft.com" ].

(** The callback of [platforms.forEach], lines 131-136. *)
Definition setup_platform (clock : nat -> Reading) (certDir platform : string) (w : World)
  : Completion unit * World :=
  if negb (existsSync w (in_dir certDir (platform ++ ".crt")))
  then match generateServerCert clock certDir platform w with
       | (Normal _, w') => (Normal tt, w')
       | (Throw e, w') => (Throw e, w')
       end
  else (Normal tt, w).

Fixpoint forEach (f : string -> World -> Completion unit * World) (l : list string) (w : World)
  : Completion unit * World :=
  match l with
  | [] => (Normal tt, w)
  | x :: rest =>
      match f x w with
      | (Normal _, w') => forEach f rest w'
      | (Throw e, w') => (Throw e, w')
      end
  end.

(** [setup()], lines 121-140. *)
Definition setup (clock : nat -> Reading) (certDir : string) (w : World)
  : Completion unit * World :=
  if negb (existsSync w (in_dir certDir "ca.crt"))
  then match generateCA clock certDir w with
       | (Throw e, w1) => (Throw e, w1)
       | (Normal _, w1) => forEach (setup_platform clock certDir) platforms w1
       end
  else forEach (setup_platform clock certDir) platforms w.

(** The certificate on disk for a hostname, if any. *)
Definition certificate_of (certDir hostname : string) (w : World) : option Certificate :=
  match fs w (in_dir certDir (hostname ++ ".crt")) with
  | Some (CertificatePem c) => Some c
  | _ => None
  end.



End CertManager.

(** ** What the inspection of a string prompt amounts to *)

Module Inspection.
Import JS Eff Platform.

(** The [try] block on a prompt that is a string: the classifier is asked
    when the prompt is longer than 10, and its verdict decides. *)
Definition inspected (env : Env) (piiDetector : PIIDetector.PIIDetector)
    (text : string) (st : Stats) (blocked forward : Event) : Result unit * Stats * list Event :=
  let call := EvFetch (PIIDetector.request_url piiDetector) (PIIDetector.request_init text) in
  if (10 <? String.length text)%nat then
    match PIIDetector.verdict env piiDetector text with
    | Done true => (Done tt, after_block st, [call; blocked])
    | Done false => (Done tt, after_allow st, [call; forward])
    | Thrown e => (Thrown e, st, [call])
    | Stuck => (Stuck, st, [call])
    end
  else (Done tt, after_allow st, [forward]).

End Inspection.

(** ** The extraction rules in the specification's words

    The rules are tried in order and the first that matches wins: a
    [messages] list gives the content of its last element; then the
    top-level fields [prompt], [input], [text] and [query]. A field
    matches when it holds a truthy value. A body that does not parse gives
    its first 1000 characters. *)

Module Extraction.
Import JS.

Definition Rule : Type := JsValue -> option JsValue.

Definition messages_rule : Rule :=
  fun data =>
    match opt_member data "messages" with
    | JArr elems => Some (js_or (opt_member (Http.last_message elems) "content") (JStr ""))
    | _ => None
    end.

Definition field_rule (name : string) : Rule :=
  fun data =>
    let v := opt_member data name in
    if truthy v then Some v else None.

Definition rules : list Rule :=
  [ messages_rule; field_rule "prompt"; field_rule "input"; field_rule "text";
    field_rule "query" ].

Fixpoint first_match (rs : list Rule) (data : JsValue) : option JsValue :=
  match rs with
  | [] => None
  | r :: rest =>
      match r data with
      | Some v => Some v
      | None => first_match rest data
      end
  end.

Definition extract (parse : string -> option JsValue) (body : string) : JsValue :=
  match parse body with
  | None => JStr (substring 0 1000 body)
  | Some data =>
      match first_match rules data with
      | Some v => v
      | None => JStr ""
      end
  end.

End Extraction.

(** ** The matching rule in the specification's words

    A hostname is intercepted when it equals a configured platform name or
    ends with a dot followed by it. *)

Module HostPolicy.

Fixpoint ends_with (s suffix : string) : bool :=
  (s =? suffix) ||
  match s with
  | EmptyString => false
  | String _ s' => ends_with s' suffix
  end.

Definition exact_or_suffix (hostname pattern : string) : bool :=
  (hostname =? pattern) || ends_with hostname ("." ++ pattern).

Definition intercepted (patterns : list string) (hostname : string) : bool :=
  existsb (exact_or_suffix hostname) patterns.

End HostPolicy.

(** ** Concrete surroundings for the scenarios *)

Module Scenario.
Import JS Eff Platform Http.

(** The classifier's answer with [text] as the model's reply. *)
Definition gemini_reply (text : string) : JsValue :=
  JObj [("candidates",
         JArr [JObj [("content", JObj [("parts", JArr [JObj [("text", JStr text)]])])]])].

Definition replies (text : string) : Await Response :=
  Fulfilled {| ok := true; status := 200; statusText := "OK";
               json := Fulfilled (gemini_reply text) |}.

(** An environment whose network answers every call with [remote]. Its
    [gt10_coerced] and [key_before] are the values for an operand that
    does not convert to a number ([NaN > 10] is false, and the key of
    [NaN] is [NaN]); the scenarios have no prompt and no [messages] with
    a [length] of its own that converts to one. Its handler goes on
    before the listener runs, and no answer has started when the
    listener answers. *)
Definition env_with (remote : Await Response) : Env :=
  {| JSON_parse := Json.parse;
     fetch := fun _ _ => remote;
     gt10_coerced := fun _ => Normal false;
     key_before := fun _ => Normal "NaN";
     now_iso := "2025-01-01T00:00:00.000Z";
     handler_resumes_after := 0;
     headers_sent := false |}.

Definition detector : PIIDetector.PIIDetector := PIIDetector.new "key".

Definition stats0 : Stats :=
  {| requestsBlocked := 0; requestsAllowed := 0; piiDetections := 0 |}.

(** [POST /v1/chat/completions] to [chat.openai.com] with the given body. *)
Definition chat_post (body : string) : Request :=
  {| method := "POST"; originalUrl := "/v1/chat/completions";
     host := Some "chat.openai.com"; chunks := [Json.dq body]; encrypted := true |}.


(** A certificate directory with the pair of files of [claude.ai], and one
    without. *)
Definition with_claude_files : Server.ConnectEnv :=
  {| Server.dirname := "/app";
     Server.files := fun path =>
       if path =? "/app/certificates/claude.ai.crt" then Server.Content "CERTIFICATE"
       else if path =? "/app/certificates/claude.ai.key" then Server.Content "PRIVATE KEY"
       else Server.Missing;
     Server.tls_accepts := fun _ _ => true;
     Server.net_connect := fun _ _ => Server.Connected Server.StaysOpen |}.

Definition without_files : Server.ConnectEnv :=
  {| Server.dirname := "/app";
     Server.files := fun _ => Server.Missing;
     Server.tls_accepts := fun _ _ => true;
     Server.net_connect := fun _ _ => Server.Connected Server.StaysOpen |}.

(** A clock that starts on 1 January 2026 and advances one millisecond per
    reading, and an empty certificate directory. *)
Definition clock2026 (n : nat) : CertManager.Reading :=
  {| CertManager.getTime := 1767225600000 + Z.of_nat n;
     CertManager.calendar :=
       {| CertManager.fullYear := 2026; CertManager.month := 0; CertManager.date := 1;
          CertManager.msOfDay := Z.of_nat n |} |}.

Definition empty_world : CertManager.World :=
  {| CertManager.fs := fun _ => None; CertManager.keysDrawn := 0; CertManager.clockReads := 0;
     CertManager.writes := 0; CertManager.disk := fun _ => CertManager.Written |}.

Definition certDir : string := "/app/certificates".




(** A disk on which the second write fails and leaves the file as it
    was. *)
Definition second_write_refused : CertManager.World :=
  {| CertManager.fs := fun _ => None; CertManager.keysDrawn := 0; CertManager.clockReads := 0;
     CertManager.writes := 0;
     CertManager.disk := fun n => if (n =? 1)%nat then CertManager.Refused
                                  else CertManager.Written |}.

(** The directory after a first run of [setup]. *)
Definition world_setup : CertManager.World :=
  snd (CertManager.setup clock2026 certDir empty_world).

End Scenario.

(** ** Predicates on the characters of a string *)

Module Text.

Fixpoint string_exists (p : ascii -> bool) (s : string) : bool :=
  match s with
  | EmptyString => false
  | String c s' => p c || string_exists p s'
  end.

Fixpoint string_forall (p : ascii -> bool) (s : string) : bool :=
  match s with
  | EmptyString => true
  | String c s' => p c && string_forall p s'
  end.

(** A digit or the at sign. *)
Definition digit_or_at (c : ascii) : bool := Regex.digit c || Regex.is_char 64 c.

(** The character before the position reached after reading [s], when
    [prev] was the character before its start. *)
Fixpoint prev_after (prev : option ascii) (s : string) : option ascii :=
  match s with
  | EmptyString => prev
  | String c s' => prev_after (Some c) s'
  end.

(** A file name: no path separator in it. *)
Definition no_separator (h : string) : bool := negb (string_exists (Regex.is_char 47) h).

(** A text with a token shaped like a social security number standing on
    its own: [pre], three digits, a dash, two digits, a dash, four digits,
    [post]. *)
Definition ssn_text (pre d3 d2 d4 post : string) : string :=
  pre ++ d3 ++ "-" ++ d2 ++ "-" ++ d4 ++ post.

End Text.

(** ** Reading a trace *)

Module Trace.
Import Eff.

Definition is_json (e : Event) : bool :=
  match e with EvJson _ _ => true | _ => false end.

(** The handler answered the client itself, with [res.status(..).json(..)]. *)
Definition answered (t : list Event) : bool := existsb is_json t.

(** How many times the request was handed to a proxy. *)
Definition times_forwarded (t : list Event) : nat := List.length (filter is_forward t).

(** The [init.body] texts the classifier was sent. *)
Fixpoint classified_texts (t : list Event) : list (list (string * InitValue)) :=
  match t with
  | [] => []
  | EvFetch _ init :: rest => init :: classified_texts rest
  | _ :: rest => classified_texts rest
  end.

End Trace.

(** ** More surroundings for the scenarios *)

Module Scenario2.
Import JS Eff Platform Http.

(** An environment whose network refuses every call. *)
Definition env_down : Env :=
  Scenario.env_with (Rejected (NetworkError "fetch failed")).

(** [GET /index.html] to [chat.openai.com], and a POST to a host that is
    no AI platform. *)
Definition get_page : Request :=
  {| method := "GET"; originalUrl := "/index.html";
     host := Some "chat.openai.com"; chunks := []; encrypted := true |}.

Definition post_elsewhere : Request :=
  {| method := "POST"; originalUrl := "/v1/chat/completions";
     host := Some "example.org"; chunks := [Json.dq "{'prompt':'contact me at a@b.com'}"];
     encrypted := false |}.

(** A chat submission whose content is a list of parts. *)
Definition parts_body : string :=
  "{'messages':[{'role':'user','content':[{'type':'text','text':'my ssn is 123-45-6789'}]}]}".

End Scenario2.

(** ** Reading the disk of the certificate manager *)

Module CertDisk.
Import CertManager.

(** A write tried between [w] and [w'] did not succeed. *)
Definition write_failed (w w' : World) : Prop :=
  exists n, (writes w <= n)%nat /\ (n < writes w')%nat /\ disk w n <> Written.

(** Every write succeeds. *)
Definition healthy (w : World) : Prop := forall n, disk w n = Written.

End CertDisk.

(** ** The proxy over the directory the certificate manager wrote *)

Module Deployment.

(** [path.join(__dirname, 'certificates')] (part_000, line 7). *)
Definition certDir (dirname : string) : string := dirname ++ "/certificates".

(** The files [server.js] reads are the ones the manager wrote: a file is
    there when the manager's world has it, and its bytes are the PEM text
    [pem] of what it holds. *)
Definition files_of (pem : CertManager.Pem -> string) (w : CertManager.World)
  : Server.FileSystem :=
  fun path =>
    match CertManager.fs w path with
    | Some content => Server.Content (pem content)
    | None => Server.Missing
    end.

Definition connect_env (pem : CertManager.Pem -> string) (dirname : string)
    (w : CertManager.World) (tls_accepts : string -> string -> bool)
    (net_connect : string -> Z -> Server.Upstream) : Server.ConnectEnv :=
  {| Server.dirname := dirname;
     Server.files := files_of pem w;
     Server.tls_accepts := tls_accepts;
     Server.net_connect := net_connect |}.

End Deployment.

(** ** [start()] of the two revisions that listen with TLS themselves *)

Module Startup.
Import JS.

(** What [start()] does that can be seen from outside. *)
Inductive StartEvent : Type :=
| ListenWeb (port : JsValue)                   (* this.app.listen(this.config.webPort, ...) *)
| ListenProxy (cert key : string) (port : JsValue)
                                               (* https.createServer(options, this.app).listen(...) *)
| NoCertificates                               (* console.error('Certificates not found...') *)
| NoApiKey.                                    (* console.error('Please set GEMINI_API_KEY...') *)

(** [path.join(__dirname, 'certificates', 'chat.openai.com.crt')] and
    [... 'chat.openai.com.key']. *)
Definition certPath (cenv : Server.ConnectEnv) : string :=
  Server.dirname cenv ++ "/certificates/chat.openai.com.crt".
Definition keyPath (cenv : Server.ConnectEnv) : string :=
  Server.dirname cenv ++ "/certificates/chat.openai.com.key".

(** Reading the two files and listening with them. *)
Definition listen_with_files (cenv : Server.ConnectEnv) (config : list (string * JsValue))
  : list StartEvent * Completion unit :=
  match Server.readFileSync (Server.files cenv) (certPath cenv) with
  | Throw e => ([], Throw e)
  | Normal cert =>
      match Server.readFileSync (Server.files cenv) (keyPath cenv) with
      | Throw e => ([], Throw e)
      | Normal key =>
          if Server.tls_accepts cenv cert key
          then ([ListenProxy cert key (own_or_undefined config "proxyPort")], Normal tt)
          else ([], Throw (TypeError "createServer"))
      end
  end.

Definition after_web (config : list (string * JsValue))
    (rest : list StartEvent * Completion unit) : list StartEvent * Completion unit :=
  (ListenWeb (own_or_undefined config "webPort") :: fst rest, snd rest).

End Startup.

(** [async start()] of [src/server.js], lines 601-632. *)
Module Server2Start.
Import JS Startup.

Definition start (cenv : Server.ConnectEnv) (config : list (string * JsValue))
  : list StartEvent * Completion unit :=
  after_web config
    (if negb (Server.existsSync (Server.files cenv) (certPath cenv))
        || negb (Server.existsSync (Server.files cenv) (keyPath cenv))
     then ([NoCertificates], Normal tt)
     else listen_with_files cenv config).

End Server2Start.

(** [start()] of [src/unnamed/part_001], lines 231-259. *)
Module Part001Start.
Import JS Startup.

Definition start (cenv : Server.ConnectEnv) (config : list (string * JsValue))
  : list StartEvent * Completion unit :=
  after_web config
    (if truthy (own_or_undefined config "geminiApiKey") then
       if Server.existsSync (Server.files cenv) (certPath cenv)
          && Server.existsSync (Server.files cenv) (keyPath cenv)
       then listen_with_files cenv config
       else ([NoCertificates], Normal tt)
     else ([NoApiKey], Normal tt)).

End Part001Start.

(** ** The web interface's routes: [/api/config] and [/api/status] *)

Module Admin.
Import JS.

(** The part of the application the two routes read and write:
    [this.config], and the key held by [this.piiDetector] (the constructor
    stores whatever it is given). *)
Record App : Type := {
  config : list (string * JsValue);
  detectorKey : JsValue
}.

(** The constructor: [this.piiDetector = new PIIDetector(this.config.geminiApiKey)]. *)
Definition constructed (config : list (string * JsValue)) : App :=
  {| config := config; detectorKey := own_or_undefined config "geminiApiKey" |}.

(** [{ ...a, ...b }]: the properties of [a], then those of [b], each
    defined on a new object (integer-like keys are not moved to the
    front; only lookups are read below). *)
Definition spread (source target : list (string * JsValue)) : list (string * JsValue) :=
  fold_left (fun acc kv => Json.set_prop acc (fst kv) (snd kv)) source target.

Definition merged (a b : list (string * JsValue)) : list (string * JsValue) :=
  spread b (spread a []).

Inductive AdminEvent : Type :=
| WriteConfig (config : list (string * JsValue))  (* saveConfig(): config.json is written *)
| ReplyJson (body : JsValue).                     (* res.json(body) *)

Definition success : JsValue := JObj [("success", JBool true)].

End Admin.

(** [src/unnamed/part_001], lines 68-80; [body] holds the properties of
    [req.body], the object [express.json()] left, and [writable] tells
    whether [fs.writeFileSync] succeeds. *)
Module Part001Admin.
Import JS Admin.

Definition post_config (writable : bool) (body : list (string * JsValue)) (app : App)
  : App * list AdminEvent * Completion unit :=
  let app' := {| config := merged (config app) body; detectorKey := detectorKey app |} in
  if writable
  then (app', [WriteConfig (config app'); ReplyJson success], Normal tt)
  else (app', [], Throw (TypeError "writeFileSync")).

Definition get_status (stats : JsValue) (app : App) : JsValue :=
  JObj [ ("status", JStr "running"); ("stats", stats); ("config", JObj (config app)) ].

End Part001Admin.

(** [src/server.js], lines 424-447. *)
Module Server2Admin.
Import JS Admin.

Definition post_config (writable : bool) (body : list (string * JsValue)) (app : App)
  : App * list AdminEvent * Completion unit :=
  let config' := merged (config app) body in
  if writable
  then
    (* Recreate PII detector with new API key if provided *)
    ({| config := config';
        detectorKey := if truthy (own_or_undefined body "geminiApiKey")
                       then own_or_undefined body "geminiApiKey"
                       else detectorKey app |},
     [WriteConfig config'; ReplyJson success], Normal tt)
  else ({| config := config'; detectorKey := detectorKey app |}, [],
        Throw (TypeError "writeFileSync")).

Definition get_status (stats uptime : JsValue) (app : App) : JsValue :=
  JObj [ ("status", JStr "running");
         ("stats", stats);
         ("config",
          JObj [ ("hasApiKey", JBool (truthy (own_or_undefined (config app) "geminiApiKey")));
                 ("proxyPort", own_or_undefined (config app) "proxyPort");
                 ("webPort", own_or_undefined (config app) "webPort") ]);
         ("uptime", uptime) ].

End Server2Admin.

(** * Properties *)

Unset Implicit Arguments.

(** ** Strings and numbers *)

Section StringFacts.
Import JS.

Lemma prefix_iff_app (p s : string) :
  prefix p s = true <-> exists post, s = p ++ post.
Proof.
  revert s; induction p as [|a p IH]; intros s.
  - split; [intros _; exists s; reflexivity | intros _; destruct s; reflexivity].
  - destruct s as [|b s]; simpl.
    + split; [discriminate | intros [post H]; discriminate].
    + destruct (Ascii.ascii_dec a b) as [->|Hab].
      * rewrite IH. split; intros [post H]; exists post; congruence.
      * split; [discriminate | intros [post H]; congruence].
Qed.

Lemma includes_iff_infix (s p : string) :
  includes s p = true <-> exists pre post, s = pre ++ p ++ post.
Proof.
  split.
  - induction s as [|c s IH]; cbn [includes]; rewrite orb_true_iff; intros [H|H].
    + apply prefix_iff_app in H. destruct H as [post H]. now exists EmptyString, post.
    + discriminate.
    + apply prefix_iff_app in H. destruct H as [post H]. now exists EmptyString, post.
    + destruct (IH H) as (pre & post & ->). now exists (String c pre), post.
  - intros (pre & post & ->). induction pre as [|c pre IH].
    + change (EmptyString ++ p ++ post) with (p ++ post).
      assert (P : prefix p (p ++ post) = true) by (apply prefix_iff_app; now exists post).
      destruct (p ++ post); cbn [includes]; rewrite P; reflexivity.
    + change (String c pre ++ p ++ post) with (String c (pre ++ p ++ post)).
      cbn [includes]. rewrite IH. apply orb_true_r.
Qed.

Lemma ends_with_iff_app (s suffix : string) :
  HostPolicy.ends_with s suffix = true <-> exists pre, s = pre ++ suffix.
Proof.
  split.
  - induction s as [|c s IH]; cbn [HostPolicy.ends_with]; rewrite orb_true_iff; intros [H|H].
    + apply String.eqb_eq in H. subst. now exists EmptyString.
    + discriminate.
    + apply String.eqb_eq in H. subst. now exists EmptyString.
    + destruct (IH H) as [pre ->]. now exists (String c pre).
  - intros [pre ->]. induction pre as [|c pre IH].
    + change (EmptyString ++ suffix) with suffix.
      destruct suffix; cbn [HostPolicy.ends_with]; rewrite String.eqb_refl; reflexivity.
    + change (String c pre ++ suffix) with (String c (pre ++ suffix)).
      cbn [HostPolicy.ends_with]. rewrite IH. apply orb_true_r.
Qed.

Lemma append_nil_r (s : string) : s ++ EmptyString = s.
Proof. induction s; simpl; congruence. Qed.

Lemma append_assoc (a b c : string) : (a ++ b) ++ c = a ++ b ++ c.
Proof. induction a; simpl; congruence. Qed.

Lemma incr_exact (n : Z) : (n < 2 ^ 53)%Z -> incr n = (n + 1)%Z.
Proof.
  intros H. unfold incr. destruct (Z.ltb_spec n (2 ^ 53)); [reflexivity | lia].
Qed.

Lemma num_gt10_length (n : nat) : num_gt10 (num_of_nat n) = (10 <? n)%nat.
Proof.
  unfold num_gt10, num_of_nat, dec_leb; simpl mant; simpl exp10.
  change (0 <=? 0)%Z with true. cbv iota.
  rewrite Z.pow_0_r, Z.mul_1_r.
  destruct (Nat.ltb_spec 10 n) as [H|H];
    [ destruct (Z.leb_spec (Z.of_nat n * 2 ^ 50) (10 * 2 ^ 50 + 1)) as [L|L]
    | destruct (Z.leb_spec (Z.of_nat n * 2 ^ 50) (10 * 2 ^ 50 + 1)) as [L|L] ];
    try reflexivity; exfalso;
    assert (P : (2 ^ 50 = 1125899906842624)%Z) by reflexivity; rewrite P in L; lia.
Qed.

Lemma truthy_str (s : string) : truthy (JStr s) = negb (s =? "").
Proof. reflexivity. Qed.

Lemma length_pos_nonempty (s : string) : (0 < String.length s)%nat -> (s =? "") = false.
Proof. destruct s; simpl; [lia | reflexivity]. Qed.

End StringFacts.

(** ** Host matching (C1) *)

Section HostMatching.
Import JS Eff.

Lemma existsb_includes (host : string) (l : list string) :
  existsb (fun platform => includes host platform) l = true <->
  exists platform pre post, In platform l /\ host = pre ++ platform ++ post.
Proof.
  rewrite existsb_exists. split.
  - intros (platform & Hin & H). apply includes_iff_infix in H.
    destruct H as (pre & post & H). now exists platform, pre, post.
  - intros (platform & pre & post & Hin & H). exists platform. split; [assumption|].
    apply includes_iff_infix. now exists pre, post.
Qed.

Lemma exact_or_suffix_includes (hostname pattern : string) :
  HostPolicy.exact_or_suffix hostname pattern = true -> includes hostname pattern = true.
Proof.
  unfold HostPolicy.exact_or_suffix. rewrite orb_true_iff. intros [H|H].
  - apply String.eqb_eq in H. subst. apply includes_iff_infix.
    exists EmptyString, EmptyString. now rewrite append_nil_r.
  - apply ends_with_iff_app in H. destruct H as [pre ->].
    apply includes_iff_infix. exists (pre ++ "."), EmptyString.
    now rewrite append_nil_r, append_assoc.
Qed.

(** C1, as the specification states it, fails: [notclaude.ai] and
    [claude.ai.evil.example] match no configured platform exactly or by
    suffix, and both are classified as AI platforms, for a CONNECT target
    and for a Host header alike. *)
Lemma C1_interior_substring_is_intercepted :
  HostPolicy.intercepted Server.aiPlatforms "notclaude.ai" = false /\
  Server.isAIPlatform "notclaude.ai" = true /\
  HostPolicy.intercepted Server.aiPlatforms "claude.ai.evil.example" = false /\
  Server.isAIPlatform "claude.ai.evil.example" = true /\
  (forall cenv port,
      Server.handleConnect cenv "claude.ai.evil.example" port
      = Server.handleAIConnect cenv "claude.ai.evil.example").
Proof.
  repeat split; try reflexivity.
Qed.

(** C1, amended: the decision to intercept is made by substring
    containment. A CONNECT target (and a Host header) is treated as an AI
    platform exactly when some configured platform name occurs in it as a
    contiguous run of characters; every exact or suffix match is therefore
    intercepted, and so is a name that only contains a platform name. *)
Theorem C1_intercept_iff_substring :
  forall (cenv : Server.ConnectEnv) (hostname : string) (port : option Z),
    (Server.isAIPlatform hostname = true <->
       exists platform pre post,
         In platform Server.aiPlatforms /\ hostname = pre ++ platform ++ post) /\
    Server.handleConnect cenv hostname port
    = (if Server.isAIPlatform hostname
       then Server.handleAIConnect cenv hostname
       else Server.handleRegularConnect cenv hostname port) /\
    (HostPolicy.intercepted Server.aiPlatforms hostname = true ->
       Server.isAIPlatform hostname = true) /\
    (forall env piiDetector req,
        Http.host req = Some hostname -> hostname <> "" ->
        Server.route env piiDetector req
        = (if Server.isAIPlatform hostname
           then Server.handleAIPlatform env piiDetector req hostname
           else Server.proxyRegularWebsite req hostname)).
Proof.
  intros cenv hostname port. split; [|split; [|split]].
  - apply existsb_includes.
  - reflexivity.
  - unfold HostPolicy.intercepted, Server.isAIPlatform.
    rewrite !existsb_exists. intros (p & Hin & H). exists p. split; [assumption|].
    now apply exact_or_suffix_includes.
  - intros env piiDetector req Hh Hne. unfold Server.route. rewrite Hh.
    destruct (String.eqb_spec hostname ""); [contradiction | reflexivity].
Qed.

(** The two revisions that read the platforms from the configuration match
    the Host header the same way, by containment, among the enabled
    platforms. *)
Lemma configured_platform_iff_substring (aiPlatforms : list (string * JsValue)) (h : string) :
  Server2.isAIPlatform aiPlatforms (Some h) = true <->
  h <> "" /\
  exists platform pre post,
    In platform (map fst aiPlatforms) /\
    truthy (own_or_undefined aiPlatforms platform) = true /\
    h = pre ++ platform ++ post.
Proof.
  unfold Server2.isAIPlatform. rewrite existsb_exists. split.
  - intros (platform & Hin & H). apply andb_true_iff in H. destruct H as [H Ht].
    apply andb_true_iff in H. destruct H as [Hne Hi].
    apply negb_true_iff, String.eqb_neq in Hne. split; [assumption|].
    apply includes_iff_infix in Hi. destruct Hi as (pre & post & Hi).
    now exists platform, pre, post.
  - intros (Hne & platform & pre & post & Hin & Ht & Hh).
    exists platform. split; [assumption|].
    apply String.eqb_neq in Hne. rewrite Hne, Ht. simpl.
    rewrite andb_true_r. apply includes_iff_infix. now exists pre, post.
Qed.

End HostMatching.

(** ** The remote classifier (C2) *)

Section Classifier.
Import JS Eff Platform.

Lemma detectPII_run (env : Env) (self : PIIDetector.PIIDetector) (text : string) (st : Stats) :
  PIIDetector.detectPII env self text st
  = (PIIDetector.verdict env self text, st,
     [EvFetch (PIIDetector.request_url self) (PIIDetector.request_init text)]).
Proof.
  unfold PIIDetector.detectPII, PIIDetector.verdict, try_catch, bind, emit, await, lift, ret, throw.
  destruct (fetch env _ _) as [response| |]; try reflexivity.
  destruct (ok response); simpl; try reflexivity.
  destruct (json response) as [data| |]; try reflexivity.
  destruct (PIIDetector.candidate_text data); reflexivity.
Qed.

Lemma verdict_never_throws (env : Env) (self : PIIDetector.PIIDetector) (text : string) (e : JsError) :
  PIIDetector.verdict env self text <> Thrown e.
Proof.
  unfold PIIDetector.verdict.
  destruct (fetch env _ _) as [response| |]; try discriminate.
  destruct (negb (ok response)); try discriminate.
  destruct (json response) as [data| |]; try discriminate.
  destruct (PIIDetector.candidate_text data); discriminate.
Qed.

Lemma candidate_text_detected (data : JsValue) :
  (exists result, PIIDetector.candidate_text data = Normal result
                  /\ strict_eq_str result "PII_DETECTED" = true) <->
  (exists raw, PIIDetector.candidate_part_text data = Normal (JStr raw)
               /\ trim raw = "PII_DETECTED").
Proof.
  unfold PIIDetector.candidate_text. split.
  - intros (result & H & Heq).
    destruct (PIIDetector.candidate_part_text data) as [text|]; [|discriminate].
    destruct text; simpl in H; try discriminate;
      try (injection H as <-; discriminate).
    injection H as <-. exists s. split; [reflexivity|]. now apply String.eqb_eq.
  - intros (raw & -> & Htrim). simpl. exists (JStr (trim raw)). split; [reflexivity|].
    simpl. rewrite Htrim. reflexivity.
Qed.

(** C2, as the specification states it, fails on the timeout: the request
    carries no abort signal and nothing else bounds the wait, so a call
    that never settles leaves [detectPII] suspended; it does not return
    Clear. *)
Lemma C2_no_timeout_pending_call_never_returns :
  existsb (String.eqb "signal") (map fst (PIIDetector.request_init "a@b.com")) = false /\
  existsb (String.eqb "timeout") (map fst (PIIDetector.request_init "a@b.com")) = false /\
  result_of (PIIDetector.detectPII (Scenario.env_with Pending) Scenario.detector "a@b.com"
               Scenario.stats0) = Stuck.
Proof.
  repeat split; reflexivity.
Qed.

(** C2, amended: [detectPII] answers Detected exactly when the remote call
    is fulfilled with a success status and a body whose
    [candidates[0].content.parts[0].text], trimmed, is [PII_DETECTED]. On a
    non-success status, a rejected call (a transport error), a body that
    does not parse or holds anything else, it answers Clear. It never
    throws and it leaves the counters alone. No timeout is applied: it
    stays suspended exactly when the call or the reading of the body never
    settles. *)
Theorem C2_detectPII_detected_iff_exact_token :
  forall (env : Env) (self : PIIDetector.PIIDetector) (text : string) (st : Stats),
    let url := PIIDetector.request_url self in
    let init := PIIDetector.request_init text in
    let run := PIIDetector.detectPII env self text st in
    (result_of run = Done true <->
       exists response data raw,
         fetch env url init = Fulfilled response /\ ok response = true /\
         json response = Fulfilled data /\
         PIIDetector.candidate_part_text data = Normal (JStr raw) /\
         trim raw = "PII_DETECTED") /\
    (result_of run = Stuck <->
       fetch env url init = Pending \/
       exists response,
         fetch env url init = Fulfilled response /\ ok response = true /\
         json response = Pending) /\
    (forall response,
        fetch env url init = Fulfilled response -> ok response = false ->
        result_of run = Done false) /\
    (forall e, fetch env url init = Rejected e -> result_of run = Done false) /\
    (forall response e,
        fetch env url init = Fulfilled response -> json response = Rejected e ->
        result_of run = Done false) /\
    (forall e, result_of run <> Thrown e) /\
    (result_of run = Done true \/ result_of run = Done false \/ result_of run = Stuck) /\
    stats_of run = st /\
    trace_of run = [EvFetch url init].
Proof.
  intros env self text st url init run. subst run url init.
  rewrite detectPII_run. unfold result_of, stats_of, trace_of; simpl.
  split; [|split; [|split; [|split; [|split; [|split; [|split; [|split]]]]]]].
  - unfold PIIDetector.verdict. split.
    + destruct (fetch env _ _) as [response| |] eqn:F; try discriminate.
      destruct (ok response) eqn:O; simpl; try discriminate.
      destruct (json response) as [data| |] eqn:J; try discriminate.
      destruct (PIIDetector.candidate_text data) as [result|] eqn:C; try discriminate.
      intros H. injection H as H.
      destruct (proj1 (candidate_text_detected data)) as (raw & Hraw & Htrim).
      { exists result. split; assumption. }
      exists response, data, raw. repeat split; assumption.
    + intros (response & data & raw & -> & O & J & Hraw & Htrim).
      rewrite O, J. simpl.
      destruct (proj2 (candidate_text_detected data)) as (result & -> & Heq).
      { exists raw. split; assumption. }
      now rewrite Heq.
  - unfold PIIDetector.verdict. split.
    + destruct (fetch env _ _) as [response| |] eqn:F; try discriminate.
      * destruct (ok response) eqn:O; simpl; try discriminate.
        destruct (json response) as [data| |] eqn:J; try discriminate.
        -- destruct (PIIDetector.candidate_text data); discriminate.
        -- intros _. right. exists response. repeat split; assumption.
      * intros _. now left.
    + intros [->|(response & -> & O & J)]; [reflexivity|].
      rewrite O, J. reflexivity.
  - intros response F O. unfold PIIDetector.verdict. rewrite F, O. reflexivity.
  - intros e F. unfold PIIDetector.verdict. rewrite F. reflexivity.
  - intros response e F J. unfold PIIDetector.verdict. rewrite F, J.
    destruct (negb (ok response)); reflexivity.
  - intros e. apply verdict_never_throws.
  - pose proof (verdict_never_throws env self text) as N.
    destruct (PIIDetector.verdict env self text) as [[|]| |]; auto. exfalso. eapply N. reflexivity.
  - reflexivity.
  - reflexivity.
Qed.

End Classifier.

(** ** The inspection path of [server.js] *)

Section InspectionPath.
Import JS Eff Platform Http.

Lemma long_prompt_string (env : Env) (text : string) :
  long_prompt env (JStr text) = Normal (10 <? String.length text)%nat.
Proof.
  unfold long_prompt. rewrite truthy_str.
  destruct text as [|c text]; [reflexivity|].
  simpl negb. cbv iota. unfold opt_member, member.
  change ("length" =? "length") with true. cbv iota. unfold gt10.
  now rewrite num_gt10_length.
Qed.

Lemma Server_inspect_string env piiDetector req host body st text :
  Server.extractPrompt env body = JStr text ->
  Server.inspect env piiDetector req host body st
  = Inspection.inspected env piiDetector text st
      (EvJson 403 Server.blocked_response) (EvForward ("https://" ++ host) body).
Proof.
  intros E. unfold Server.inspect, Inspection.inspected. rewrite E.
  unfold bind at 1. rewrite long_prompt_string. unfold lift at 1, ret at 1.
  destruct (10 <? String.length text)%nat; [|reflexivity].
  unfold bind. simpl lift. unfold ret at 1. rewrite detectPII_run.
  destruct (PIIDetector.verdict env piiDetector text) as [[|]| |]; reflexivity.
Qed.

Lemma Server2_inspect_string env piiDetector host body st text :
  Server2.extractPrompt env body = JStr text ->
  Server2.inspect env piiDetector host body st
  = Inspection.inspected env piiDetector text st
      (EvJson 403 (Server2.blocked_response env)) (EvForward ("https://" ++ host) body).
Proof.
  intros E. unfold Server2.inspect, Inspection.inspected. rewrite E.
  unfold bind at 1. rewrite long_prompt_string. unfold lift at 1, ret at 1.
  destruct (10 <? String.length text)%nat; [|reflexivity].
  unfold bind. simpl lift. unfold ret at 1. rewrite detectPII_run.
  destruct (PIIDetector.verdict env piiDetector text) as [[|]| |]; reflexivity.
Qed.

Lemma inspected_never_throws env piiDetector text st blocked forward e :
  result_of (Inspection.inspected env piiDetector text st blocked forward) <> Thrown e.
Proof.
  unfold Inspection.inspected. destruct (10 <? String.length text)%nat; [|discriminate].
  pose proof (verdict_never_throws env piiDetector text) as N.
  destruct (PIIDetector.verdict env piiDetector text) as [[|]|e'|]; try discriminate.
  exfalso. eapply N. reflexivity.
Qed.

Lemma try_catch_no_throw {A} (m : M A) (h : JsError -> M A) (st : Stats) :
  (forall e, result_of (m st) <> Thrown e) -> try_catch m h st = m st.
Proof.
  unfold try_catch, result_of. intros N.
  destruct (m st) as [[[a|e|] st1] t1]; try reflexivity.
  exfalso. apply (N e). reflexivity.
Qed.

Lemma Server_handle_string env piiDetector req host st text :
  method req = "POST" ->
  Server.isChatEndpoint (originalUrl req) = true ->
  Server.extractPrompt env (body_of req) = JStr text ->
  Server.handleAIPlatform env piiDetector req host st
  = Inspection.inspected env piiDetector text st
      (EvJson 403 Server.blocked_response) (EvForward ("https://" ++ host) (body_of req)).
Proof.
  intros Hm Hc E. unfold Server.handleAIPlatform. rewrite Hm, Hc.
  change ("POST" =? "POST") with true. cbv beta iota zeta. cbn [andb].
  rewrite try_catch_no_throw; rewrite (Server_inspect_string _ _ _ _ _ _ _ E);
    [reflexivity | intros e; apply inspected_never_throws].
Qed.

Lemma Server2_handle_string env piiDetector req host st text :
  Server2.extractPrompt env (body_of req) = JStr text ->
  Server2.handleChatRequest env piiDetector req host st
  = Inspection.inspected env piiDetector text st
      (EvJson 403 (Server2.blocked_response env)) (EvForward ("https://" ++ host) (body_of req)).
Proof.
  intros E. unfold Server2.handleChatRequest.
  rewrite try_catch_no_throw; rewrite (Server2_inspect_string _ _ _ _ _ _ E);
    [reflexivity | intros e; apply inspected_never_throws].
Qed.

Lemma inspected_remote_called env piiDetector text st blocked forward :
  is_fetch blocked = false -> is_fetch forward = false ->
  remote_called (trace_of (Inspection.inspected env piiDetector text st blocked forward))
  = (10 <? String.length text)%nat.
Proof.
  intros Hb Hf. unfold Inspection.inspected, remote_called, trace_of.
  destruct (10 <? String.length text)%nat.
  - destruct (PIIDetector.verdict env piiDetector text) as [[|]| |]; reflexivity.
  - simpl. now rewrite Hf.
Qed.

(** A prompt that is no string never reaches the classifier: either the
    length test fails and the request is allowed, or the test passes (or
    throws) and [prompt.substring] (or the test) throws into the [catch]. *)
Lemma Server_inspect_other env piiDetector req host body st :
  (forall text, Server.extractPrompt env body <> JStr text) ->
  Server.inspect env piiDetector req host body st
  = match long_prompt env (Server.extractPrompt env body) with
    | Normal false => (Done tt, after_allow st, [EvForward ("https://" ++ host) body])
    | Normal true => (Thrown (TypeError "substring is not a function"), st, [])
    | Throw e => (Thrown e, st, [])
    end.
Proof.
  intros N. unfold Server.inspect. unfold bind at 1.
  destruct (long_prompt env (Server.extractPrompt env body)) as [[|]|e]; try reflexivity.
  simpl lift. unfold ret at 1.
  destruct (Server.extractPrompt env body) as [| |b|n|text|l|props]; try reflexivity.
  exfalso. now apply (N text).
Qed.

Lemma Server2_inspect_other env piiDetector host body st :
  (forall text, Server2.extractPrompt env body <> JStr text) ->
  Server2.inspect env piiDetector host body st
  = match long_prompt env (Server2.extractPrompt env body) with
    | Normal false => (Done tt, after_allow st, [EvForward ("https://" ++ host) body])
    | Normal true => (Thrown (TypeError "substring is not a function"), st, [])
    | Throw e => (Thrown e, st, [])
    end.
Proof.
  intros N. unfold Server2.inspect. unfold bind at 1.
  destruct (long_prompt env (Server2.extractPrompt env body)) as [[|]|e]; try reflexivity.
  simpl lift. unfold ret at 1.
  destruct (Server2.extractPrompt env body) as [| |b|n|text|l|props]; try reflexivity.
  exfalso. now apply (N text).
Qed.

Lemma Server_handle_other env piiDetector req host st :
  method req = "POST" ->
  Server.isChatEndpoint (originalUrl req) = true ->
  (forall text, Server.extractPrompt env (body_of req) <> JStr text) ->
  Server.handleAIPlatform env piiDetector req host st
  = (Done tt,
     match long_prompt env (Server.extractPrompt env (body_of req)) with
     | Normal false => after_allow st
     | _ => st
     end,
     [EvForward ("https://" ++ host) (body_of req)]).
Proof.
  intros Hm Hc N. unfold Server.handleAIPlatform. rewrite Hm, Hc.
  change ("POST" =? "POST") with true. cbv beta iota zeta. cbn [andb].
  unfold try_catch. rewrite (Server_inspect_other _ _ _ _ _ _ N).
  destruct (long_prompt env _) as [[|]|e]; reflexivity.
Qed.

Lemma Server2_handle_other env piiDetector req host st :
  (forall text, Server2.extractPrompt env (body_of req) <> JStr text) ->
  Server2.handleChatRequest env piiDetector req host st
  = (Done tt, after_allow st, [EvForward ("https://" ++ host) (body_of req)]).
Proof.
  intros N. unfold Server2.handleChatRequest, try_catch.
  rewrite (Server2_inspect_other _ _ _ _ _ N).
  destruct (long_prompt env _) as [[|]|e]; reflexivity.
Qed.

Lemma is_string_dec (v : JsValue) :
  (exists text, v = JStr text) \/ (forall text, v <> JStr text).
Proof.
  destruct v; try (right; intros text; discriminate). left. now eexists.
Qed.

End InspectionPath.

(** ** The length threshold (C6) *)

Section Threshold.
Import JS Eff Platform Http.

Lemma inspected_short env piiDetector text st blocked forward :
  (String.length text <= 10)%nat ->
  Inspection.inspected env piiDetector text st blocked forward
  = (Done tt, after_allow st, [forward]).
Proof.
  intros H. unfold Inspection.inspected.
  destruct (Nat.ltb_spec 10 (String.length text)); [lia | reflexivity].
Qed.

(** C6, as the specification states it, fails at length 10: the prompt
    [me@abc.com] has 10 characters, and neither revision of [server.js]
    calls the classifier for it; the request is forwarded and counted as
    allowed. *)
Lemma C6_prompt_of_length_10_is_not_classified :
  Server.extractPrompt (Scenario.env_with (Scenario.replies "PII_DETECTED"))
    (body_of (Scenario.chat_post "{'prompt':'me@abc.com'}")) = JStr "me@abc.com" /\
  String.length "me@abc.com" = 10%nat /\
  Server.handleAIPlatform (Scenario.env_with (Scenario.replies "PII_DETECTED"))
    Scenario.detector (Scenario.chat_post "{'prompt':'me@abc.com'}") "chat.openai.com"
    Scenario.stats0
  = (Done tt,
     {| requestsBlocked := 0; requestsAllowed := 1; piiDetections := 0 |},
     [EvForward "https://chat.openai.com" (Json.dq "{'prompt':'me@abc.com'}")]) /\
  remote_called
    (trace_of (Server2.handleChatRequest (Scenario.env_with (Scenario.replies "PII_DETECTED"))
                 Scenario.detector (Scenario.chat_post "{'prompt':'me@abc.com'}")
                 "chat.openai.com" Scenario.stats0)) = false.
Proof.
  repeat split; vm_compute; reflexivity.
Qed.

(** C6, amended: in both revisions of [server.js] the remote classifier is
    called for a request exactly when the extracted prompt is a text
    longer than 10 characters (11 or more). For a text of at most 10
    characters the call is skipped, the request is forwarded with its
    buffered body, [requestsAllowed] is incremented and the other two
    counters keep their values. *)
Theorem C6_classified_iff_longer_than_10 :
  (forall env piiDetector req host st,
      method req = "POST" ->
      Server.isChatEndpoint (originalUrl req) = true ->
      (remote_called (trace_of (Server.handleAIPlatform env piiDetector req host st)) = true
       <-> exists text, Server.extractPrompt env (body_of req) = JStr text
                        /\ (10 < String.length text)%nat) /\
      (forall text,
          Server.extractPrompt env (body_of req) = JStr text ->
          (String.length text <= 10)%nat ->
          Server.handleAIPlatform env piiDetector req host st
          = (Done tt,
             {| requestsBlocked := requestsBlocked st;
                requestsAllowed := incr (requestsAllowed st);
                piiDetections := piiDetections st |},
             [EvForward ("https://" ++ host) (body_of req)]))) /\
  (forall env piiDetector req host st,
      (remote_called (trace_of (Server2.handleChatRequest env piiDetector req host st)) = true
       <-> exists text, Server2.extractPrompt env (body_of req) = JStr text
                        /\ (10 < String.length text)%nat) /\
      (forall text,
          Server2.extractPrompt env (body_of req) = JStr text ->
          (String.length text <= 10)%nat ->
          Server2.handleChatRequest env piiDetector req host st
          = (Done tt,
             {| requestsBlocked := requestsBlocked st;
                requestsAllowed := incr (requestsAllowed st);
                piiDetections := piiDetections st |},
             [EvForward ("https://" ++ host) (body_of req)]))).
Proof.
  split.
  - intros env piiDetector req host st Hm Hc. split.
    + destruct (is_string_dec (Server.extractPrompt env (body_of req))) as [[text E]|N].
      * rewrite (Server_handle_string _ _ _ _ _ _ Hm Hc E).
        rewrite inspected_remote_called by reflexivity. rewrite Nat.ltb_lt. split.
        -- intros L. now exists text.
        -- intros (text' & E' & L). rewrite E in E'. now injection E' as <-.
      * rewrite (Server_handle_other _ _ _ _ _ Hm Hc N). split; [discriminate|].
        intros (text & E & _). now apply N in E.
    + intros text E L. rewrite (Server_handle_string _ _ _ _ _ _ Hm Hc E).
      now rewrite inspected_short.
  - intros env piiDetector req host st. split.
    + destruct (is_string_dec (Server2.extractPrompt env (body_of req))) as [[text E]|N].
      * rewrite (Server2_handle_string _ _ _ _ _ _ E).
        rewrite inspected_remote_called by reflexivity. rewrite Nat.ltb_lt. split.
        -- intros L. now exists text.
        -- intros (text' & E' & L). rewrite E in E'. now injection E' as <-.
      * rewrite (Server2_handle_other _ _ _ _ _ N). split; [discriminate|].
        intros (text & E & _). now apply N in E.
    + intros text E L. rewrite (Server2_handle_string _ _ _ _ _ _ E).
      now rewrite inspected_short.
Qed.

(** C6 amended, at work: a prompt of 11 characters is classified, one of 4
    is not. *)
Lemma C6_threshold_witness :
  remote_called
    (trace_of (Server.handleAIPlatform (Scenario.env_with (Scenario.replies "NO_PII"))
                 Scenario.detector (Scenario.chat_post "{'prompt':'hello there'}")
                 "chat.openai.com" Scenario.stats0)) = true /\
  Server.handleAIPlatform (Scenario.env_with (Scenario.replies "NO_PII"))
    Scenario.detector (Scenario.chat_post "{'prompt':'hi!!'}") "chat.openai.com"
    Scenario.stats0
  = (Done tt,
     {| requestsBlocked := 0; requestsAllowed := incr 0; piiDetections := 0 |},
     [EvForward "https://chat.openai.com" (body_of (Scenario.chat_post "{'prompt':'hi!!'}"))]).
Proof.
  split.
  - apply (proj1 (proj1 C6_classified_iff_longer_than_10
                    (Scenario.env_with (Scenario.replies "NO_PII")) Scenario.detector
                    (Scenario.chat_post "{'prompt':'hello there'}") "chat.openai.com"
                    Scenario.stats0 eq_refl eq_refl)).
    exists "hello there". split; [vm_compute; reflexivity | simpl; lia].
  - apply (proj2 (proj1 C6_classified_iff_longer_than_10
                    (Scenario.env_with (Scenario.replies "NO_PII")) Scenario.detector
                    (Scenario.chat_post "{'prompt':'hi!!'}") "chat.openai.com"
                    Scenario.stats0 eq_refl eq_refl) "hi!!");
      [vm_compute; reflexivity | simpl; lia].
Defined.

End Threshold.

(** ** Prompt extraction (C5, C10) *)

Section PromptExtraction.
Import JS Eff Platform Http.

Lemma member_object (props : list (string * JsValue)) (k : string) :
  member (JObj props) k = Normal (own_or_undefined props k).
Proof. reflexivity. Qed.

Lemma last_message_snoc (earlier : list JsValue) (m : JsValue) :
  last_message (earlier ++ [m])%list = m.
Proof.
  unfold last_message. induction earlier as [|x rest IH]; [reflexivity|].
  cbn [app]. destruct (rest ++ [m])%list eqn:E; [now destruct rest|].
  cbn [last]. exact IH.
Qed.





(** The two examples of the specification. *)
Lemma extraction_examples :
  Server2.extractPrompt (Scenario.env_with Pending)
    (Json.dq "{'messages':[{'content':'A'},{'content':'B'}]}") = JStr "B" /\
  Server2.extractPrompt (Scenario.env_with Pending)
    (Json.dq "{'prompt':'X','input':'Y'}") = JStr "X" /\
  Server.extractPrompt (Scenario.env_with Pending)
    (Json.dq "{'messages':[{'content':'A'},{'content':'B'}]}") = JStr "B" /\
  Server.extractPrompt (Scenario.env_with Pending)
    (Json.dq "{'prompt':'X','input':'Y'}") = JStr "X".
Proof. repeat split; vm_compute; reflexivity. Qed.

(** The second revision of [server.js] and the five rules (messages,
    prompt, input, text, query, the first match wins, the empty string
    when none matches): on a body that does not parse the prompt is the
    first 1000 characters of the body; on a body that parses to anything
    but [null] it is what the rules give; on a body that parses to [null]
    reading [data.messages] throws, so the prompt is again the first 1000
    characters of the body (the text [null] and the white space around
    it), where the rules give the empty string. *)
Theorem Server2_extraction_refines_rules :
  forall (env : Env) (body : string),
    (JSON_parse env body = None ->
     Server2.extractPrompt env body = JStr (substring 0 1000 body) /\
     Extraction.extract (JSON_parse env) body = JStr (substring 0 1000 body)) /\
    (forall data,
        JSON_parse env body = Some data -> data <> JNull -> data <> JUndefined ->
        Server2.extractPrompt env body = Extraction.extract (JSON_parse env) body) /\
    (JSON_parse env body = Some JNull ->
     Server2.extractPrompt env body = JStr (substring 0 1000 body) /\
     Extraction.extract (JSON_parse env) body = JStr "").
Proof.
  intros env body.
  unfold Server2.extractPrompt, Server2.extractPrompt_try, Extraction.extract.
  split; [|split].
  - intros ->. split; reflexivity.
  - intros data -> N U.
    destruct data as [| |b|n|s|l|props];
      [congruence | congruence | reflexivity | reflexivity | reflexivity | reflexivity |].
    cbn [Extraction.first_match Extraction.rules].
    unfold Extraction.messages_rule, Extraction.field_rule, opt_member.
    rewrite !member_object.
    destruct (own_or_undefined props "messages"); try reflexivity;
      repeat match goal with
             | |- context [truthy ?v] => destruct (truthy v) eqn:?; try reflexivity
             end.
  - intros ->. split; reflexivity.
Qed.

Lemma Server2_extraction_witness :
  Server2.extractPrompt (Scenario.env_with Pending) (Json.dq "{'query':'Q'}")
  = Extraction.extract Json.parse (Json.dq "{'query':'Q'}")
  /\ Extraction.extract Json.parse (Json.dq "{'query':'Q'}") = JStr "Q"
  /\ Server2.extractPrompt (Scenario.env_with Pending) "null" = JStr "null".
Proof.
  split; [|split].
  - apply (proj1 (proj2 (Server2_extraction_refines_rules (Scenario.env_with Pending)
                           (Json.dq "{'query':'Q'}")))
             (JObj [("query", JStr "Q")])); [reflexivity | discriminate | discriminate].
  - vm_compute; reflexivity.
  - apply (proj1 (proj2 (proj2 (Server2_extraction_refines_rules
                                  (Scenario.env_with Pending) "null")) eq_refl)).
Defined.

(** C5 at the input where [server.js] (lines 208-226) departs from it: the
    fifth rule is missing there, so a body with only a [query] field gives
    the empty prompt, and the request is forwarded unclassified. The
    second revision reads the field. [part_001] has neither the [text] nor
    the [query] rule, and gives the empty prompt, not the first 1000
    characters, for a body that does not parse. *)
Lemma C5_server_extraction_has_no_query_rule :
  Server.extractPrompt (Scenario.env_with (Scenario.replies "PII_DETECTED"))
    (Json.dq "{'query':'my ssn is 123-45-6789'}") = JStr "" /\
  Server2.extractPrompt (Scenario.env_with (Scenario.replies "PII_DETECTED"))
    (Json.dq "{'query':'my ssn is 123-45-6789'}") = JStr "my ssn is 123-45-6789" /\
  Server.handleAIPlatform (Scenario.env_with (Scenario.replies "PII_DETECTED"))
    Scenario.detector (Scenario.chat_post "{'query':'my ssn is 123-45-6789'}")
    "chat.openai.com" Scenario.stats0
  = (Done tt, after_allow Scenario.stats0,
     [EvForward "https://chat.openai.com" (Json.dq "{'query':'my ssn is 123-45-6789'}")]) /\
  Part001.extractPrompt (Scenario.env_with (Scenario.replies "PII_DETECTED"))
    (Json.dq "{'text':'my ssn is 123-45-6789'}") = JStr "" /\
  Part001.extractPrompt (Scenario.env_with (Scenario.replies "PII_DETECTED"))
    "my ssn is 123-45-6789" = JStr "".
Proof. repeat split; vm_compute; reflexivity. Qed.

End PromptExtraction.

(** ** The pre-filter (C3) *)

Section PreFilter.
Import JS Eff Platform Http.

(** C3 at the input where [server.js] departs from it: none of the five
    patterns matches [hello there, how are you], and both revisions of
    [server.js] call the remote classifier for it all the same; they never
    consult [quickPIICheck]. [part_001] does, and makes no call. *)
Lemma C3_server_classifies_without_prefilter :
  PIIDetector.quickPIICheck "hello there, how are you" = false /\
  Server.handleAIPlatform (Scenario.env_with (Scenario.replies "NO_PII")) Scenario.detector
    (Scenario.chat_post "{'prompt':'hello there, how are you'}") "chat.openai.com"
    Scenario.stats0
  = (Done tt, after_allow Scenario.stats0,
     [EvFetch (PIIDetector.request_url Scenario.detector)
        (PIIDetector.request_init "hello there, how are you");
      EvForward "https://chat.openai.com" (Json.dq "{'prompt':'hello there, how are you'}")]) /\
  remote_called
    (trace_of (Server2.handleChatRequest (Scenario.env_with (Scenario.replies "NO_PII"))
                 Scenario.detector (Scenario.chat_post "{'prompt':'hello there, how are you'}")
                 "chat.openai.com" Scenario.stats0)) = true /\
  remote_called
    (trace_of (Part001.serve (Scenario.env_with (Scenario.replies "NO_PII"))
                 Scenario.detector Part001.default_aiPlatforms
                 (Scenario.chat_post "{'prompt':'hello there, how are you'}")
                 Scenario.stats0)) = false.
Proof. repeat split; vm_compute; reflexivity. Qed.

Lemma Part001_on_end_string env piiDetector req body st text :
  Part001.extractPrompt env body = JStr text ->
  Part001.on_end env piiDetector req body st
  = if (negb (text =? "") && PIIDetector.quickPIICheck text)%bool
    then
      match PIIDetector.verdict env piiDetector text with
      | Done true =>
          if headers_sent env
          then (Thrown (TypeError "ERR_HTTP_HEADERS_SENT"), after_block st,
                [EvFetch (PIIDetector.request_url piiDetector)
                   (PIIDetector.request_init text)])
          else (Done tt, after_block st,
                [EvFetch (PIIDetector.request_url piiDetector)
                   (PIIDetector.request_init text);
                 EvJson 403 Part001.blocked_response])
      | Done false =>
          (Done tt, after_allow st,
           [EvFetch (PIIDetector.request_url piiDetector) (PIIDetector.request_init text);
            EvForward ("https://" ++ Part001.host_text (host req)) body])
      | Thrown e =>
          (Thrown e, st,
           [EvFetch (PIIDetector.request_url piiDetector) (PIIDetector.request_init text)])
      | Stuck =>
          (Stuck, st,
           [EvFetch (PIIDetector.request_url piiDetector) (PIIDetector.request_init text)])
      end
    else (Done tt, after_allow st,
          [EvForward ("https://" ++ Part001.host_text (host req)) body]).
Proof.
  intros E. unfold Part001.on_end. rewrite E. rewrite truthy_str.
  destruct (text =? "") eqn:T; [reflexivity|]. simpl negb. cbv iota.
  destruct (PIIDetector.quickPIICheck text) eqn:Q; [|reflexivity].
  unfold bind. simpl lift. unfold ret at 1. rewrite detectPII_run.
  destruct (PIIDetector.verdict env piiDetector text) as [[|]| |]; try reflexivity.
  unfold Part001.answer_403. destruct (headers_sent env); reflexivity.
Qed.

(** In [part_001] the pre-filter gates the classifier: for a text that
    none of the five patterns matches, the [end] listener makes no remote
    call, forwards the body and counts the request as allowed; and a
    remote call is only ever made for a text that some pattern matches. *)
Theorem Part001_prefilter_gates_remote_call :
  forall env piiDetector req body st,
    (forall text,
        Part001.extractPrompt env body = JStr text ->
        PIIDetector.quickPIICheck text = false ->
        Part001.on_end env piiDetector req body st
        = (Done tt, after_allow st,
           [EvForward ("https://" ++ Part001.host_text (host req)) body])) /\
    (remote_called (trace_of (Part001.on_end env piiDetector req body st)) = true ->
     exists text, Part001.extractPrompt env body = JStr text
                  /\ PIIDetector.quickPIICheck text = true).
Proof.
  intros env piiDetector req body st. split.
  - intros text E Q. rewrite (Part001_on_end_string _ _ _ _ _ _ E), Q.
    now rewrite andb_false_r.
  - destruct (Part001.extractPrompt env body) as [| |b|n|text|l|props] eqn:E;
      try (unfold Part001.on_end; rewrite E; simpl; discriminate).
    + unfold Part001.on_end; rewrite E. destruct b; simpl; discriminate.
    + unfold Part001.on_end; rewrite E. simpl truthy.
      destruct (negb (num_is_zero n)); simpl; discriminate.
    + rewrite (Part001_on_end_string _ _ _ _ _ _ E).
      destruct (PIIDetector.quickPIICheck text) eqn:Q.
      * intros _. now exists text.
      * rewrite andb_false_r. simpl. discriminate.
Qed.

Lemma Part001_prefilter_witness :
  Part001.on_end (Scenario.env_with (Scenario.replies "PII_DETECTED")) Scenario.detector
    (Scenario.chat_post "{'prompt':'my name is John Smith'}")
    (Json.dq "{'prompt':'my name is John Smith'}") Scenario.stats0
  = (Done tt, after_allow Scenario.stats0,
     [EvForward "https://chat.openai.com" (Json.dq "{'prompt':'my name is John Smith'}")]).
Proof.
  apply (proj1 (Part001_prefilter_gates_remote_call
                  (Scenario.env_with (Scenario.replies "PII_DETECTED")) Scenario.detector
                  (Scenario.chat_post "{'prompt':'my name is John Smith'}")
                  (Json.dq "{'prompt':'my name is John Smith'}") Scenario.stats0)
           "my name is John Smith"); vm_compute; reflexivity.
Defined.

End PreFilter.

(** ** Blocking (C4) *)

Section Blocking.
Import JS Eff Platform Http.

(** C4 at the input where the code departs from it. In [part_001],
    [handleChatRequest] only registers the [end] listener and returns
    [false] (line 166), so the handler goes on to [proxyRequest]
    (line 106): the request is proxied upstream although the classifier
    answers [PII_DETECTED] and the 403 is written. In [server.js] the same
    request is answered with the 403 alone. *)
Lemma C4_part001_proxies_the_blocked_request :
  Part001.serve (Scenario.env_with (Scenario.replies "PII_DETECTED")) Scenario.detector
    Part001.default_aiPlatforms (Scenario.chat_post "{'prompt':'contact me at a@b.com'}")
    Scenario.stats0
  = (Done tt,
     {| requestsBlocked := 1; requestsAllowed := 0; piiDetections := 1 |},
     [EvProxy "https://chat.openai.com";
      EvFetch (PIIDetector.request_url Scenario.detector)
        (PIIDetector.request_init "contact me at a@b.com");
      EvJson 403 Part001.blocked_response]) /\
  forwarded
    (trace_of (Part001.serve (Scenario.env_with (Scenario.replies "PII_DETECTED"))
                 Scenario.detector Part001.default_aiPlatforms
                 (Scenario.chat_post "{'prompt':'contact me at a@b.com'}")
                 Scenario.stats0)) = true /\
  Server.handleAIPlatform (Scenario.env_with (Scenario.replies "PII_DETECTED"))
    Scenario.detector (Scenario.chat_post "{'prompt':'contact me at a@b.com'}")
    "chat.openai.com" Scenario.stats0
  = (Done tt,
     {| requestsBlocked := 1; requestsAllowed := 0; piiDetections := 1 |},
     [EvFetch (PIIDetector.request_url Scenario.detector)
        (PIIDetector.request_init "contact me at a@b.com");
      EvJson 403 Server.blocked_response]).
Proof. repeat split; vm_compute; reflexivity. Qed.

(** The second revision of [server.js] blocks the same request the same
    way; its body carries a fifth key, [timestamp]. *)
Lemma Server2_blocked_response_keys :
  Server2.handleChatRequest (Scenario.env_with (Scenario.replies "PII_DETECTED"))
    Scenario.detector (Scenario.chat_post "{'prompt':'contact me at a@b.com'}")
    "chat.openai.com" Scenario.stats0
  = (Done tt,
     {| requestsBlocked := 1; requestsAllowed := 0; piiDetections := 1 |},
     [EvFetch (PIIDetector.request_url Scenario.detector)
        (PIIDetector.request_init "contact me at a@b.com");
      EvJson 403 (Server2.blocked_response (Scenario.env_with (Scenario.replies "PII_DETECTED")))]) /\
  (forall env, exists props,
      Server2.blocked_response env = JObj props /\
      map fst props = ["error"; "message"; "suggestion"; "blocked"; "timestamp"]).
Proof.
  split; [vm_compute; reflexivity|].
  intros env. eexists. split; reflexivity.
Qed.

Lemma Part001_createProxyHandler_run aiPlatforms req st :
  Part001.createProxyHandler aiPlatforms req st
  = (Done tt, st,
     [if Part001.isAIPlatform aiPlatforms (host req)
      then EvProxy ("https://" ++ Part001.host_text (host req))
      else EvNext]).
Proof.
  unfold Part001.createProxyHandler.
  destruct (Part001.isAIPlatform aiPlatforms (host req)); [|reflexivity].
  simpl negb. cbv iota.
  destruct ((method req =? "POST") && Part001.isChatEndpoint (originalUrl req))%bool;
    reflexivity.
Qed.

Lemma Part001_serve_run env piiDetector aiPlatforms req st :
  Part001.serve env piiDetector aiPlatforms req st
  = if (Part001.isAIPlatform aiPlatforms (host req)
        && (method req =? "POST") && Part001.isChatEndpoint (originalUrl req))%bool
    then (result_of (Part001.on_end env piiDetector req (body_of req) st),
          stats_of (Part001.on_end env piiDetector req (body_of req) st),
          Part001.resumed_after (handler_resumes_after env)
            [EvProxy ("https://" ++ Part001.host_text (host req))]
            (trace_of (Part001.on_end env piiDetector req (body_of req) st)))
    else (Done tt, st,
          [if Part001.isAIPlatform aiPlatforms (host req)
           then EvProxy ("https://" ++ Part001.host_text (host req))
           else EvNext]).
Proof.
  unfold Part001.serve. rewrite Part001_createProxyHandler_run.
  destruct (Part001.isAIPlatform aiPlatforms (host req)); cbn [andb]; [|reflexivity].
  destruct ((method req =? "POST") && Part001.isChatEndpoint (originalUrl req))%bool;
    [|reflexivity].
  destruct (Part001.on_end env piiDetector req (body_of req) st) as [[r s] t].
  reflexivity.
Qed.

(** In [part_001] every request to an enabled AI platform is handed to
    [proxyRequest] by the handler, once, chat submissions included,
    whatever the inspection finds and whenever the listener runs: the
    trace of a chat submission is the trace of its listener with the
    handler's [proxyRequest] somewhere in it, and the trace of any other
    request is that one step. *)
Theorem Part001_always_proxies :
  forall env piiDetector aiPlatforms req st,
    Part001.isAIPlatform aiPlatforms (host req) = true ->
    exists before after,
      trace_of (Part001.serve env piiDetector aiPlatforms req st)
      = (before ++ EvProxy ("https://" ++ Part001.host_text (host req)) :: after)%list /\
      (before ++ after)%list
      = (if (method req =? "POST") && Part001.isChatEndpoint (originalUrl req)
         then trace_of (Part001.on_end env piiDetector req (body_of req) st)
         else [])%bool.
Proof.
  intros env piiDetector aiPlatforms req st H.
  rewrite Part001_serve_run, H. cbn [andb].
  destruct ((method req =? "POST") && Part001.isChatEndpoint (originalUrl req))%bool.
  - unfold trace_of at 1, Part001.resumed_after. cbn [snd app].
    exists (firstn (handler_resumes_after env)
              (trace_of (Part001.on_end env piiDetector req (body_of req) st))),
           (skipn (handler_resumes_after env)
              (trace_of (Part001.on_end env piiDetector req (body_of req) st))).
    split; [reflexivity | apply firstn_skipn].
  - exists [], []. split; reflexivity.
Qed.

Lemma Part001_always_proxies_witness :
  exists before after,
    trace_of (Part001.serve (Scenario.env_with (Scenario.replies "PII_DETECTED"))
                Scenario.detector Part001.default_aiPlatforms
                (Scenario.chat_post "{'prompt':'contact me at a@b.com'}") Scenario.stats0)
    = (before ++ EvProxy "https://chat.openai.com" :: after)%list /\
    (before ++ after)%list
    = trace_of (Part001.on_end (Scenario.env_with (Scenario.replies "PII_DETECTED"))
                  Scenario.detector
                  (Scenario.chat_post "{'prompt':'contact me at a@b.com'}")
                  (body_of (Scenario.chat_post "{'prompt':'contact me at a@b.com'}"))
                  Scenario.stats0).
Proof.
  apply (Part001_always_proxies (Scenario.env_with (Scenario.replies "PII_DETECTED"))
           Scenario.detector Part001.default_aiPlatforms
           (Scenario.chat_post "{'prompt':'contact me at a@b.com'}") Scenario.stats0).
  reflexivity.
Defined.

(** In [server.js] (first revision) a chat request whose extracted text is
    classified Detected is answered with status 403 and a body of exactly
    the four keys [error], [message], [suggestion] and [blocked] (true); it
    is not forwarded; [requestsBlocked] and [piiDetections] go up by one
    and [requestsAllowed] stays. *)
Theorem Server_blocks_detected_request :
  forall env piiDetector req host st text,
    method req = "POST" ->
    Server.isChatEndpoint (originalUrl req) = true ->
    Server.extractPrompt env (body_of req) = JStr text ->
    (10 < String.length text)%nat ->
    result_of (PIIDetector.detectPII env piiDetector text st) = Done true ->
    (requestsBlocked st < 2 ^ 53)%Z ->
    (piiDetections st < 2 ^ 53)%Z ->
    Server.handleAIPlatform env piiDetector req host st
    = (Done tt,
       {| requestsBlocked := requestsBlocked st + 1;
          requestsAllowed := requestsAllowed st;
          piiDetections := piiDetections st + 1 |},
       [EvFetch (PIIDetector.request_url piiDetector) (PIIDetector.request_init text);
        EvJson 403 Server.blocked_response]) /\
    forwarded (trace_of (Server.handleAIPlatform env piiDetector req host st)) = false /\
    (exists props,
        Server.blocked_response = JObj props /\
        map fst props = ["error"; "message"; "suggestion"; "blocked"] /\
        own_prop props "blocked" = Some (JBool true)).
Proof.
  intros env piiDetector req host st text Hm Hc E L D Hb Hp.
  rewrite detectPII_run in D. unfold result_of in D; simpl in D.
  rewrite (Server_handle_string _ _ _ _ _ _ Hm Hc E).
  unfold Inspection.inspected.
  destruct (Nat.ltb_spec 10 (String.length text)); [|lia].
  rewrite D. unfold after_block. rewrite !incr_exact by assumption.
  split; [reflexivity|]. split; [reflexivity|].
  eexists. split; [reflexivity|]. split; reflexivity.
Qed.

Lemma Server_blocks_witness :
  Server.handleAIPlatform (Scenario.env_with (Scenario.replies "PII_DETECTED"))
    Scenario.detector (Scenario.chat_post "{'prompt':'contact me at a@b.com'}")
    "chat.openai.com" Scenario.stats0
  = (Done tt,
     {| requestsBlocked := 0 + 1; requestsAllowed := 0; piiDetections := 0 + 1 |},
     [EvFetch (PIIDetector.request_url Scenario.detector)
        (PIIDetector.request_init "contact me at a@b.com");
      EvJson 403 Server.blocked_response]).
Proof.
  apply (Server_blocks_detected_request
           (Scenario.env_with (Scenario.replies "PII_DETECTED")) Scenario.detector
           (Scenario.chat_post "{'prompt':'contact me at a@b.com'}") "chat.openai.com"
           Scenario.stats0 "contact me at a@b.com");
    try (vm_compute; reflexivity); simpl; lia.
Defined.

End Blocking.

(** ** Failing open (C7) *)

Section FailOpen.
Import JS Eff Platform Http.

(** C7 at the input where [server.js] departs from it. The prompt is an
    array of 11 elements: it is truthy and its length exceeds 10, so
    [prompt.substring] is called and throws. The [catch] of the first
    revision (lines 143-146) forwards the request and leaves
    [requestsAllowed] as it was; the second revision (lines 527-531)
    increments it. In [part_001] the listener has no [catch] of its own:
    the error of [prompt.substring] escapes it. *)
Lemma C7_server_catch_does_not_count_the_request :
  Server.handleAIPlatform (Scenario.env_with (Scenario.replies "NO_PII")) Scenario.detector
    (Scenario.chat_post "{'prompt':[1,2,3,4,5,6,7,8,9,10,11]}") "chat.openai.com"
    Scenario.stats0
  = (Done tt,
     {| requestsBlocked := 0; requestsAllowed := 0; piiDetections := 0 |},
     [EvForward "https://chat.openai.com" (Json.dq "{'prompt':[1,2,3,4,5,6,7,8,9,10,11]}")]) /\
  Server2.handleChatRequest (Scenario.env_with (Scenario.replies "NO_PII")) Scenario.detector
    (Scenario.chat_post "{'prompt':[1,2,3,4,5,6,7,8,9,10,11]}") "chat.openai.com"
    Scenario.stats0
  = (Done tt,
     {| requestsBlocked := 0; requestsAllowed := 1; piiDetections := 0 |},
     [EvForward "https://chat.openai.com" (Json.dq "{'prompt':[1,2,3,4,5,6,7,8,9,10,11]}")]) /\
  Part001.on_end (Scenario.env_with (Scenario.replies "NO_PII")) Scenario.detector
    (Scenario.chat_post "{'prompt':[1]}") (Json.dq "{'prompt':[1]}") Scenario.stats0
  = (Thrown (TypeError "substring is not a function"), Scenario.stats0, []).
Proof. repeat split; vm_compute; reflexivity. Qed.

Lemma Server2_inspect_throws_early env piiDetector host body st e st1 t1 :
  Server2.inspect env piiDetector host body st = (Thrown e, st1, t1) ->
  st1 = st /\ t1 = [].
Proof.
  destruct (Server2.extractPrompt env body) as [| |b|n|text|l|props] eqn:E.
  5: { rewrite (Server2_inspect_string _ _ _ _ _ _ E). intros H. exfalso.
       eapply (inspected_never_throws env piiDetector text st). rewrite H. reflexivity. }
  all: unfold Server2.inspect; rewrite E; unfold bind at 1;
       destruct (long_prompt env _) as [[|]|e'] eqn:L; simpl;
       intros H; try discriminate; injection H; intros; subst; auto.
Qed.

(** The second revision of [server.js] fails open: whatever is thrown in
    the inspection is caught, the request is forwarded with its buffered
    body and [requestsAllowed] is incremented; the handler itself never
    throws. *)
Theorem Server2_fails_open :
  forall env piiDetector req host st,
    (forall e, result_of (Server2.handleChatRequest env piiDetector req host st) <> Thrown e) /\
    (forall e,
        result_of (Server2.inspect env piiDetector host (body_of req) st) = Thrown e ->
        Server2.handleChatRequest env piiDetector req host st
        = (Done tt, after_allow st, [EvForward ("https://" ++ host) (body_of req)])).
Proof.
  intros env piiDetector req host st. unfold Server2.handleChatRequest, try_catch.
  destruct (Server2.inspect env piiDetector host (body_of req) st) as [[r st1] t1] eqn:I.
  split.
  - intros e. destruct r; unfold result_of; simpl; discriminate.
  - intros e H. unfold result_of in H; simpl in H. subst r.
    destruct (Server2_inspect_throws_early _ _ _ _ _ _ _ _ I) as [-> ->]. reflexivity.
Qed.

Lemma Server2_fails_open_witness :
  Server2.handleChatRequest (Scenario.env_with (Scenario.replies "NO_PII")) Scenario.detector
    (Scenario.chat_post "{'prompt':[1,2,3,4,5,6,7,8,9,10,11]}") "chat.openai.com"
    Scenario.stats0
  = (Done tt, after_allow Scenario.stats0,
     [EvForward "https://chat.openai.com"
        (body_of (Scenario.chat_post "{'prompt':[1,2,3,4,5,6,7,8,9,10,11]}"))]).
Proof.
  apply (proj2 (Server2_fails_open (Scenario.env_with (Scenario.replies "NO_PII"))
                  Scenario.detector
                  (Scenario.chat_post "{'prompt':[1,2,3,4,5,6,7,8,9,10,11]}")
                  "chat.openai.com" Scenario.stats0)
           (TypeError "substring is not a function")).
  vm_compute. reflexivity.
Defined.

(** The first revision of [server.js] catches as well, and forwards, but
    its [catch] does not touch the counters: whenever the inspection
    throws, the request is forwarded and all three counters keep their
    values. *)
Theorem Server_catch_leaves_counters :
  forall env piiDetector req host st e,
    method req = "POST" ->
    Server.isChatEndpoint (originalUrl req) = true ->
    result_of (Server.inspect env piiDetector req host (body_of req) st) = Thrown e ->
    Server.handleAIPlatform env piiDetector req host st
    = (Done tt, st, [EvForward ("https://" ++ host) (body_of req)]).
Proof.
  intros env piiDetector req host st e Hm Hc T.
  destruct (is_string_dec (Server.extractPrompt env (body_of req))) as [[text E]|N].
  - exfalso. rewrite (Server_inspect_string _ _ _ _ _ _ _ E) in T.
    now apply inspected_never_throws in T.
  - rewrite (Server_handle_other _ _ _ _ _ Hm Hc N).
    rewrite (Server_inspect_other _ _ _ _ _ _ N) in T.
    destruct (long_prompt env _) as [[|]|e']; try reflexivity.
    unfold result_of in T; simpl in T. discriminate.
Qed.

Lemma Server_catch_witness :
  Server.handleAIPlatform (Scenario.env_with (Scenario.replies "NO_PII")) Scenario.detector
    (Scenario.chat_post "{'prompt':[1,2,3,4,5,6,7,8,9,10,11]}") "chat.openai.com"
    Scenario.stats0
  = (Done tt, Scenario.stats0,
     [EvForward "https://chat.openai.com"
        (body_of (Scenario.chat_post "{'prompt':[1,2,3,4,5,6,7,8,9,10,11]}"))]).
Proof.
  apply (Server_catch_leaves_counters (Scenario.env_with (Scenario.replies "NO_PII"))
           Scenario.detector (Scenario.chat_post "{'prompt':[1,2,3,4,5,6,7,8,9,10,11]}")
           "chat.openai.com" Scenario.stats0 (TypeError "substring is not a function"));
    vm_compute; reflexivity.
Defined.

End FailOpen.

(** ** CONNECT to an intercepted host (C8) *)

Section Connect.
Import JS.

Lemma handleAIConnect_without_files cenv hostname :
  Server.existsSync (Server.files cenv) (Server.certPath cenv hostname) = false
  \/ Server.existsSync (Server.files cenv) (Server.keyPath cenv hostname) = false ->
  Server.handleAIConnect cenv hostname = ([Server.SockEnd Server.server_error], Normal tt).
Proof.
  intros H. unfold Server.handleAIConnect.
  destruct H as [-> | ->]; [reflexivity | now rewrite orb_true_r].
Qed.

Lemma handleAIConnect_with_files cenv hostname :
  Server.existsSync (Server.files cenv) (Server.certPath cenv hostname) = true ->
  Server.existsSync (Server.files cenv) (Server.keyPath cenv hostname) = true ->
  exists e,
    Server.handleAIConnect cenv hostname = ([Server.SockWrite Server.established], Throw e).
Proof.
  intros Hc Hk. unfold Server.handleAIConnect. rewrite Hc, Hk. simpl.
  destruct (Server.readFileSync _ (Server.certPath cenv hostname)) as [cert|e];
    [|now exists e].
  destruct (Server.readFileSync _ (Server.keyPath cenv hostname)) as [key|e];
    [|now exists e].
  destruct (Server.tls_accepts cenv cert key); eexists; reflexivity.
Qed.

Lemma established_is_established :
  Server.is_established (Server.SockWrite Server.established) = true.
Proof. unfold Server.is_established. apply String.eqb_refl. Qed.

(** C8: for a CONNECT to a host classified as an AI platform, when the
    certificate or the key of the host is not there at the check that
    precedes the 200 line, the client socket gets the plaintext line
    [HTTP/1.1 500 Internal Server Error] followed by an empty line, is
    closed, and the 200 line is never written. Otherwise the line
    [HTTP/1.1 200 Connection Established] followed by an empty line is
    written exactly once; it is all that happens on the socket, because
    the call then throws (reading a file, creating the server, or at the
    latest the call of [TLSSocket] without [new]); so no TLS handshake
    begins, before the 200 line or after it. *)
Theorem C8_established_once_and_before_tls :
  forall (cenv : Server.ConnectEnv) (hostname : string) (port : option Z),
    Server.isAIPlatform hostname = true ->
    (Server.existsSync (Server.files cenv) (Server.certPath cenv hostname) = false
     \/ Server.existsSync (Server.files cenv) (Server.keyPath cenv hostname) = false ->
     Server.handleConnect cenv hostname port
     = ([Server.SockEnd
           ("HTTP/1.1 500 Internal Server Error"
              ++ String (ascii_of_nat 13) (String (ascii_of_nat 10)
                   (String (ascii_of_nat 13) (String (ascii_of_nat 10) EmptyString))))],
        Normal tt)
     /\ Server.written_200 (fst (Server.handleConnect cenv hostname port)) = 0%nat) /\
    (Server.existsSync (Server.files cenv) (Server.certPath cenv hostname) = true ->
     Server.existsSync (Server.files cenv) (Server.keyPath cenv hostname) = true ->
     (exists e,
         Server.handleConnect cenv hostname port
         = ([Server.SockWrite
               ("HTTP/1.1 200 Connection Established"
                  ++ String (ascii_of_nat 13) (String (ascii_of_nat 10)
                       (String (ascii_of_nat 13) (String (ascii_of_nat 10) EmptyString))))],
            Throw e))
     /\ Server.written_200 (fst (Server.handleConnect cenv hostname port)) = 1%nat
     /\ (forall cert key,
            ~ In (Server.TlsHandshake cert key)
                 (fst (Server.handleConnect cenv hostname port)))).
Proof.
  intros cenv hostname port AI. unfold Server.handleConnect. rewrite AI. split.
  - intros H. rewrite (handleAIConnect_without_files _ _ H).
    split; reflexivity.
  - intros Hc Hk.
    destruct (handleAIConnect_with_files _ _ Hc Hk) as (e & E). rewrite E.
    split; [exists e; reflexivity|]. split.
    + unfold Server.written_200. cbn [fst filter].
      rewrite established_is_established. reflexivity.
    + intros cert key [H|[]]. discriminate H.
Qed.

(** With the files of [claude.ai] in place the 200 line is written once
    and the call throws; without them the socket gets the 500 line. *)
Lemma C8_connect_witness :
  Server.written_200
    (fst (Server.handleConnect Scenario.with_claude_files "claude.ai" (Some 443%Z))) = 1%nat /\
  Server.written_200
    (fst (Server.handleConnect Scenario.without_files "claude.ai" (Some 443%Z))) = 0%nat.
Proof.
  split.
  - apply (proj2 (C8_established_once_and_before_tls
                    Scenario.with_claude_files "claude.ai" (Some 443%Z) eq_refl));
      reflexivity.
  - apply (proj1 (C8_established_once_and_before_tls
                    Scenario.without_files "claude.ai" (Some 443%Z) eq_refl)).
    left. reflexivity.
Defined.

End Connect.

(** * Further properties of the code *)

(** ** What is inspected, what is blocked and what is counted in
    [server.js] *)

Section ServerAccounting.
Import JS Eff Platform Http.

Lemma inspected_cases env piiDetector text st blocked forward :
  let run := Inspection.inspected env piiDetector text st blocked forward in
  (run = (Done tt, after_block st,
          [EvFetch (PIIDetector.request_url piiDetector) (PIIDetector.request_init text);
           blocked])
   /\ (10 < String.length text)%nat
   /\ PIIDetector.verdict env piiDetector text = Done true)
  \/ (run = (Done tt, after_allow st,
             [EvFetch (PIIDetector.request_url piiDetector) (PIIDetector.request_init text);
              forward])
      /\ (10 < String.length text)%nat
      /\ PIIDetector.verdict env piiDetector text = Done false)
  \/ (run = (Stuck, st,
             [EvFetch (PIIDetector.request_url piiDetector) (PIIDetector.request_init text)])
      /\ (10 < String.length text)%nat
      /\ PIIDetector.verdict env piiDetector text = Stuck)
  \/ (run = (Done tt, after_allow st, [forward]) /\ (String.length text <= 10)%nat).
Proof.
  unfold Inspection.inspected.
  destruct (Nat.ltb_spec 10 (String.length text)) as [L|L]; cbv zeta.
  - pose proof (verdict_never_throws env piiDetector text) as N.
    destruct (PIIDetector.verdict env piiDetector text) as [[|]|e|] eqn:V.
    + left. auto.
    + right; left. auto.
    + exfalso. now apply (N e).
    + right; right; left. auto.
  - right; right; right. auto.
Qed.

Lemma verdict_is_detectPII env piiDetector text st :
  result_of (PIIDetector.detectPII env piiDetector text st)
  = PIIDetector.verdict env piiDetector text.
Proof. now rewrite detectPII_run. Qed.

(** Every way a POST to a chat endpoint can end in the first revision. *)
Lemma Server_handle_cases env piiDetector req host st :
  method req = "POST" ->
  Server.isChatEndpoint (originalUrl req) = true ->
  let run := Server.handleAIPlatform env piiDetector req host st in
  let forward := EvForward ("https://" ++ host) (body_of req) in
  (exists text,
      Server.extractPrompt env (body_of req) = JStr text /\
      run = Inspection.inspected env piiDetector text st
              (EvJson 403 Server.blocked_response) forward)
  \/ ((forall text, Server.extractPrompt env (body_of req) <> JStr text) /\
      (run = (Done tt, st, [forward]) \/ run = (Done tt, after_allow st, [forward]))).
Proof.
  intros Hm Hc run forward. subst run forward.
  destruct (is_string_dec (Server.extractPrompt env (body_of req))) as [[text E]|N].
  - left. exists text. split; [assumption|]. now apply Server_handle_string.
  - right. split; [assumption|]. rewrite (Server_handle_other _ _ _ _ _ Hm Hc N).
    destruct (long_prompt env _) as [[|]|e]; auto.
Qed.

Lemma Server2_handle_cases env piiDetector req host st :
  let run := Server2.handleChatRequest env piiDetector req host st in
  let forward := EvForward ("https://" ++ host) (body_of req) in
  (exists text,
      Server2.extractPrompt env (body_of req) = JStr text /\
      run = Inspection.inspected env piiDetector text st
              (EvJson 403 (Server2.blocked_response env)) forward)
  \/ ((forall text, Server2.extractPrompt env (body_of req) <> JStr text) /\
      run = (Done tt, after_allow st, [forward])).
Proof.
  intros run forward. subst run forward.
  destruct (is_string_dec (Server2.extractPrompt env (body_of req))) as [[text E]|N].
  - left. exists text. split; [assumption|]. now apply Server2_handle_string.
  - right. split; [assumption|]. now apply Server2_handle_other.
Qed.

Lemma inspected_blocking env piiDetector text st status body target sent :
  let run := Inspection.inspected env piiDetector text st
               (EvJson status body) (EvForward target sent) in
  (Trace.answered (trace_of run) = true ->
   (10 < String.length text)%nat
   /\ PIIDetector.verdict env piiDetector text = Done true
   /\ forwarded (trace_of run) = false
   /\ stats_of run = after_block st) /\
  (forwarded (trace_of run) = true ->
   Trace.answered (trace_of run) = false /\ stats_of run = after_allow st) /\
  (result_of run = Done tt ->
   Trace.answered (trace_of run) = true \/ forwarded (trace_of run) = true).
Proof.
  cbv zeta.
  destruct (inspected_cases env piiDetector text st (EvJson status body)
              (EvForward target sent))
    as [(-> & L & V)|[(-> & L & V)|[(-> & L & V)|(-> & L)]]];
    unfold trace_of, stats_of, result_of; simpl;
    (split; [|split]); intros H; try discriminate; auto.
Qed.

(** A request is answered with the 403 only when the classifier returned
    Detected for its prompt, a text longer than 10 characters; a request
    is never both answered and forwarded; and a forwarded request leaves
    [requestsBlocked] and [piiDetections] as they were. *)
Theorem Server_blocks_only_when_detected :
  (forall env piiDetector req host st,
      method req = "POST" ->
      Server.isChatEndpoint (originalUrl req) = true ->
      (Trace.answered (trace_of (Server.handleAIPlatform env piiDetector req host st)) = true ->
       (exists text,
           Server.extractPrompt env (body_of req) = JStr text /\
           (10 < String.length text)%nat /\
           result_of (PIIDetector.detectPII env piiDetector text st) = Done true) /\
       forwarded (trace_of (Server.handleAIPlatform env piiDetector req host st)) = false) /\
      (forwarded (trace_of (Server.handleAIPlatform env piiDetector req host st)) = true ->
       requestsBlocked (stats_of (Server.handleAIPlatform env piiDetector req host st))
       = requestsBlocked st /\
       piiDetections (stats_of (Server.handleAIPlatform env piiDetector req host st))
       = piiDetections st)) /\
  (forall env piiDetector req host st,
      (Trace.answered (trace_of (Server2.handleChatRequest env piiDetector req host st)) = true ->
       (exists text,
           Server2.extractPrompt env (body_of req) = JStr text /\
           (10 < String.length text)%nat /\
           result_of (PIIDetector.detectPII env piiDetector text st) = Done true) /\
       forwarded (trace_of (Server2.handleChatRequest env piiDetector req host st)) = false) /\
      (forwarded (trace_of (Server2.handleChatRequest env piiDetector req host st)) = true ->
       requestsBlocked (stats_of (Server2.handleChatRequest env piiDetector req host st))
       = requestsBlocked st /\
       piiDetections (stats_of (Server2.handleChatRequest env piiDetector req host st))
       = piiDetections st)).
Proof.
  split.
  - intros env piiDetector req host st Hm Hc.
    destruct (Server_handle_cases env piiDetector req host st Hm Hc)
      as [(text & E & ->)|(N & [-> | ->])].
    + destruct (inspected_blocking env piiDetector text st 403 Server.blocked_response
                  ("https://" ++ host) (body_of req)) as (A & F & _).
      split.
      * intros H. destruct (A H) as (L & V & NF & _). split; [|exact NF].
        exists text. rewrite verdict_is_detectPII. auto.
      * intros H. destruct (F H) as (_ & ->). split; reflexivity.
    + split; [discriminate | intros _; split; reflexivity].
    + split; [discriminate | intros _; split; reflexivity].
  - intros env piiDetector req host st.
    destruct (Server2_handle_cases env piiDetector req host st)
      as [(text & E & ->)|(N & ->)].
    + destruct (inspected_blocking env piiDetector text st 403 (Server2.blocked_response env)
                  ("https://" ++ host) (body_of req)) as (A & F & _).
      split.
      * intros H. destruct (A H) as (L & V & NF & _). split; [|exact NF].
        exists text. rewrite verdict_is_detectPII. auto.
      * intros H. destruct (F H) as (_ & ->). split; reflexivity.
    + split; [discriminate | intros _; split; reflexivity].
Qed.

(** The request with an e-mail address, the classifier answering
    [PII_DETECTED]: it is answered, and not forwarded. *)
Lemma Server_blocks_only_when_detected_witness :
  (exists text,
      Server.extractPrompt (Scenario.env_with (Scenario.replies "PII_DETECTED"))
        (body_of (Scenario.chat_post "{'prompt':'contact me at a@b.com'}")) = JStr text /\
      (10 < String.length text)%nat /\
      result_of (PIIDetector.detectPII (Scenario.env_with (Scenario.replies "PII_DETECTED"))
                   Scenario.detector text Scenario.stats0) = Done true) /\
  forwarded
    (trace_of (Server.handleAIPlatform (Scenario.env_with (Scenario.replies "PII_DETECTED"))
                 Scenario.detector (Scenario.chat_post "{'prompt':'contact me at a@b.com'}")
                 "chat.openai.com" Scenario.stats0)) = false.
Proof.
  apply (proj1 (proj1 Server_blocks_only_when_detected
                  (Scenario.env_with (Scenario.replies "PII_DETECTED")) Scenario.detector
                  (Scenario.chat_post "{'prompt':'contact me at a@b.com'}")
                  "chat.openai.com" Scenario.stats0 eq_refl eq_refl)).
  vm_compute. reflexivity.
Defined.

End ServerAccounting.

(** ** Failing open, and what a request costs (server.js) *)

Section ServerOutcomes.
Import JS Eff Platform Http.

Lemma outage_verdict env piiDetector text :
  (forall url init,
      (exists e, fetch env url init = Rejected e) \/
      (exists response, fetch env url init = Fulfilled response /\ ok response = false)) ->
  PIIDetector.verdict env piiDetector text = Done false.
Proof.
  intros H. unfold PIIDetector.verdict.
  destruct (H (PIIDetector.request_url piiDetector) (PIIDetector.request_init text))
    as [[e ->]|(response & -> & ->)]; reflexivity.
Qed.

(** While the classifier cannot be reached, or answers with an error
    status, neither revision of [server.js] blocks anything: no chat
    submission is answered with a 403, [requestsBlocked] and
    [piiDetections] do not move, and every submission whose listener
    finishes has been forwarded. *)
Theorem classifier_outage_blocks_nothing :
  forall env,
    (forall url init,
        (exists e, fetch env url init = Rejected e) \/
        (exists response, fetch env url init = Fulfilled response /\ ok response = false)) ->
    (forall piiDetector req host st,
        method req = "POST" ->
        Server.isChatEndpoint (originalUrl req) = true ->
        Trace.answered (trace_of (Server.handleAIPlatform env piiDetector req host st)) = false /\
        requestsBlocked (stats_of (Server.handleAIPlatform env piiDetector req host st))
        = requestsBlocked st /\
        piiDetections (stats_of (Server.handleAIPlatform env piiDetector req host st))
        = piiDetections st /\
        (result_of (Server.handleAIPlatform env piiDetector req host st) = Done tt ->
         forwarded (trace_of (Server.handleAIPlatform env piiDetector req host st)) = true)) /\
    (forall piiDetector req host st,
        Trace.answered (trace_of (Server2.handleChatRequest env piiDetector req host st)) = false /\
        requestsBlocked (stats_of (Server2.handleChatRequest env piiDetector req host st))
        = requestsBlocked st /\
        piiDetections (stats_of (Server2.handleChatRequest env piiDetector req host st))
        = piiDetections st /\
        (result_of (Server2.handleChatRequest env piiDetector req host st) = Done tt ->
         forwarded (trace_of (Server2.handleChatRequest env piiDetector req host st)) = true /\
         requestsAllowed (stats_of (Server2.handleChatRequest env piiDetector req host st))
         = incr (requestsAllowed st))).
Proof.
  intros env Down. split.
  - intros piiDetector req host st Hm Hc.
    destruct (Server_handle_cases env piiDetector req host st Hm Hc)
      as [(text & E & ->)|(N & [-> | ->])]; [|repeat split..].
    unfold Inspection.inspected. rewrite (outage_verdict env piiDetector text Down).
    destruct (10 <? String.length text)%nat; repeat split.
  - intros piiDetector req host st.
    destruct (Server2_handle_cases env piiDetector req host st)
      as [(text & E & ->)|(N & ->)]; [|repeat split].
    unfold Inspection.inspected. rewrite (outage_verdict env piiDetector text Down).
    destruct (10 <? String.length text)%nat; repeat split.
Qed.

Lemma classifier_outage_witness :
  Trace.answered (trace_of (Server.handleAIPlatform Scenario2.env_down Scenario.detector
                              (Scenario.chat_post "{'prompt':'contact me at a@b.com'}")
                              "chat.openai.com" Scenario.stats0)) = false /\
  requestsBlocked (stats_of (Server.handleAIPlatform Scenario2.env_down Scenario.detector
                               (Scenario.chat_post "{'prompt':'contact me at a@b.com'}")
                               "chat.openai.com" Scenario.stats0))
  = requestsBlocked Scenario.stats0 /\
  piiDetections (stats_of (Server.handleAIPlatform Scenario2.env_down Scenario.detector
                             (Scenario.chat_post "{'prompt':'contact me at a@b.com'}")
                             "chat.openai.com" Scenario.stats0))
  = piiDetections Scenario.stats0 /\
  (result_of (Server.handleAIPlatform Scenario2.env_down Scenario.detector
                (Scenario.chat_post "{'prompt':'contact me at a@b.com'}")
                "chat.openai.com" Scenario.stats0) = Done tt ->
   forwarded (trace_of (Server.handleAIPlatform Scenario2.env_down Scenario.detector
                          (Scenario.chat_post "{'prompt':'contact me at a@b.com'}")
                          "chat.openai.com" Scenario.stats0)) = true).
Proof.
  apply (proj1 (classifier_outage_blocks_nothing Scenario2.env_down
                  (fun url init => or_introl (ex_intro _ (NetworkError "fetch failed") eq_refl)))
           Scenario.detector (Scenario.chat_post "{'prompt':'contact me at a@b.com'}")
           "chat.openai.com" Scenario.stats0 eq_refl eq_refl).
Defined.

(** The second revision of [server.js] counts every chat submission it
    finishes exactly once, as blocked or as allowed. A submission whose
    classification never settles is neither answered nor forwarded, and
    is not counted. *)
Theorem Server2_counts_each_request_once :
  forall env piiDetector req host st,
    (requestsBlocked st < 2 ^ 53)%Z ->
    (requestsAllowed st < 2 ^ 53)%Z ->
    (result_of (Server2.handleChatRequest env piiDetector req host st) = Done tt ->
     (requestsBlocked (stats_of (Server2.handleChatRequest env piiDetector req host st))
      + requestsAllowed (stats_of (Server2.handleChatRequest env piiDetector req host st))
      = requestsBlocked st + requestsAllowed st + 1)%Z) /\
    (result_of (Server2.handleChatRequest env piiDetector req host st) = Stuck ->
     stats_of (Server2.handleChatRequest env piiDetector req host st) = st /\
     forwarded (trace_of (Server2.handleChatRequest env piiDetector req host st)) = false /\
     Trace.answered (trace_of (Server2.handleChatRequest env piiDetector req host st)) = false).
Proof.
  intros env piiDetector req host st Hb Ha.
  destruct (Server2_handle_cases env piiDetector req host st)
    as [(text & E & ->)|(N & ->)].
  - destruct (inspected_cases env piiDetector text st
                (EvJson 403 (Server2.blocked_response env))
                (EvForward ("https://" ++ host) (body_of req)))
      as [(-> & _)|[(-> & _)|[(-> & _)|(-> & _)]]];
      unfold result_of, stats_of, trace_of; simpl;
      rewrite ?incr_exact by assumption;
      (split; [intros H; try discriminate; lia | intros H; try discriminate; auto]).
  - unfold result_of, stats_of, trace_of; simpl. rewrite incr_exact by assumption.
    split; [intros _; lia | discriminate].
Qed.

Lemma Server2_counts_witness :
  (requestsBlocked
     (stats_of (Server2.handleChatRequest (Scenario.env_with (Scenario.replies "NO_PII"))
                  Scenario.detector (Scenario.chat_post "{'prompt':'hello there, how are you'}")
                  "chat.openai.com" Scenario.stats0))
   + requestsAllowed
       (stats_of (Server2.handleChatRequest (Scenario.env_with (Scenario.replies "NO_PII"))
                    Scenario.detector (Scenario.chat_post "{'prompt':'hello there, how are you'}")
                    "chat.openai.com" Scenario.stats0))
   = requestsBlocked Scenario.stats0 + requestsAllowed Scenario.stats0 + 1)%Z.
Proof.
  apply (proj1 (Server2_counts_each_request_once
                  (Scenario.env_with (Scenario.replies "NO_PII")) Scenario.detector
                  (Scenario.chat_post "{'prompt':'hello there, how are you'}")
                  "chat.openai.com" Scenario.stats0 eq_refl eq_refl)).
  vm_compute. reflexivity.
Defined.

(** A prompt that is no text (a number, a list of parts, an object) is
    never classified and never blocked in [server.js]: the request is
    forwarded with its body. *)
Theorem Server_forwards_prompts_that_are_no_text :
  (forall env piiDetector req host st,
      method req = "POST" ->
      Server.isChatEndpoint (originalUrl req) = true ->
      (forall text, Server.extractPrompt env (body_of req) <> JStr text) ->
      result_of (Server.handleAIPlatform env piiDetector req host st) = Done tt /\
      trace_of (Server.handleAIPlatform env piiDetector req host st)
      = [EvForward ("https://" ++ host) (body_of req)]) /\
  (forall env piiDetector req host st,
      (forall text, Server2.extractPrompt env (body_of req) <> JStr text) ->
      Server2.handleChatRequest env piiDetector req host st
      = (Done tt,
         {| requestsBlocked := requestsBlocked st;
            requestsAllowed := incr (requestsAllowed st);
            piiDetections := piiDetections st |},
         [EvForward ("https://" ++ host) (body_of req)])).
Proof.
  split.
  - intros env piiDetector req host st Hm Hc N.
    rewrite (Server_handle_other _ _ _ _ _ Hm Hc N). split; reflexivity.
  - intros env piiDetector req host st N. now apply Server2_handle_other.
Qed.

(** A submission whose content is a list of parts holding a social
    security number goes through unclassified. *)
Lemma Server_forwards_parts_witness :
  result_of (Server.handleAIPlatform (Scenario.env_with (Scenario.replies "PII_DETECTED"))
               Scenario.detector (Scenario.chat_post Scenario2.parts_body)
               "chat.openai.com" Scenario.stats0) = Done tt /\
  trace_of (Server.handleAIPlatform (Scenario.env_with (Scenario.replies "PII_DETECTED"))
              Scenario.detector (Scenario.chat_post Scenario2.parts_body)
              "chat.openai.com" Scenario.stats0)
  = [EvForward ("https://" ++ "chat.openai.com")
       (body_of (Scenario.chat_post Scenario2.parts_body))].
Proof.
  apply (proj1 Server_forwards_prompts_that_are_no_text
           (Scenario.env_with (Scenario.replies "PII_DETECTED")) Scenario.detector
           (Scenario.chat_post Scenario2.parts_body) "chat.openai.com" Scenario.stats0
           eq_refl eq_refl).
  intros text. vm_compute. discriminate.
Defined.

(** Only a POST to a chat endpoint of an AI platform is inspected. Every
    other request is handed on at once (or refused with 400 when it names
    no host): no counter moves and the classifier is not called. *)
Theorem Server_route_passes_other_requests_through :
  forall env piiDetector req st,
    (match host req with
     | Some h => negb (h =? "") && Server.isAIPlatform h
     | None => false
     end && (method req =? "POST") && Server.isChatEndpoint (originalUrl req))%bool = false ->
    Server.route env piiDetector req st
    = (Done tt, st,
       [match host req with
        | None => EvSend 400 "Bad Request"
        | Some h =>
            if h =? "" then EvSend 400 "Bad Request"
            else EvProxy ((if encrypted req then "https" else "http") ++ "://" ++ h)
        end]).
Proof.
  intros env piiDetector req st H. unfold Server.route.
  destruct (host req) as [h|]; [|reflexivity].
  destruct (h =? "") eqn:Eh; [reflexivity|]. simpl in H.
  destruct (Server.isAIPlatform h); [|reflexivity].
  unfold Server.handleAIPlatform. simpl in H. rewrite H. reflexivity.
Qed.

Lemma Server_route_witness :
  Server.route (Scenario.env_with (Scenario.replies "PII_DETECTED")) Scenario.detector
    Scenario2.get_page Scenario.stats0
  = (Done tt, Scenario.stats0, [EvProxy "https://chat.openai.com"]) /\
  Server.route (Scenario.env_with (Scenario.replies "PII_DETECTED")) Scenario.detector
    Scenario2.post_elsewhere Scenario.stats0
  = (Done tt, Scenario.stats0, [EvProxy "http://example.org"]).
Proof.
  split.
  - apply (Server_route_passes_other_requests_through
             (Scenario.env_with (Scenario.replies "PII_DETECTED")) Scenario.detector
             Scenario2.get_page Scenario.stats0). reflexivity.
  - apply (Server_route_passes_other_requests_through
             (Scenario.env_with (Scenario.replies "PII_DETECTED")) Scenario.detector
             Scenario2.post_elsewhere Scenario.stats0). reflexivity.
Defined.

End ServerOutcomes.

(** ** The counters across the three revisions *)

Section Counters.
Import JS Eff Platform Http.

Lemma Part001_on_end_other env piiDetector req body st :
  (forall text, Part001.extractPrompt env body <> JStr text) ->
  Part001.on_end env piiDetector req body st
  = if truthy (Part001.extractPrompt env body)
    then (Thrown (TypeError "substring is not a function"), st, [])
    else (Done tt, after_allow st,
          [EvForward ("https://" ++ Part001.host_text (host req)) body]).
Proof.
  intros N. unfold Part001.on_end.
  destruct (Part001.extractPrompt env body) as [| |b|n|text|l|props]; try reflexivity.
  - destruct b; reflexivity.
  - simpl truthy. destruct (negb (num_is_zero n)); reflexivity.
  - exfalso. now apply (N text).
Qed.








End Counters.

(** ** What the extraction reads *)

Section ExtractionReach.
Import JS Eff Platform Http.

(** Only the last message of a conversation is read: the prompt of a
    body with a [messages] array is the content of its last element,
    whatever the earlier messages hold. *)
Theorem only_the_last_message_is_inspected :
  forall env body props earlier m,
    JSON_parse env body = Some (JObj props) ->
    own_prop props "messages" = Some (JArr (earlier ++ [m])) ->
    Server.extractPrompt env body = js_or (opt_member m "content") (JStr "") /\
    Server2.extractPrompt env body = js_or (opt_member m "content") (JStr "") /\
    Part001.extractPrompt env body = js_or (opt_member m "content") (JStr "").
Proof.
  intros env body props earlier m P M.
  unfold Server.extractPrompt, Server.extractPrompt_try,
    Server2.extractPrompt, Server2.extractPrompt_try,
    Part001.extractPrompt, Part001.extractPrompt_try.
  rewrite P, !member_object. unfold own_or_undefined. rewrite M.
  cbn [truthy Part001.last_of]. rewrite last_message_snoc. repeat split.
Qed.

(** A social security number in the first of two messages: the prompt is
    the second message, and the request is forwarded unclassified. *)
Lemma only_the_last_message_witness :
  Server.extractPrompt (Scenario.env_with (Scenario.replies "PII_DETECTED"))
    (Json.dq "{'messages':[{'content':'my ssn is 123-45-6789'},{'content':'thanks'}]}")
  = js_or (opt_member (JObj [("content", JStr "thanks")]) "content") (JStr "") /\
  Server2.extractPrompt (Scenario.env_with (Scenario.replies "PII_DETECTED"))
    (Json.dq "{'messages':[{'content':'my ssn is 123-45-6789'},{'content':'thanks'}]}")
  = js_or (opt_member (JObj [("content", JStr "thanks")]) "content") (JStr "") /\
  Part001.extractPrompt (Scenario.env_with (Scenario.replies "PII_DETECTED"))
    (Json.dq "{'messages':[{'content':'my ssn is 123-45-6789'},{'content':'thanks'}]}")
  = js_or (opt_member (JObj [("content", JStr "thanks")]) "content") (JStr "").
Proof.
  apply (only_the_last_message_is_inspected
           (Scenario.env_with (Scenario.replies "PII_DETECTED"))
           (Json.dq "{'messages':[{'content':'my ssn is 123-45-6789'},{'content':'thanks'}]}")
           [("messages", JArr [JObj [("content", JStr "my ssn is 123-45-6789")];
                               JObj [("content", JStr "thanks")]])]
           [JObj [("content", JStr "my ssn is 123-45-6789")]]
           (JObj [("content", JStr "thanks")])); reflexivity.
Defined.

Lemma length_substring_0 (n : nat) (s : string) :
  String.length (substring 0 n s) = Nat.min n (String.length s).
Proof.
  revert s; induction n as [|n IH]; intros s.
  - destruct s; reflexivity.
  - destruct s as [|c s]; [reflexivity|]. simpl. now rewrite IH.
Qed.

Lemma is_fetch_in (t : list Event) url init :
  In (EvFetch url init) t -> remote_called t = true.
Proof.
  intros H. unfold remote_called. apply existsb_exists. now exists (EvFetch url init).
Qed.

(** A body that is not JSON. In [server.js] its first 1000 characters are
    the prompt: the classifier is called exactly when the body is longer
    than 10 characters, and what it is sent is built from those first
    1000 characters only. In [part_001] the prompt is empty: the body is
    forwarded and counted as allowed without any inspection. *)
Theorem body_that_does_not_parse :
  forall env piiDetector req host st,
    method req = "POST" ->
    Server.isChatEndpoint (originalUrl req) = true ->
    JSON_parse env (body_of req) = None ->
    Server.extractPrompt env (body_of req) = JStr (substring 0 1000 (body_of req)) /\
    (remote_called (trace_of (Server.handleAIPlatform env piiDetector req host st)) = true
     <-> (10 < String.length (body_of req))%nat) /\
    (forall url init,
        In (EvFetch url init) (trace_of (Server.handleAIPlatform env piiDetector req host st)) ->
        init = PIIDetector.request_init (substring 0 1000 (body_of req))) /\
    Part001.on_end env piiDetector req (body_of req) st
    = (Done tt, after_allow st,
       [EvForward ("https://" ++ Part001.host_text (Http.host req)) (body_of req)]).
Proof.
  intros env piiDetector req host st Hm Hc P.
  assert (E : Server.extractPrompt env (body_of req)
              = JStr (substring 0 1000 (body_of req))).
  { unfold Server.extractPrompt, Server.extractPrompt_try. now rewrite P. }
  split; [exact E|]. rewrite (Server_handle_string _ _ _ _ _ _ Hm Hc E).
  split; [|split].
  - rewrite inspected_remote_called by reflexivity.
    rewrite Nat.ltb_lt, length_substring_0. lia.
  - intros url init H.
    destruct (inspected_cases env piiDetector (substring 0 1000 (body_of req)) st
                (EvJson 403 Server.blocked_response)
                (EvForward ("https://" ++ host) (body_of req)))
      as [(R & _)|[(R & _)|[(R & _)|(R & _)]]]; rewrite R in H;
      unfold trace_of in H; simpl in H;
      repeat (destruct H as [H|H]; try discriminate; try contradiction);
      now injection H.
  - assert (A : Part001.extractPrompt env (body_of req) = JStr "").
    { unfold Part001.extractPrompt, Part001.extractPrompt_try. now rewrite P. }
    rewrite (Part001_on_end_string _ _ _ _ _ _ A). reflexivity.
Qed.

Lemma body_that_does_not_parse_witness :
  remote_called
    (trace_of (Server.handleAIPlatform (Scenario.env_with (Scenario.replies "NO_PII"))
                 Scenario.detector (Scenario.chat_post "call 555-123-4567 today")
                 "chat.openai.com" Scenario.stats0)) = true.
Proof.
  apply (proj1 (proj2 (body_that_does_not_parse
                         (Scenario.env_with (Scenario.replies "NO_PII")) Scenario.detector
                         (Scenario.chat_post "call 555-123-4567 today") "chat.openai.com"
                         Scenario.stats0 eq_refl eq_refl eq_refl))).
  simpl. lia.
Defined.

End ExtractionReach.

(** ** The regular-expression pre-filter *)

Section PreFilterReach.
Import JS Eff Platform Http Regex.

Lemma string_exists_app_r (p : ascii -> bool) (pre s : string) :
  Text.string_exists p s = true -> Text.string_exists p (pre ++ s) = true.
Proof.
  intros H. induction pre as [|c pre IH]; [assumption|].
  simpl. rewrite IH. apply orb_true_r.
Qed.

Lemma string_exists_mono (p q : ascii -> bool) (s : string) :
  (forall c, p c = true -> q c = true) ->
  Text.string_exists p s = true -> Text.string_exists q s = true.
Proof.
  intros I. induction s as [|c s IH]; simpl; [discriminate|].
  rewrite !orb_true_iff. intros [H|H]; [left; now apply I | right; now apply IH].
Qed.

(** Whatever a repetition consumes, the rest of the pattern is matched on
    a suffix of the text. *)
Lemma match_rep_continues cs k s :
  forall lo hi prev,
    match_rep cs lo hi k prev s = true ->
    exists pre prev' s', s = pre ++ s' /\ k prev' s' = true.
Proof.
  induction s as [|c s IH]; intros lo hi prev H.
  - simpl in H. rewrite orb_false_r in H. destruct lo; [|discriminate].
    now exists EmptyString, prev, EmptyString.
  - cbn [match_rep] in H. apply orb_true_iff in H. destruct H as [H|H].
    + destruct lo; [|discriminate]. now exists EmptyString, prev, (String c s).
    + apply andb_true_iff in H. destruct H as [_ H].
      destruct hi as [[|h]|]; [discriminate| |];
        destruct (IH _ _ _ H) as (pre & prev' & s' & -> & K);
        now exists (String c pre), prev', s'.
Qed.

(** A repetition that asks for at least one character takes the first
    character of the text. *)
Lemma match_rep_first cs lo hi k prev s :
  match_rep cs (S lo) hi k prev s = true ->
  exists c s', s = String c s' /\ cs c = true.
Proof.
  destruct s as [|c s]; cbn [match_rep]; intros H; [discriminate|].
  simpl in H. apply andb_true_iff in H. destruct H as [H _]. now exists c, s.
Qed.

Lemma match_here_needs r :
  forall prev s,
    match_here r prev s = true ->
    forall cs lo hi, In (Rep cs (S lo) hi) r -> Text.string_exists cs s = true.
Proof.
  induction r as [|[cs' lo' hi'|] r IH]; intros prev s H cs lo hi I.
  - contradiction.
  - cbn [match_here] in H. destruct I as [I|I].
    + injection I as -> -> ->.
      destruct (match_rep_first _ _ _ _ _ _ H) as (c & s' & -> & C).
      simpl. now rewrite C.
    + destruct (match_rep_continues _ _ _ _ _ _ H) as (pre & prev' & s' & -> & K).
      apply string_exists_app_r. now apply (IH prev' s' K cs lo hi).
  - cbn [match_here] in H. apply andb_true_iff in H. destruct H as [_ H].
    destruct I as [I|I]; [discriminate|]. now apply (IH prev s H cs lo hi).
Qed.

Lemma search_needs r s :
  forall prev,
    search r prev s = true ->
    forall cs lo hi, In (Rep cs (S lo) hi) r -> Text.string_exists cs s = true.
Proof.
  induction s as [|c s IH]; intros prev H cs lo hi I; cbn [search] in H;
    apply orb_true_iff in H; destruct H as [H|H].
  - now apply (match_here_needs r prev _ H cs lo hi).
  - discriminate.
  - now apply (match_here_needs r prev _ H cs lo hi).
  - simpl. rewrite (IH _ H cs lo hi I). apply orb_true_r.
Qed.

(** [quickPIICheck] accepts no text without a digit or an at sign: four
    of its patterns start with a digit and the fifth needs the [@]. In
    [part_001], where it gates the classifier, such a prompt (a name, a
    postal address in words, a password of letters) is forwarded and
    counted as allowed without any remote call. *)
Theorem quickPIICheck_needs_a_digit_or_an_at_sign :
  forall text,
    Text.string_exists Text.digit_or_at text = false ->
    PIIDetector.quickPIICheck text = false /\
    (forall env piiDetector req body st,
        Part001.extractPrompt env body = JStr text ->
        Part001.on_end env piiDetector req body st
        = (Done tt, after_allow st,
           [EvForward ("https://" ++ Part001.host_text (Http.host req)) body])).
Proof.
  intros text H.
  assert (Q : PIIDetector.quickPIICheck text = false).
  { destruct (PIIDetector.quickPIICheck text) eqn:Q; [exfalso|reflexivity].
    unfold PIIDetector.quickPIICheck in Q. apply existsb_exists in Q.
    destruct Q as (pattern & I & T). unfold test in T.
    assert (D : forall cs lo hi,
               In (Rep cs (S lo) hi) pattern -> Text.string_exists cs text = true)
      by (intros cs lo hi; now apply (search_needs pattern text None T)).
    assert (X : Text.string_exists Text.digit_or_at text = true).
    { destruct I as [<-|[<-|[<-|[<-|[<-|[]]]]]].
      - apply (string_exists_mono digit); [intros c C; unfold Text.digit_or_at; now rewrite C|].
        apply (D digit 2 (Some 3)). simpl. auto.
      - apply (string_exists_mono digit); [intros c C; unfold Text.digit_or_at; now rewrite C|].
        apply (D digit 3 (Some 4)). simpl. auto.
      - apply (string_exists_mono (is_char 64));
          [intros c C; unfold Text.digit_or_at; rewrite C; apply orb_true_r|].
        apply (D (is_char 64) 0 (Some 1)). simpl. auto.
      - apply (string_exists_mono digit); [intros c C; unfold Text.digit_or_at; now rewrite C|].
        apply (D digit 2 (Some 3)). simpl. auto.
      - apply (string_exists_mono digit); [intros c C; unfold Text.digit_or_at; now rewrite C|].
        apply (D digit 0 (Some 3)). simpl. auto. }
    congruence. }
  split; [exact Q|].
  intros env piiDetector req body st E.
  rewrite (Part001_on_end_string _ _ _ _ _ _ E), Q. now rewrite andb_false_r.
Qed.

Lemma quickPIICheck_witness :
  PIIDetector.quickPIICheck "my name is John Smith, born in Paris" = false.
Proof.
  apply (proj1 (quickPIICheck_needs_a_digit_or_an_at_sign
                  "my name is John Smith, born in Paris" eq_refl)).
Defined.

End PreFilterReach.

(** ** A token the pre-filter always catches *)

Section PreFilterCatches.
Import JS Eff Platform Http Regex.

Lemma length_app (a b : string) :
  String.length (a ++ b) = (String.length a + String.length b)%nat.
Proof. induction a; simpl; congruence. Qed.

Lemma match_rep_exact cs k rest :
  forall run n prev,
    String.length run = n ->
    Text.string_forall cs run = true ->
    k (Text.prev_after prev run) rest = true ->
    match_rep cs n (Some n) k prev (run ++ rest) = true.
Proof.
  induction run as [|c run IH]; intros n prev L F K.
  - simpl in L. subst n. simpl in K. simpl.
    destruct rest; cbn [match_rep]; rewrite K; reflexivity.
  - simpl in L. subst n. simpl in F. apply andb_true_iff in F. destruct F as [C F].
    change (String c run ++ rest) with (String c (run ++ rest)).
    cbn [match_rep pred]. rewrite C. simpl. now apply IH.
Qed.

Lemma search_skips r s :
  forall pre prev,
    search r (Text.prev_after prev pre) s = true -> search r prev (pre ++ s) = true.
Proof.
  induction pre as [|c pre IH]; intros prev H; [assumption|].
  change (String c pre ++ s) with (String c (pre ++ s)). cbn [search].
  rewrite (IH (Some c) H). apply orb_true_r.
Qed.

Lemma search_here r prev s : match_here r prev s = true -> search r prev s = true.
Proof. intros H. destruct s; cbn [search]; rewrite H; reflexivity. Qed.

Lemma digit_is_word c : digit c = true -> word c = true.
Proof. intros H. unfold word. rewrite H. now rewrite orb_true_r. Qed.

Lemma digits_start_with_word run rest :
  String.length run <> 0%nat ->
  Text.string_forall digit run = true ->
  is_word_at (first_char (run ++ rest)) = true.
Proof.
  destruct run as [|c run]; [intros H; now elim H|]. simpl. intros _ F.
  apply andb_true_iff in F. destruct F as [C _]. now apply digit_is_word.
Qed.

Lemma digits_end_with_word run :
  forall prev,
    String.length run <> 0%nat ->
    Text.string_forall digit run = true ->
    is_word_at (Text.prev_after prev run) = true.
Proof.
  induction run as [|c run IH]; intros prev L F; [now elim L|].
  simpl in F. apply andb_true_iff in F. destruct F as [C F]. simpl.
  destruct run as [|c' run'].
  - simpl. now apply digit_is_word.
  - apply IH; [discriminate | assumption].
Qed.

Lemma ssn_matches_here prev d3 d2 d4 post :
  String.length d3 = 3%nat -> String.length d2 = 2%nat -> String.length d4 = 4%nat ->
  Text.string_forall digit d3 = true ->
  Text.string_forall digit d2 = true ->
  Text.string_forall digit d4 = true ->
  is_word_at prev = false ->
  is_word_at (first_char post) = false ->
  match_here PIIDetector.ssn prev (d3 ++ "-" ++ d2 ++ "-" ++ d4 ++ post) = true.
Proof.
  intros L3 L2 L4 F3 F2 F4 B E.
  unfold PIIDetector.ssn. cbn [match_here].
  rewrite B, (digits_start_with_word d3 _ ltac:(rewrite L3; discriminate) F3). simpl xorb.
  cbn [andb]. unfold exactly.
  apply match_rep_exact; [assumption..|]. cbn [match_here]. unfold one.
  apply (match_rep_exact PIIDetector.dash _ _ "-" 1); [reflexivity..|].
  cbn [match_here]. apply match_rep_exact; [assumption..|]. cbn [match_here].
  apply (match_rep_exact PIIDetector.dash _ _ "-" 1); [reflexivity..|].
  cbn [match_here]. apply match_rep_exact; [assumption..|]. cbn [match_here].
  rewrite (digits_end_with_word d4 _ ltac:(rewrite L4; discriminate) F4), E.
  reflexivity.
Qed.

(** A token shaped like a social security number (three digits, a dash,
    two digits, a dash, four digits) that no letter, digit or underscore
    touches is always caught: [quickPIICheck] accepts every text that
    holds one, and a prompt that holds one is sent to the remote
    classifier by all three revisions. *)
Theorem standalone_ssn_is_always_classified :
  forall pre d3 d2 d4 post,
    String.length d3 = 3%nat -> String.length d2 = 2%nat -> String.length d4 = 4%nat ->
    Text.string_forall digit d3 = true ->
    Text.string_forall digit d2 = true ->
    Text.string_forall digit d4 = true ->
    is_word_at (Text.prev_after None pre) = false ->
    is_word_at (first_char post) = false ->
    PIIDetector.quickPIICheck (Text.ssn_text pre d3 d2 d4 post) = true /\
    (forall env piiDetector req host st,
        method req = "POST" ->
        Server.isChatEndpoint (originalUrl req) = true ->
        Server.extractPrompt env (body_of req) = JStr (Text.ssn_text pre d3 d2 d4 post) ->
        remote_called (trace_of (Server.handleAIPlatform env piiDetector req host st)) = true) /\
    (forall env piiDetector req host st,
        Server2.extractPrompt env (body_of req) = JStr (Text.ssn_text pre d3 d2 d4 post) ->
        remote_called (trace_of (Server2.handleChatRequest env piiDetector req host st)) = true) /\
    (forall env piiDetector req body st,
        Part001.extractPrompt env body = JStr (Text.ssn_text pre d3 d2 d4 post) ->
        remote_called (trace_of (Part001.on_end env piiDetector req body st)) = true).
Proof.
  intros pre d3 d2 d4 post L3 L2 L4 F3 F2 F4 B E.
  assert (Q : PIIDetector.quickPIICheck (Text.ssn_text pre d3 d2 d4 post) = true).
  { unfold PIIDetector.quickPIICheck, PIIDetector.piiPatterns. cbn [existsb].
    apply orb_true_iff. left. unfold test, Text.ssn_text.
    apply search_skips, search_here. now apply ssn_matches_here. }
  assert (Len : (10 < String.length (Text.ssn_text pre d3 d2 d4 post))%nat).
  { unfold Text.ssn_text. rewrite !length_app, L3, L2, L4. simpl. lia. }
  split; [exact Q|]. split; [|split].
  - intros env piiDetector req host st Hm Hc P.
    rewrite (Server_handle_string _ _ _ _ _ _ Hm Hc P).
    rewrite inspected_remote_called by reflexivity. now apply Nat.ltb_lt.
  - intros env piiDetector req host st P.
    rewrite (Server2_handle_string _ _ _ _ _ _ P).
    rewrite inspected_remote_called by reflexivity. now apply Nat.ltb_lt.
  - intros env piiDetector req body st P.
    rewrite (Part001_on_end_string _ _ _ _ _ _ P), Q.
    assert (NE : (Text.ssn_text pre d3 d2 d4 post =? "") = false).
    { apply length_pos_nonempty. lia. }
    rewrite NE. simpl.
    destruct (PIIDetector.verdict env piiDetector _) as [[|]| |];
      try destruct (headers_sent env); reflexivity.
Qed.

Lemma standalone_ssn_witness :
  PIIDetector.quickPIICheck (Text.ssn_text "my ssn is " "123" "45" "6789" ", ok?") = true.
Proof.
  apply (proj1 (standalone_ssn_is_always_classified "my ssn is " "123" "45" "6789" ", ok?"
                  eq_refl eq_refl eq_refl eq_refl eq_refl eq_refl eq_refl eq_refl)).
Defined.

End PreFilterCatches.

(** ** Reading the classifier's reply *)

Section Reply.
Import JS Eff Platform.

Lemma trim_start_spaces (l s : string) :
  Text.string_forall is_trim_space l = true -> trim_start (l ++ s) = trim_start s.
Proof.
  induction l as [|c l IH]; [reflexivity|]. simpl. intros H.
  apply andb_true_iff in H. destruct H as [C H]. rewrite C. now apply IH.
Qed.

Lemma trim_start_all_spaces (r : string) :
  Text.string_forall is_trim_space r = true -> trim_start r = EmptyString.
Proof.
  induction r as [|c r IH]; [reflexivity|]. simpl. intros H.
  apply andb_true_iff in H. destruct H as [C H]. rewrite C. now apply IH.
Qed.

Lemma trim_end_all_spaces (r : string) :
  Text.string_forall is_trim_space r = true -> trim_end r = EmptyString.
Proof.
  induction r as [|c r IH]; [reflexivity|]. simpl. intros H.
  apply andb_true_iff in H. destruct H as [C H]. rewrite (IH H). now rewrite C.
Qed.

Lemma trim_end_spaces (s r : string) :
  Text.string_forall is_trim_space r = true -> trim_end (s ++ r) = trim_end s.
Proof.
  intros H. induction s as [|c s IH].
  - simpl. now apply trim_end_all_spaces.
  - change (String c s ++ r) with (String c (s ++ r)). cbn [trim_end]. now rewrite IH.
Qed.

(** White space around a text does not change what [trim] gives. *)
Lemma trim_padding (l t r : string) :
  Text.string_forall is_trim_space l = true ->
  Text.string_forall is_trim_space r = true ->
  trim (l ++ t ++ r) = trim t.
Proof.
  intros L R. unfold trim. rewrite (trim_start_spaces l _ L). clear L l.
  induction t as [|c t IH].
  - simpl. now rewrite (trim_start_all_spaces r R).
  - change (String c t ++ r) with (String c (t ++ r)). cbn [trim_start].
    destruct (is_trim_space c); [exact IH|].
    change (String c (t ++ r)) with (String c t ++ r). now apply trim_end_spaces.
Qed.

(** The verdict is read from the text of the first part of the first
    candidate, whatever else the answer carries (further candidates,
    further parts, other fields): it is Detected exactly when that text,
    trimmed, is [PII_DETECTED], so white space around the token does not
    matter, and any other wording gives Clear. *)
Theorem verdict_reads_first_part_of_first_candidate :
  forall env self text st response props c0 candidates content p0 parts raw,
    fetch env (PIIDetector.request_url self) (PIIDetector.request_init text)
    = Fulfilled response ->
    ok response = true ->
    json response = Fulfilled (JObj props) ->
    own_prop props "candidates" = Some (JArr (JObj c0 :: candidates)) ->
    own_prop c0 "content" = Some (JObj content) ->
    own_prop content "parts" = Some (JArr (JObj p0 :: parts)) ->
    own_prop p0 "text" = Some (JStr raw) ->
    result_of (PIIDetector.detectPII env self text st)
    = Done (trim raw =? "PII_DETECTED") /\
    (forall l r,
        Text.string_forall is_trim_space l = true ->
        Text.string_forall is_trim_space r = true ->
        raw = l ++ "PII_DETECTED" ++ r ->
        result_of (PIIDetector.detectPII env self text st) = Done true).
Proof.
  intros env self text st response props c0 candidates content p0 parts raw
    F O J C0 Cn P0 T.
  assert (R : result_of (PIIDetector.detectPII env self text st)
              = Done (trim raw =? "PII_DETECTED")).
  { rewrite detectPII_run. unfold result_of; simpl. unfold PIIDetector.verdict.
    rewrite F, O, J. simpl negb. cbv iota.
    unfold PIIDetector.candidate_text, PIIDetector.candidate_part_text.
    rewrite member_object. unfold own_or_undefined. rewrite C0.
    cbn [index0 nullish]. unfold opt_member. rewrite member_object.
    unfold own_or_undefined. rewrite Cn. cbn [nullish]. rewrite member_object.
    unfold own_or_undefined. rewrite P0. cbn [index0 nullish].
    rewrite member_object. unfold own_or_undefined. rewrite T. reflexivity. }
  split; [exact R|].
  intros l r L Rr ->. rewrite R, (trim_padding l "PII_DETECTED" r L Rr). reflexivity.
Qed.

Lemma verdict_reply_witness :
  result_of (PIIDetector.detectPII (Scenario.env_with (Scenario.replies " PII_DETECTED "))
               Scenario.detector "contact me at a@b.com" Scenario.stats0)
  = Done (trim " PII_DETECTED " =? "PII_DETECTED").
Proof.
  apply (proj1 (verdict_reads_first_part_of_first_candidate
                  (Scenario.env_with (Scenario.replies " PII_DETECTED "))
                  Scenario.detector "contact me at a@b.com" Scenario.stats0
                  {| ok := true; status := 200; statusText := "OK";
                     json := Fulfilled (Scenario.gemini_reply " PII_DETECTED ") |}
                  [("candidates",
                    JArr [JObj [("content",
                                 JObj [("parts", JArr [JObj [("text", JStr " PII_DETECTED ")]])])]])]
                  [("content", JObj [("parts", JArr [JObj [("text", JStr " PII_DETECTED ")]])])]
                  []
                  [("parts", JArr [JObj [("text", JStr " PII_DETECTED ")]])]
                  [("text", JStr " PII_DETECTED ")] [] " PII_DETECTED "
                  eq_refl eq_refl eq_refl eq_refl eq_refl eq_refl eq_refl)).
Defined.

End Reply.

(** ** CONNECT: tunnel or 200 without TLS *)

Section Connect.
Import JS.

(** What a CONNECT can lead to. No TLS handshake with the client ever
    begins, for no host. A tunnel is opened only for a host that is no AI
    platform, to that very host on the port asked for or on 443, and only
    once the connection stands; it is preceded by the 200 line. The 200
    line is written at most once. When the client socket is ended,
    nothing happens on it afterwards; for an AI platform it is ended only
    with the 500 line and nothing before it, for another host it can be
    ended after the 200 line and the tunnel, when the upstream host fails
    or closes. For an AI platform the port plays no part. *)
Theorem connect_never_starts_tls :
  forall (cenv : Server.ConnectEnv) (hostname : string) (port : option Z),
    (Server.written_200 (fst (Server.handleConnect cenv hostname port)) <= 1)%nat /\
    (forall cert key,
        ~ In (Server.TlsHandshake cert key) (fst (Server.handleConnect cenv hostname port))) /\
    (forall h p,
        In (Server.Tunnel h p) (fst (Server.handleConnect cenv hostname port)) ->
        Server.isAIPlatform hostname = false /\ h = hostname /\
        p = match port with Some n => n | None => 443%Z end /\
        (exists later, Server.net_connect cenv hostname p = Server.Connected later) /\
        exists rest,
          fst (Server.handleConnect cenv hostname port)
          = Server.SockWrite Server.established :: Server.Tunnel h p :: rest) /\
    (forall before data after,
        fst (Server.handleConnect cenv hostname port)
        = (before ++ Server.SockEnd data :: after)%list ->
        after = [] /\
        (Server.isAIPlatform hostname = true ->
         before = [] /\ data = Server.server_error)) /\
    (forall later,
        Server.isAIPlatform hostname = false ->
        Server.net_connect cenv hostname (match port with Some n => n | None => 443%Z end)
        = Server.Connected later ->
        Server.handleConnect cenv hostname port
        = ((Server.SockWrite Server.established
            :: Server.Tunnel hostname (match port with Some n => n | None => 443%Z end)
            :: match later with
               | Server.StaysOpen => []
               | Server.UpstreamFails | Server.UpstreamCloses => [Server.SockEnd EmptyString]
               | Server.ClientLeaves => [Server.UpstreamEnd]
               end)%list, Normal tt)) /\
    (Server.isAIPlatform hostname = true ->
     forall port', Server.handleConnect cenv hostname port'
                   = Server.handleConnect cenv hostname port).
Proof.
  intros cenv hostname port. unfold Server.handleConnect.
  destruct (Server.isAIPlatform hostname) eqn:AI.
  - unfold Server.handleAIConnect, Server.existsSync, Server.readFileSync.
    destruct (Server.files cenv (Server.certPath cenv hostname)) as [| |cert] eqn:Fc;
      destruct (Server.files cenv (Server.keyPath cenv hostname)) as [| |key] eqn:Fk;
      cbn [negb orb fst];
      try destruct (Server.tls_accepts cenv cert key) eqn:T; cbn [fst];
      unfold Server.written_200; cbn [filter];
      try rewrite established_is_established;
      cbn [filter Server.is_established List.length];
      (split; [lia|]);
      (split; [intros c k H; simpl in H;
               repeat (destruct H as [H|H]; try discriminate H; try contradiction)|]);
      (split; [intros h p H; simpl in H;
               repeat (destruct H as [H|H]; try discriminate H; try contradiction)|]);
      (split; [intros [|x [|y before]] d after H; simpl in H;
               try discriminate H;
               try (injection H as <- <-; split; [reflexivity | intros _; split; reflexivity]);
               try (injection H as _ H; destruct before; discriminate H)|]);
      (split; [intros later N; discriminate N|]);
      reflexivity.
  - unfold Server.handleRegularConnect.
    destruct (Server.net_connect cenv hostname
                (match port with Some n => n | None => 443%Z end)) as [|later] eqn:R.
    + unfold Server.written_200. cbn [fst filter Server.is_established List.length].
      split; [lia|].
      split; [intros c k [H|[]]; discriminate H|].
      split; [intros h p [H|[]]; discriminate H|].
      split.
      { intros [|x [|y before]] d after H; simpl in H.
        - injection H as <- <-. split; [reflexivity | intros N; discriminate N].
        - discriminate H.
        - discriminate H. }
      split; [intros later _ H; discriminate H|].
      intros N; discriminate N.
    + unfold Server.written_200. cbn [fst filter].
      rewrite established_is_established.
      split.
      { destruct later; cbn; lia. }
      split.
      { intros c k H. destruct later; simpl in H;
          repeat (destruct H as [H|H]; try discriminate H; try contradiction). }
      split.
      { intros h p H.
        assert (E : h = hostname /\ p = match port with Some n => n | None => 443%Z end).
        { destruct later; simpl in H;
            repeat (destruct H as [H|H]; try discriminate H; try contradiction);
            injection H as <- <-; split; reflexivity. }
        destruct E as [-> ->]. split; [reflexivity|]. split; [reflexivity|].
        split; [reflexivity|]. split; [now exists later|]. eexists. reflexivity. }
      split.
      { intros before d after H. split; [|intros N; discriminate N].
        destruct later; simpl in H;
          destruct before as [|x [|y [|z before]]]; simpl in H; try discriminate H;
          try (injection H as _ _ H; destruct before; discriminate H);
          try (injection H as _ _ _ H; destruct before; discriminate H);
          try (now injection H as _ _ _ <-). }
      split.
      { intros later' _ H. injection H as <-. reflexivity. }
      intros N; discriminate N.
Qed.

End Connect.

(** ** [part_001]: the handler and the listener *)

Section Part001Outcomes.
Import JS Eff Platform Http.

Lemma answered_resumed_after k handler listener :
  Trace.answered (Part001.resumed_after k handler listener)
  = (Trace.answered handler || Trace.answered listener)%bool.
Proof.
  unfold Trace.answered, Part001.resumed_after.
  assert (E : existsb Trace.is_json listener
              = (existsb Trace.is_json (firstn k listener)
                 || existsb Trace.is_json (skipn k listener))%bool)
    by (now rewrite <- existsb_app, firstn_skipn).
  rewrite E, !existsb_app.
  destruct (existsb Trace.is_json (firstn k listener));
    destruct (existsb Trace.is_json handler);
    destruct (existsb Trace.is_json (skipn k listener)); reflexivity.
Qed.

Lemma times_forwarded_resumed_after k handler listener :
  Trace.times_forwarded (Part001.resumed_after k handler listener)
  = (Trace.times_forwarded handler + Trace.times_forwarded listener)%nat.
Proof.
  unfold Trace.times_forwarded, Part001.resumed_after.
  assert (E : List.length (filter is_forward listener)
              = (List.length (filter is_forward (firstn k listener))
                 + List.length (filter is_forward (skipn k listener)))%nat)
    by (now rewrite <- List.length_app, <- filter_app, firstn_skipn).
  rewrite E, !filter_app, !List.length_app. lia.
Qed.

Lemma Part001_on_end_cases env piiDetector req body st :
  (result_of (Part001.on_end env piiDetector req body st) = Done tt /\
   stats_of (Part001.on_end env piiDetector req body st) = after_block st /\
   Trace.answered (trace_of (Part001.on_end env piiDetector req body st)) = true /\
   Trace.times_forwarded (trace_of (Part001.on_end env piiDetector req body st)) = 0%nat) \/
  (result_of (Part001.on_end env piiDetector req body st) = Done tt /\
   stats_of (Part001.on_end env piiDetector req body st) = after_allow st /\
   Trace.answered (trace_of (Part001.on_end env piiDetector req body st)) = false /\
   Trace.times_forwarded (trace_of (Part001.on_end env piiDetector req body st)) = 1%nat) \/
  (result_of (Part001.on_end env piiDetector req body st) <> Done tt /\
   stats_of (Part001.on_end env piiDetector req body st) = st /\
   Trace.answered (trace_of (Part001.on_end env piiDetector req body st)) = false /\
   Trace.times_forwarded (trace_of (Part001.on_end env piiDetector req body st)) = 0%nat) \/
  (headers_sent env = true /\
   result_of (Part001.on_end env piiDetector req body st)
   = Thrown (TypeError "ERR_HTTP_HEADERS_SENT") /\
   stats_of (Part001.on_end env piiDetector req body st) = after_block st /\
   Trace.answered (trace_of (Part001.on_end env piiDetector req body st)) = false /\
   Trace.times_forwarded (trace_of (Part001.on_end env piiDetector req body st)) = 0%nat).
Proof.
  destruct (is_string_dec (Part001.extractPrompt env body)) as [[text E]|N].
  - rewrite (Part001_on_end_string _ _ _ _ _ _ E).
    destruct (negb (text =? "") && PIIDetector.quickPIICheck text)%bool.
    + destruct (PIIDetector.verdict env piiDetector text) as [[|]|e|].
      * destruct (headers_sent env) eqn:Hs.
        -- right; right; right. repeat split.
        -- left. repeat split.
      * right; left. repeat split.
      * right; right; left. repeat split. discriminate.
      * right; right; left. repeat split. discriminate.
    + right; left. repeat split.
  - rewrite (Part001_on_end_other _ _ _ _ _ N).
    destruct (truthy (Part001.extractPrompt env body)).
    + right; right; left. repeat split. discriminate.
    + right; left. repeat split.
Qed.

(** In [part_001] the handler hands a chat submission to the proxy
    without waiting for its inspection, so one of four things happens: it
    is answered 403, counted as blocked, and has gone upstream once; or
    it is counted as allowed and has gone upstream twice ([proxyRequest]
    and [forwardRequest]); or the listener does not finish, no counter
    moves and it has gone upstream once; or, when the proxied request has
    been answered before the verdict, the 403 cannot be written any more:
    the listener throws after counting the request as blocked, and the
    client has the upstream answer. The listener also throws, with
    nothing to catch it, when the prompt is truthy and no text (a number,
    a list of parts). None of this depends on when the handler goes on. *)
Theorem Part001_chat_submission_outcomes :
  forall env piiDetector aiPlatforms req st,
    Part001.isAIPlatform aiPlatforms (host req) = true ->
    method req = "POST" ->
    Part001.isChatEndpoint (originalUrl req) = true ->
    ((Trace.answered (trace_of (Part001.serve env piiDetector aiPlatforms req st)) = true /\
      result_of (Part001.serve env piiDetector aiPlatforms req st) = Done tt /\
      stats_of (Part001.serve env piiDetector aiPlatforms req st) = after_block st /\
      Trace.times_forwarded (trace_of (Part001.serve env piiDetector aiPlatforms req st))
      = 1%nat) \/
     (Trace.answered (trace_of (Part001.serve env piiDetector aiPlatforms req st)) = false /\
      result_of (Part001.serve env piiDetector aiPlatforms req st) = Done tt /\
      stats_of (Part001.serve env piiDetector aiPlatforms req st) = after_allow st /\
      Trace.times_forwarded (trace_of (Part001.serve env piiDetector aiPlatforms req st))
      = 2%nat) \/
     (Trace.answered (trace_of (Part001.serve env piiDetector aiPlatforms req st)) = false /\
      result_of (Part001.serve env piiDetector aiPlatforms req st) <> Done tt /\
      stats_of (Part001.serve env piiDetector aiPlatforms req st) = st /\
      Trace.times_forwarded (trace_of (Part001.serve env piiDetector aiPlatforms req st))
      = 1%nat) \/
     (headers_sent env = true /\
      Trace.answered (trace_of (Part001.serve env piiDetector aiPlatforms req st)) = false /\
      result_of (Part001.serve env piiDetector aiPlatforms req st)
      = Thrown (TypeError "ERR_HTTP_HEADERS_SENT") /\
      stats_of (Part001.serve env piiDetector aiPlatforms req st) = after_block st /\
      Trace.times_forwarded (trace_of (Part001.serve env piiDetector aiPlatforms req st))
      = 1%nat)) /\
    ((forall text, Part001.extractPrompt env (body_of req) <> JStr text) ->
     truthy (Part001.extractPrompt env (body_of req)) = true ->
     Part001.serve env piiDetector aiPlatforms req st
     = (Thrown (TypeError "substring is not a function"), st,
        [EvProxy ("https://" ++ Part001.host_text (host req))])).
Proof.
  intros env piiDetector aiPlatforms req st AI Hm Hc.
  rewrite Part001_serve_run, AI, Hm, Hc, String.eqb_refl. cbn [andb].
  cbv iota. split.
  - pose proof (Part001_on_end_cases env piiDetector req (body_of req) st) as C.
    unfold result_of, stats_of, trace_of in *. cbn [fst snd].
    rewrite !answered_resumed_after, !times_forwarded_resumed_after.
    change (Trace.answered [EvProxy ("https://" ++ Part001.host_text (host req))])
      with false.
    change (Trace.times_forwarded [EvProxy ("https://" ++ Part001.host_text (host req))])
      with 1%nat.
    cbn [orb].
    destruct C as [(R & S & A & T)|[(R & S & A & T)|[(R & S & A & T)|(Hs & R & S & A & T)]]];
      rewrite ?S, ?A, ?T.
    + left. rewrite R. repeat split.
    + right; left. rewrite R. repeat split.
    + right; right; left. repeat split. exact R.
    + right; right; right. rewrite R. repeat split. exact Hs.
  - intros N Tr. rewrite (Part001_on_end_other _ _ _ _ _ N), Tr.
    unfold result_of, stats_of, trace_of, Part001.resumed_after. cbn [fst snd].
    rewrite firstn_nil, skipn_nil. reflexivity.
Qed.

(** A harmless prompt goes upstream twice. *)
Lemma Part001_chat_submission_witness :
  Trace.times_forwarded
    (trace_of (Part001.serve (Scenario.env_with (Scenario.replies "NO_PII"))
                 Scenario.detector Part001.default_aiPlatforms
                 (Scenario.chat_post "{'prompt':'hello there, how are you'}")
                 Scenario.stats0)) = 2%nat.
Proof.
  destruct (proj1 (Part001_chat_submission_outcomes
                     (Scenario.env_with (Scenario.replies "NO_PII"))
                     Scenario.detector Part001.default_aiPlatforms
                     (Scenario.chat_post "{'prompt':'hello there, how are you'}")
                     Scenario.stats0 eq_refl eq_refl eq_refl))
    as [(A & _)|[(_ & _ & _ & T)|[(_ & R & _)|(Hs & _)]]].
  - vm_compute in A. discriminate A.
  - exact T.
  - exfalso. apply R. vm_compute. reflexivity.
  - discriminate Hs.
Defined.

End Part001Outcomes.

(** ** The configuration route *)

Section Configuration.
Import JS Admin.

Lemma own_prop_set_prop props k v k' :
  own_prop (Json.set_prop props k v) k' = if k =? k' then Some v else own_prop props k'.
Proof.
  induction props as [|[k0 v0] rest IH]; cbn [Json.set_prop own_prop]; [reflexivity|].
  destruct (k0 =? k) eqn:E0.
  - apply String.eqb_eq in E0. subst k0. cbn [own_prop].
    destruct (k =? k'); reflexivity.
  - cbn [own_prop]. rewrite IH.
    destruct (k0 =? k') eqn:E1; [|reflexivity].
    apply String.eqb_eq in E1. subst k'. now rewrite String.eqb_sym, E0.
Qed.

Lemma own_prop_app (l1 l2 : list (string * JsValue)) k :
  own_prop (l1 ++ l2)%list k
  = match own_prop l1 k with Some v => Some v | None => own_prop l2 k end.
Proof.
  induction l1 as [|[k0 v0] l1 IH]; cbn [own_prop app]; [reflexivity|].
  destruct (k0 =? k); [reflexivity | exact IH].
Qed.

Lemma own_prop_spread source :
  forall target k,
    own_prop (spread source target) k
    = match own_prop (rev source) k with Some v => Some v | None => own_prop target k end.
Proof.
  unfold spread. induction source as [|[k0 v0] rest IH]; intros target k; [reflexivity|].
  cbn [fold_left fst snd rev]. rewrite IH, own_prop_set_prop, own_prop_app.
  destruct (own_prop (rev rest) k); [reflexivity|]. cbn [own_prop].
  destruct (k0 =? k); reflexivity.
Qed.

Lemma own_prop_In (l : list (string * JsValue)) k v : own_prop l k = Some v -> In (k, v) l.
Proof.
  induction l as [|[k0 v0] l IH]; cbn [own_prop]; [discriminate|].
  destruct (k0 =? k) eqn:E.
  - intros H. injection H as ->. apply String.eqb_eq in E. subst. now left.
  - intros H. right. now apply IH.
Qed.

Lemma own_prop_None (l : list (string * JsValue)) k :
  own_prop l k = None <-> ~ In k (map fst l).
Proof.
  induction l as [|[k0 v0] l IH]; cbn [own_prop map fst In]; [tauto|].
  destruct (k0 =? k) eqn:E.
  - apply String.eqb_eq in E. split; [discriminate | intros H; exfalso; apply H; now left].
  - apply String.eqb_neq in E. rewrite IH. tauto.
Qed.

Lemma In_own_prop (l : list (string * JsValue)) k v :
  NoDup (map fst l) -> In (k, v) l -> own_prop l k = Some v.
Proof.
  induction l as [|[k0 v0] l IH]; cbn [own_prop map fst]; [intros _ []|].
  intros ND [H|H].
  - injection H as -> ->. now rewrite String.eqb_refl.
  - inversion ND as [|? ? Hn ND']; subst.
    destruct (k0 =? k) eqn:E; [|now apply IH].
    apply String.eqb_eq in E. subst k0. exfalso. apply Hn.
    change k with (fst (k, v)). now apply in_map.
Qed.

(** On an object (no key twice) the last definition of a key is the only one. *)
Lemma own_prop_rev (l : list (string * JsValue)) k :
  NoDup (map fst l) -> own_prop (rev l) k = own_prop l k.
Proof.
  intros ND. destruct (own_prop l k) as [v|] eqn:E.
  - apply In_own_prop.
    + rewrite map_rev. now apply NoDup_rev.
    + apply in_rev. rewrite rev_involutive. now apply own_prop_In.
  - apply own_prop_None. apply own_prop_None in E. rewrite map_rev. intros H.
    apply E. now apply in_rev.
Qed.

Lemma merged_lookup (a b : list (string * JsValue)) k :
  NoDup (map fst a) -> NoDup (map fst b) ->
  own_or_undefined (merged a b) k
  = match own_prop b k with Some v => v | None => own_or_undefined a k end.
Proof.
  intros Na Nb. unfold own_or_undefined, merged.
  rewrite !own_prop_spread, (own_prop_rev a k Na), (own_prop_rev b k Nb).
  destruct (own_prop b k); [reflexivity|]. destruct (own_prop a k); reflexivity.
Qed.

(** [POST /api/config] replaces each field the body names, as a whole, and
    keeps the others: an [aiPlatforms] object in the body becomes the
    configured map, it is not merged into it. The configuration in memory
    changes before [config.json] is written, so it changes also when the
    write fails and no reply is sent. Both revisions with the route agree
    on this. *)
Theorem config_update_is_shallow :
  forall writable body app,
    NoDup (map fst (config app)) ->
    NoDup (map fst body) ->
    config (fst (fst (Server2Admin.post_config writable body app)))
    = config (fst (fst (Part001Admin.post_config writable body app))) /\
    (forall k,
        own_or_undefined (config (fst (fst (Server2Admin.post_config writable body app)))) k
        = match own_prop body k with
          | Some v => v
          | None => own_or_undefined (config app) k
          end) /\
    (snd (fst (Server2Admin.post_config writable body app))
     = if writable
       then [WriteConfig (config (fst (fst (Server2Admin.post_config writable body app))));
             ReplyJson success]
       else []).
Proof.
  intros writable body app Na Nb.
  unfold Server2Admin.post_config, Part001Admin.post_config.
  destruct writable; cbn [fst snd config]; (split; [reflexivity|]);
    (split; [intros k; now apply merged_lookup | reflexivity]).
Qed.

Lemma config_update_witness :
  own_or_undefined
    (config (fst (fst (Server2Admin.post_config false
                         [("aiPlatforms", JObj [("claude.ai", JBool false)])]
                         (constructed
                            [("geminiApiKey", JStr "k1");
                             ("aiPlatforms", JObj Server2.default_aiPlatforms)])))))
    "aiPlatforms"
  = JObj [("claude.ai", JBool false)].
Proof.
  apply (proj1 (proj2 (config_update_is_shallow false
                         [("aiPlatforms", JObj [("claude.ai", JBool false)])]
                         (constructed
                            [("geminiApiKey", JStr "k1");
                             ("aiPlatforms", JObj Server2.default_aiPlatforms)])
                         ltac:(repeat constructor; simpl; intuition discriminate)
                         ltac:(repeat constructor; simpl; intuition discriminate)))
           "aiPlatforms").
Defined.

(** A key posted to [/api/config] reaches the detector only in
    [server.js], and only when it is truthy: posting an empty key there
    leaves the detector with the key it had while the status says there is
    none. In [part_001] no post ever changes the detector's key, and the
    status hands the configured key back to whoever asks; in [server.js]
    the status shows three fields of the configuration and never the key. *)
Theorem posted_key_and_the_detector :
  forall body app key,
    NoDup (map fst (config app)) ->
    NoDup (map fst body) ->
    own_prop body "geminiApiKey" = Some key ->
    (forall writable,
        detectorKey (fst (fst (Part001Admin.post_config writable body app)))
        = detectorKey app) /\
    (forall writable stats,
        member (Part001Admin.get_status stats
                  (fst (fst (Part001Admin.post_config writable body app)))) "config"
        = Normal (JObj (config (fst (fst (Part001Admin.post_config writable body app))))) /\
        own_or_undefined (config (fst (fst (Part001Admin.post_config writable body app))))
          "geminiApiKey" = key) /\
    detectorKey (fst (fst (Server2Admin.post_config true body app)))
    = (if truthy key then key else detectorKey app) /\
    detectorKey (fst (fst (Server2Admin.post_config false body app))) = detectorKey app /\
    (forall writable stats uptime,
        member (Server2Admin.get_status stats uptime
                  (fst (fst (Server2Admin.post_config writable body app)))) "config"
        = Normal (JObj [ ("hasApiKey", JBool (truthy key));
                         ("proxyPort",
                          match own_prop body "proxyPort" with
                          | Some v => v
                          | None => own_or_undefined (config app) "proxyPort"
                          end);
                         ("webPort",
                          match own_prop body "webPort" with
                          | Some v => v
                          | None => own_or_undefined (config app) "webPort"
                          end) ])).
Proof.
  intros body app key Na Nb Hk.
  assert (K : own_or_undefined (merged (config app) body) "geminiApiKey" = key)
    by (rewrite (merged_lookup _ _ _ Na Nb), Hk; reflexivity).
  split; [intros []; reflexivity|].
  split.
  { intros writable stats. split; [reflexivity|]. destruct writable; exact K. }
  split.
  { unfold Server2Admin.post_config. cbn [fst detectorKey].
    unfold own_or_undefined at 1 2. rewrite Hk. reflexivity. }
  split; [reflexivity|].
  intros writable stats uptime.
  unfold Server2Admin.get_status. cbn [member own_or_undefined own_prop String.eqb Ascii.eqb Bool.eqb].
  assert (C : config (fst (fst (Server2Admin.post_config writable body app)))
              = merged (config app) body) by (destruct writable; reflexivity).
  rewrite C, K, !(merged_lookup _ _ _ Na Nb). reflexivity.
Qed.

Lemma posted_key_witness :
  detectorKey (fst (fst (Server2Admin.post_config true [("geminiApiKey", JStr "")]
                           (constructed [("geminiApiKey", JStr "k1")]))))
  = (if truthy (JStr "") then JStr "" else detectorKey (constructed [("geminiApiKey", JStr "k1")])).
Proof.
  apply (proj1 (proj2 (proj2 (posted_key_and_the_detector
                                [("geminiApiKey", JStr "")]
                                (constructed [("geminiApiKey", JStr "k1")]) (JStr "")
                                ltac:(repeat constructor; simpl; intuition discriminate)
                                ltac:(repeat constructor; simpl; intuition discriminate)
                                eq_refl)))).
Defined.

End Configuration.
(** ** The certificate manager (C9) *)

Section Certificates.
Import JS CertManager.

Lemma append_cancel_l (a x y : string) : a ++ x = a ++ y -> x = y.
Proof. induction a; simpl; intros H; [assumption | injection H; auto]. Qed.

Lemma append_cancel_r (s1 s2 t : string) : s1 ++ t = s2 ++ t -> s1 = s2.
Proof.
  revert s2. induction s1 as [|c s1 IH]; intros [|d s2] H; simpl in H.
  - reflexivity.
  - exfalso. apply (f_equal String.length) in H. simpl in H. rewrite length_app in H. lia.
  - exfalso. apply (f_equal String.length) in H. simpl in H. rewrite length_app in H. lia.
  - injection H as -> H. f_equal. now apply IH.
Qed.

Lemma crt_never_key (h p : string) : h ++ ".crt" <> p ++ ".key".
Proof.
  revert p. induction h as [|c h IH]; intros [|d p] H; simpl in H.
  - discriminate.
  - apply (f_equal String.length) in H. simpl in H. rewrite length_app in H. simpl in H. lia.
  - apply (f_equal String.length) in H. simpl in H. rewrite length_app in H. simpl in H. lia.
  - injection H as _ H. now apply (IH p).
Qed.

Lemma in_dir_inj (certDir a b : string) : in_dir certDir a = in_dir certDir b -> a = b.
Proof.
  unfold in_dir. intros H. apply append_cancel_l in H. now apply (append_cancel_l "/") in H.
Qed.

Lemma path_crt_crt (certDir h p : string) :
  h <> p -> (in_dir certDir (h ++ ".crt") =? in_dir certDir (p ++ ".crt")) = false.
Proof.
  intros N. apply String.eqb_neq. intros H. apply in_dir_inj, append_cancel_r in H. now apply N.
Qed.

Lemma path_key_key (certDir h p : string) :
  h <> p -> (in_dir certDir (h ++ ".key") =? in_dir certDir (p ++ ".key")) = false.
Proof.
  intros N. apply String.eqb_neq. intros H. apply in_dir_inj, append_cancel_r in H. now apply N.
Qed.

Lemma path_crt_key (certDir h p : string) :
  (in_dir certDir (h ++ ".crt") =? in_dir certDir (p ++ ".key")) = false.
Proof.
  apply String.eqb_neq. intros H. apply in_dir_inj in H. now apply crt_never_key in H.
Qed.

Lemma path_key_crt (certDir h p : string) :
  (in_dir certDir (h ++ ".key") =? in_dir certDir (p ++ ".crt")) = false.
Proof.
  apply String.eqb_neq. intros H. apply in_dir_inj in H. symmetry in H.
  now apply crt_never_key in H.
Qed.

Lemma platforms_not_ca (p : string) : In p platforms -> p <> "ca".
Proof. intros [<-|[<-|[<-|[<-|[]]]]]; discriminate. Qed.

Lemma ca_is_no_platform : ~ In "ca" platforms.
Proof. intros H. now apply (platforms_not_ca "ca"). Qed.

Lemma load_certificate_ext (w w' : World) (path : string) :
  fs w' path = fs w path -> load_certificate w' path = load_certificate w path.
Proof. unfold load_certificate. now intros ->. Qed.

Lemma load_privateKey_ext (w w' : World) (path : string) :
  fs w' path = fs w path -> load_privateKey w' path = load_privateKey w path.
Proof. unfold load_privateKey. now intros ->. Qed.

Lemma existsSync_fs (w w' : World) (path : string) :
  fs w' path = fs w path -> existsSync w' path = existsSync w path.
Proof. unfold existsSync. now intros ->. Qed.

Lemma load_certificate_file (w : World) (path : string) (c : Certificate) :
  load_certificate w path = Normal c <-> fs w path = Some (CertificatePem c).
Proof.
  unfold load_certificate. destruct (fs w path) as [[c'|k| ]|]; split; intros H;
    try discriminate H; now injection H as ->.
Qed.

Lemma load_privateKey_file (w : World) (path : string) (k : PrivateKey) :
  load_privateKey w path = Normal k <-> fs w path = Some (PrivateKeyPem k).
Proof.
  unfold load_privateKey. destruct (fs w path) as [[c|k'| ]|]; split; intros H;
    try discriminate H; now injection H as ->.
Qed.

Lemma fullYear_setFullYear (d : Date) (y : Z) : fullYear (setFullYear d y) = y.
Proof. unfold setFullYear. destruct (_ && _)%bool; reflexivity. Qed.


(** *** One call of [generateServerCert] *)

Lemma generateServerCert_spec clock certDir hostname w :
  match generateServerCert clock certDir hostname w with
  | (Normal paths, w') =>
      exists caCert caKey,
        load_certificate w (in_dir certDir "ca.crt") = Normal caCert /\
        load_privateKey w (in_dir certDir "ca.key") = Normal caKey /\
        paths = (in_dir certDir (hostname ++ ".crt"), in_dir certDir (hostname ++ ".key")) /\
        w' = with_file (in_dir certDir (hostname ++ ".key"))
               (PrivateKeyPem (Priv (keysDrawn w)))
               (with_file (in_dir certDir (hostname ++ ".crt"))
                  (CertificatePem
                     (serverCert_for hostname caCert caKey (generateKeyPair (keysDrawn w))
                        (clock (clockReads w)) (clock (S (clockReads w)))
                        (clock (S (S (clockReads w))))))
                  {| fs := fs w; keysDrawn := S (keysDrawn w);
                     clockReads := S (S (S (clockReads w)));
                     writes := writes w; disk := disk w |})
  | (Throw e, w') =>
      (w' = w /\
       (load_certificate w (in_dir certDir "ca.crt") = Throw e \/
        load_privateKey w (in_dir certDir "ca.key") = Throw e)) \/
      (CertDisk.write_failed w w' /\ disk w' = disk w)
  end.
Proof.
  unfold generateServerCert.
  destruct (load_certificate w (in_dir certDir "ca.crt")) as [caCert|e] eqn:Lc;
    [|left; split; [reflexivity | now left]].
  destruct (load_privateKey w (in_dir certDir "ca.key")) as [caKey|e] eqn:Lk;
    [|left; split; [reflexivity | now right]].
  unfold draw_key, new_Date, writeFileSync, with_file.
  cbn [fs keysDrawn clockReads writes disk].
  destruct (disk w (writes w)) eqn:D1; cbv beta iota zeta;
    cbn [fs keysDrawn clockReads writes disk].
  - destruct (disk w (S (writes w))) eqn:D2; cbv beta iota zeta.
    + exists caCert, caKey. repeat split.
    + right. split; [|reflexivity]. exists (S (writes w)). cbn [writes].
      split; [lia|]. split; [lia|]. congruence.
    + right. split; [|reflexivity]. exists (S (writes w)). cbn [writes].
      split; [lia|]. split; [lia|]. congruence.
  - right. split; [|reflexivity]. exists (writes w). cbn [writes].
    split; [lia|]. split; [lia|]. congruence.
  - right. split; [|reflexivity]. exists (writes w). cbn [writes].
    split; [lia|]. split; [lia|]. congruence.
Qed.

(** *** One round of the loop of [setup] *)

Lemma setup_platform_spec clock certDir p w :
  match setup_platform clock certDir p w with
  | (Normal _, w') =>
      (existsSync w (in_dir certDir (p ++ ".crt")) = true /\ w' = w) \/
      (existsSync w (in_dir certDir (p ++ ".crt")) = false /\
       exists caCert caKey,
         load_certificate w (in_dir certDir "ca.crt") = Normal caCert /\
         load_privateKey w (in_dir certDir "ca.key") = Normal caKey /\
         (forall path,
             fs w' path
             = if path =? in_dir certDir (p ++ ".key")
               then Some (PrivateKeyPem (Priv (keysDrawn w)))
               else if path =? in_dir certDir (p ++ ".crt")
                    then Some (CertificatePem
                                 (serverCert_for p caCert caKey (generateKeyPair (keysDrawn w))
                                    (clock (clockReads w)) (clock (S (clockReads w)))
                                    (clock (S (S (clockReads w))))))
                    else fs w path) /\
         keysDrawn w' = S (keysDrawn w) /\
         disk w' = disk w /\
         writes w' = S (S (writes w)))
  | (Throw e, w') =>
      existsSync w (in_dir certDir (p ++ ".crt")) = false /\
      ((w' = w /\
        (load_certificate w (in_dir certDir "ca.crt") = Throw e \/
         load_privateKey w (in_dir certDir "ca.key") = Throw e)) \/
       (CertDisk.write_failed w w' /\ disk w' = disk w))
  end.
Proof.
  unfold setup_platform.
  destruct (existsSync w (in_dir certDir (p ++ ".crt"))) eqn:E; simpl negb; cbv iota.
  - left. now split.
  - pose proof (generateServerCert_spec clock certDir p w) as G.
    destruct (generateServerCert clock certDir p w) as [[paths|e] w'].
    + destruct G as (caCert & caKey & Lc & Lk & _ & ->).
      right. split; [reflexivity|]. exists caCert, caKey.
      split; [exact Lc|]. split; [exact Lk|]. repeat split.
    + split; [reflexivity | exact G].
Qed.

(** *** The loop of [setup], over any list of names other than [ca] *)

Lemma forEach_setup_spec clock certDir :
  forall l, (forall p, In p l -> p <> "ca") ->
  forall w,
  match forEach (setup_platform clock certDir) l w with
  | (Normal _, w') =>
      (forall path,
          fs w' path = fs w path \/
          exists p, In p l /\ existsSync w (in_dir certDir (p ++ ".crt")) = false /\
                    (path = in_dir certDir (p ++ ".crt") \/
                     path = in_dir certDir (p ++ ".key"))) /\
      (forall path, existsSync w path = true -> existsSync w' path = true) /\
      (forall p, In p l -> existsSync w' (in_dir certDir (p ++ ".crt")) = true) /\
      (forall p, In p l -> existsSync w (in_dir certDir (p ++ ".crt")) = false ->
                 exists caCert caKey c k n,
                   load_certificate w (in_dir certDir "ca.crt") = Normal caCert /\
                   load_privateKey w (in_dir certDir "ca.key") = Normal caKey /\
                   certificate_of certDir p w' = Some c /\
                   fs w' (in_dir certDir (p ++ ".key")) = Some (PrivateKeyPem k) /\
                   public_of k = certPublicKey c /\
                   certPublicKey c = Pub n /\
                   (keysDrawn w <= n)%nat /\ (n < keysDrawn w')%nat /\
                   signedWith c = caKey /\
                   issuer c = subject caCert /\
                   subject c = [ {| name := "commonName"; value := p |} ] /\
                   extensions c
                   = [ SubjectAltName [ {| type := 2; altValue := p |};
                                        {| type := 2; altValue := "*." ++ p |} ] ]) /\
      disk w' = disk w /\
      (writes w <= writes w')%nat /\
      (keysDrawn w <= keysDrawn w')%nat
  | (Throw e, w') =>
      (exists p, In p l /\ existsSync w (in_dir certDir (p ++ ".crt")) = false) /\
      ((w' = w /\
        (load_certificate w (in_dir certDir "ca.crt") = Throw e \/
         load_privateKey w (in_dir certDir "ca.key") = Throw e)) \/
       (CertDisk.write_failed w w' /\ disk w' = disk w))
  end.
Proof.
  induction l as [|x rest IH]; intros Hca w.
  - cbn [forEach]. split; [now left|]. split; [auto|].
    split; [intros p []|]. split; [intros p []|]. repeat split; lia.
  - cbn [forEach].
    assert (Hx : x <> "ca") by (apply Hca; now left).
    assert (Hrest : forall p, In p rest -> p <> "ca") by (intros p Hp; apply Hca; now right).
    pose proof (setup_platform_spec clock certDir x w) as Sx.
    destruct (setup_platform clock certDir x w) as [[u|e] w1].
    + specialize (IH Hrest w1).
      destruct Sx as [(Ex & ->)|(Ex & caCert & caKey & Lc & Lk & Fs & Kd & Dk & Wr)].
      * (* the certificate of [x] was there *)
        destruct (forEach (setup_platform clock certDir) rest w) as [[u'|e'] w'].
        -- destruct IH as (Fr & Mono & Ex' & Iss & Inv). split; [|split; [|split; [|split]]].
           ++ intros path. destruct (Fr path) as [H|(p & Hp & Hm & Hw)]; [now left|].
              right. exists p. split; [now right|]. now split.
           ++ exact Mono.
           ++ intros p [<-|Hp]; [now apply Mono | now apply Ex'].
           ++ intros p [<-|Hp] Hm; [congruence | now apply Iss].
           ++ exact Inv.
        -- destruct IH as ((p & Hp & Hm) & L). split; [|exact L].
           exists p. split; [now right | exact Hm].
      * (* a certificate was issued for [x] *)
        assert (Cc : fs w1 (in_dir certDir "ca.crt") = fs w (in_dir certDir "ca.crt")).
        { rewrite Fs. change "ca.crt" with ("ca" ++ ".crt").
          rewrite path_crt_key, path_crt_crt by (intros H; now apply Hx). reflexivity. }
        assert (Ck : fs w1 (in_dir certDir "ca.key") = fs w (in_dir certDir "ca.key")).
        { rewrite Fs. change "ca.key" with ("ca" ++ ".key").
          rewrite path_key_key, path_key_crt by (intros H; now apply Hx). reflexivity. }
        assert (Mono1 : forall path, existsSync w path = true -> existsSync w1 path = true).
        { intros path H. unfold existsSync. rewrite Fs.
          destruct (path =? in_dir certDir (x ++ ".key")); [reflexivity|].
          destruct (path =? in_dir certDir (x ++ ".crt")); [reflexivity|]. exact H. }
        assert (Cx : fs w1 (in_dir certDir (x ++ ".crt"))
                     = Some (CertificatePem
                               (serverCert_for x caCert caKey (generateKeyPair (keysDrawn w))
                                  (clock (clockReads w)) (clock (S (clockReads w)))
                                  (clock (S (S (clockReads w))))))).
        { rewrite Fs, path_crt_key, String.eqb_refl. reflexivity. }
        rewrite (load_certificate_ext _ _ _ Cc), (load_privateKey_ext _ _ _ Ck) in IH.
        destruct (forEach (setup_platform clock certDir) rest w1) as [[u'|e'] w'].
        -- destruct IH as (Fr & Mono & Ex' & Iss & Dk' & Wr' & Kd').
           split; [|split; [|split; [|split]]].
           ++ intros path. destruct (Fr path) as [H|(p & Hp & Hm & Hw)].
              ** rewrite H, Fs.
                 destruct (path =? in_dir certDir (x ++ ".key")) eqn:E1.
                 { right. exists x. split; [now left|]. split; [exact Ex|].
                   right. now apply String.eqb_eq. }
                 destruct (path =? in_dir certDir (x ++ ".crt")) eqn:E2.
                 { right. exists x. split; [now left|]. split; [exact Ex|].
                   left. now apply String.eqb_eq. }
                 now left.
              ** right. exists p. split; [now right|]. split; [|exact Hw].
                 destruct (existsSync w (in_dir certDir (p ++ ".crt"))) eqn:E; [|reflexivity].
                 apply Mono1 in E. congruence.
           ++ intros path H. now apply Mono, Mono1.
           ++ intros p [<-|Hp]; [|now apply Ex'].
              apply Mono. unfold existsSync. now rewrite Cx.
           ++ intros p Hp Hm. destruct (string_dec p x) as [->|Npx].
              ** exists caCert, caKey. eexists. exists (Priv (keysDrawn w)), (keysDrawn w).
                 split; [exact Lc|]. split; [exact Lk|]. split.
                 { unfold certificate_of.
                   destruct (Fr (in_dir certDir (x ++ ".crt"))) as [H|(q & Hq & Hqm & Hw)].
                   - rewrite H, Cx. reflexivity.
                   - exfalso. destruct Hw as [Hw|Hw].
                     + apply in_dir_inj, append_cancel_r in Hw. subst q.
                       unfold existsSync in Hqm. rewrite Cx in Hqm. discriminate.
                     + apply in_dir_inj in Hw. now apply crt_never_key in Hw. }
                 split.
                 { destruct (Fr (in_dir certDir (x ++ ".key"))) as [H|(q & Hq & Hqm & Hw)].
                   - rewrite H, Fs, String.eqb_refl. reflexivity.
                   - exfalso. destruct Hw as [Hw|Hw].
                     + apply in_dir_inj in Hw. symmetry in Hw. now apply crt_never_key in Hw.
                     + apply in_dir_inj, append_cancel_r in Hw. subst q.
                       unfold existsSync in Hqm. rewrite Cx in Hqm. discriminate. }
                 split; [reflexivity|]. split; [reflexivity|].
                 split; [lia|]. split; [lia|]. repeat split.
              ** destruct Hp as [Hp|Hp]; [now subst|].
                 destruct (Iss p Hp)
                   as (caCert' & caKey' & c & k & n & H1 & H2 & H3 & H4 & H5 & H6 & H7 & H8 & H9).
                 { rewrite (existsSync_fs w w1); [exact Hm|]. rewrite Fs.
                   now rewrite path_crt_key, path_crt_crt. }
                 exists caCert', caKey', c, k, n.
                 split; [exact H1|]. split; [exact H2|]. split; [exact H3|].
                 split; [exact H4|]. split; [exact H5|]. split; [exact H6|].
                 split; [lia|]. split; [exact H8 | exact H9].
           ++ split; [congruence|]. split; lia.
        -- destruct IH as ((p & Hp & Hm) & [(_ & [L|L])|((n & N1 & N2 & N3) & Dk')]);
             [congruence | congruence |].
           split.
           ++ exists p. split; [now right|].
              destruct (existsSync w (in_dir certDir (p ++ ".crt"))) eqn:E; [|reflexivity].
              apply Mono1 in E. congruence.
           ++ right. split; [|congruence]. exists n.
              split; [lia|]. split; [exact N2|]. now rewrite <- Dk.
    + destruct Sx as (Ex & L). split; [|exact L].
      exists x. split; [now left | exact Ex].
Qed.

Lemma frame_keeps_crt certDir l (w w' : World) :
  (forall path,
      fs w' path = fs w path \/
      exists p, In p l /\ existsSync w (in_dir certDir (p ++ ".crt")) = false /\
                (path = in_dir certDir (p ++ ".crt") \/ path = in_dir certDir (p ++ ".key"))) ->
  forall h, existsSync w (in_dir certDir (h ++ ".crt")) = true ->
            fs w' (in_dir certDir (h ++ ".crt")) = fs w (in_dir certDir (h ++ ".crt")).
Proof.
  intros Fr h E. destruct (Fr (in_dir certDir (h ++ ".crt"))) as [H|(q & Hq & Hqm & Hw)];
    [exact H|]. exfalso. destruct Hw as [Hw|Hw].
  - apply in_dir_inj, append_cancel_r in Hw. subst q. congruence.
  - apply in_dir_inj in Hw. now apply crt_never_key in Hw.
Qed.

Lemma frame_keeps_others certDir l (w w' : World) :
  (forall path,
      fs w' path = fs w path \/
      exists p, In p l /\ existsSync w (in_dir certDir (p ++ ".crt")) = false /\
                (path = in_dir certDir (p ++ ".crt") \/ path = in_dir certDir (p ++ ".key"))) ->
  forall h, ~ In h l ->
            fs w' (in_dir certDir (h ++ ".crt")) = fs w (in_dir certDir (h ++ ".crt")) /\
            fs w' (in_dir certDir (h ++ ".key")) = fs w (in_dir certDir (h ++ ".key")).
Proof.
  intros Fr h N. split.
  - destruct (Fr (in_dir certDir (h ++ ".crt"))) as [H|(q & Hq & Hqm & Hw)]; [exact H|].
    exfalso. destruct Hw as [Hw|Hw].
    + apply in_dir_inj, append_cancel_r in Hw. subst q. now apply N.
    + apply in_dir_inj in Hw. now apply crt_never_key in Hw.
  - destruct (Fr (in_dir certDir (h ++ ".key"))) as [H|(q & Hq & Hqm & Hw)]; [exact H|].
    exfalso. destruct Hw as [Hw|Hw].
    + apply in_dir_inj in Hw. symmetry in Hw. now apply crt_never_key in Hw.
    + apply in_dir_inj, append_cancel_r in Hw. subst q. now apply N.
Qed.

(** *** [generateCA] *)

Lemma generateCA_spec clock certDir w :
  match generateCA clock certDir w with
  | (Normal (ca, key), w1) =>
      ca = {| certPublicKey := Pub (keysDrawn w);
              serialNumber := "01";
              notBefore := calendar (clock (clockReads w));
              notAfter := setFullYear (calendar (clock (S (clockReads w))))
                            (fullYear (calendar (clock (clockReads w))) + 10);
              subject := caAttrs;
              issuer := caAttrs;
              extensions := [BasicConstraints true; KeyUsage true true true];
              signedWith := Priv (keysDrawn w) |} /\
      key = Priv (keysDrawn w) /\
      (forall path,
          fs w1 path
          = if path =? in_dir certDir "ca.key" then Some (PrivateKeyPem key)
            else if path =? in_dir certDir "ca.crt" then Some (CertificatePem ca)
                 else fs w path) /\
      keysDrawn w1 = S (keysDrawn w) /\
      disk w1 = disk w /\
      writes w1 = S (S (writes w))
  | (Throw e, w1) =>
      CertDisk.write_failed w w1 /\ disk w1 = disk w /\
      (forall path, path <> in_dir certDir "ca.crt" -> path <> in_dir certDir "ca.key" ->
                    fs w1 path = fs w path)
  end.
Proof.
  unfold generateCA, draw_key, new_Date, writeFileSync, with_file.
  cbn [fs keysDrawn clockReads writes disk].
  destruct (disk w (writes w)) eqn:D1; cbv beta iota zeta;
    cbn [fs keysDrawn clockReads writes disk].
  - destruct (disk w (S (writes w))) eqn:D2; cbv beta iota zeta;
      cbn [fs keysDrawn clockReads writes disk].
    + repeat split.
    + split; [|split; [reflexivity|]].
      * exists (S (writes w)). cbn [writes]. split; [lia|]. split; [lia|]. congruence.
      * intros path N1 N2. apply String.eqb_neq in N1. now rewrite N1.
    + split; [|split; [reflexivity|]].
      * exists (S (writes w)). cbn [writes]. split; [lia|]. split; [lia|]. congruence.
      * intros path N1 N2. apply String.eqb_neq in N1, N2. now rewrite N2, N1.
  - split; [|split; [reflexivity|]].
    + exists (writes w). cbn [writes]. split; [lia|]. split; [lia|]. congruence.
    + reflexivity.
  - split; [|split; [reflexivity|]].
    + exists (writes w). cbn [writes]. split; [lia|]. split; [lia|]. congruence.
    + intros path N1 N2. apply String.eqb_neq in N1. now rewrite N1.
Qed.

(** *** [setup] *)

Lemma setup_spec clock certDir w :
  match setup clock certDir w with
  | (Normal _, w') =>
      (forall h, existsSync w (in_dir certDir (h ++ ".crt")) = true ->
                 fs w' (in_dir certDir (h ++ ".crt")) = fs w (in_dir certDir (h ++ ".crt"))) /\
      (forall h, h <> "ca" -> ~ In h platforms ->
                 fs w' (in_dir certDir (h ++ ".crt")) = fs w (in_dir certDir (h ++ ".crt")) /\
                 fs w' (in_dir certDir (h ++ ".key")) = fs w (in_dir certDir (h ++ ".key"))) /\
      (forall path, existsSync w path = true -> existsSync w' path = true) /\
      existsSync w' (in_dir certDir "ca.crt") = true /\
      (forall p, In p platforms -> existsSync w' (in_dir certDir (p ++ ".crt")) = true) /\
      (forall p, In p platforms -> existsSync w (in_dir certDir (p ++ ".crt")) = false ->
                 exists caCert caKey c k n,
                   load_certificate w' (in_dir certDir "ca.crt") = Normal caCert /\
                   load_privateKey w' (in_dir certDir "ca.key") = Normal caKey /\
                   certificate_of certDir p w' = Some c /\
                   fs w' (in_dir certDir (p ++ ".key")) = Some (PrivateKeyPem k) /\
                   public_of k = certPublicKey c /\
                   certPublicKey c = Pub n /\
                   (keysDrawn w <= n)%nat /\ (n < keysDrawn w')%nat /\
                   signedWith c = caKey /\
                   issuer c = subject caCert /\
                   subject c = [ {| name := "commonName"; value := p |} ] /\
                   extensions c
                   = [ SubjectAltName [ {| type := 2; altValue := p |};
                                        {| type := 2; altValue := "*." ++ p |} ] ]) /\
      (existsSync w (in_dir certDir "ca.crt") = false ->
       fs w' (in_dir certDir "ca.crt")
       = Some (CertificatePem
                 {| certPublicKey := Pub (keysDrawn w);
                    serialNumber := "01";
                    notBefore := calendar (clock (clockReads w));
                    notAfter := setFullYear (calendar (clock (S (clockReads w))))
                                  (fullYear (calendar (clock (clockReads w))) + 10);
                    subject := caAttrs;
                    issuer := caAttrs;
                    extensions := [BasicConstraints true; KeyUsage true true true];
                    signedWith := Priv (keysDrawn w) |}) /\
       fs w' (in_dir certDir "ca.key") = Some (PrivateKeyPem (Priv (keysDrawn w))))
  | (Throw e, w') =>
      CertDisk.write_failed w w' \/
      (w' = w /\
       existsSync w (in_dir certDir "ca.crt") = true /\
       (exists p, In p platforms /\ existsSync w (in_dir certDir (p ++ ".crt")) = false) /\
       (load_certificate w (in_dir certDir "ca.crt") = Throw e \/
        load_privateKey w (in_dir certDir "ca.key") = Throw e))
  end.
Proof.
  unfold setup.
  destruct (existsSync w (in_dir certDir "ca.crt")) eqn:E; simpl negb; cbv iota.
  - pose proof (forEach_setup_spec clock certDir platforms platforms_not_ca w) as S.
    destruct (forEach (setup_platform clock certDir) platforms w) as [[u|e0] w'].
    + destruct S as (Fr & Mono & Ex & Iss & _).
      destruct (frame_keeps_others certDir platforms _ _ Fr "ca" ca_is_no_platform)
        as (Fc & Fk).
      change ("ca" ++ ".crt") with "ca.crt" in Fc. change ("ca" ++ ".key") with "ca.key" in Fk.
      split; [now apply (frame_keeps_crt certDir platforms)|].
      split; [intros h _; now apply (frame_keeps_others certDir platforms)|].
      split; [exact Mono|]. split; [now apply Mono|]. split; [exact Ex|].
      split; [|intros H; discriminate H].
      intros p Hp Hm. destruct (Iss p Hp Hm) as (caCert & caKey & c & k & n & Lc & Lk & R).
      exists caCert, caKey, c, k, n.
      rewrite (load_certificate_ext _ _ _ Fc), (load_privateKey_ext _ _ _ Fk).
      split; [exact Lc|]. split; [exact Lk | exact R].
    + destruct S as (P & [(-> & L)|(F & _)]); [right | now left].
      split; [reflexivity|]. split; [reflexivity|]. split; assumption.
  - pose proof (generateCA_spec clock certDir w) as G.
    destruct (generateCA clock certDir w) as [[[ca key]|e] w1]; [|left; exact (proj1 G)].
    destruct G as (Eca & Ekey & Fs0 & Kd0 & Dk0 & Wr0).
    assert (Lc1 : load_certificate w1 (in_dir certDir "ca.crt") = Normal ca).
    { apply load_certificate_file. rewrite Fs0. change "ca.crt" with ("ca" ++ ".crt").
      change "ca.key" with ("ca" ++ ".key"). now rewrite path_crt_key, String.eqb_refl. }
    assert (Lk1 : load_privateKey w1 (in_dir certDir "ca.key") = Normal key).
    { apply load_privateKey_file. rewrite Fs0. now rewrite String.eqb_refl. }
    assert (K0 : forall h, h <> "ca" ->
                 fs w1 (in_dir certDir (h ++ ".crt")) = fs w (in_dir certDir (h ++ ".crt")) /\
                 fs w1 (in_dir certDir (h ++ ".key")) = fs w (in_dir certDir (h ++ ".key"))).
    { intros h N. rewrite !Fs0. change "ca.crt" with ("ca" ++ ".crt").
      change "ca.key" with ("ca" ++ ".key").
      rewrite path_crt_key, path_key_crt, path_crt_crt, path_key_key by exact N.
      split; reflexivity. }
    assert (Mono0 : forall path, existsSync w path = true -> existsSync w1 path = true).
    { intros path H. unfold existsSync. rewrite Fs0.
      destruct (path =? in_dir certDir "ca.key"); [reflexivity|].
      destruct (path =? in_dir certDir "ca.crt"); [reflexivity|]. exact H. }
    pose proof (forEach_setup_spec clock certDir platforms platforms_not_ca w1) as S.
    destruct (forEach (setup_platform clock certDir) platforms w1) as [[u|e0] w'].
    + destruct S as (Fr & Mono & Ex & Iss & Dk & Wr & Kd).
      destruct (frame_keeps_others certDir platforms _ _ Fr "ca" ca_is_no_platform)
        as (Fc & Fk).
      change ("ca" ++ ".crt") with "ca.crt" in Fc. change ("ca" ++ ".key") with "ca.key" in Fk.
      split.
      { intros h Eh.
        assert (N : h <> "ca") by (intros ->; cbn in Eh; congruence).
        destruct (K0 h N) as (Kc & _). rewrite <- Kc.
        apply (frame_keeps_crt certDir platforms); [exact Fr|].
        rewrite (existsSync_fs w w1 _ Kc). exact Eh. }
      split.
      { intros h N NP. destruct (K0 h N) as (Kc & Kk).
        destruct (frame_keeps_others certDir platforms _ _ Fr h NP) as (Hc & Hk).
        split; congruence. }
      split; [intros path H; now apply Mono, Mono0|].
      split.
      { apply Mono. unfold existsSync. apply load_certificate_file in Lc1. now rewrite Lc1. }
      split; [exact Ex|]. split.
      { intros p Hp Hm.
        assert (N : p <> "ca") by now apply platforms_not_ca.
        destruct (K0 p N) as (Kc & _).
        destruct (Iss p Hp) as (caCert & caKey & c & k & n & Lc & Lk & H3 & H4 & H5 & H6 & H7 & R).
        { rewrite (existsSync_fs w w1 _ Kc). exact Hm. }
        exists caCert, caKey, c, k, n.
        rewrite (load_certificate_ext _ _ _ Fc), (load_privateKey_ext _ _ _ Fk).
        split; [exact Lc|]. split; [exact Lk|]. split; [exact H3|]. split; [exact H4|].
        split; [exact H5|]. split; [exact H6|]. split; [lia | exact R]. }
      intros _. rewrite Fc, Fk. apply load_certificate_file in Lc1.
      apply load_privateKey_file in Lk1. rewrite Lc1, Lk1, Eca, Ekey. split; reflexivity.
    + left. destruct S as (_ & [(_ & [L|L])|((n & N1 & N2 & N3) & _)]);
        [congruence | congruence |].
      exists n. split; [lia|]. split; [exact N2|]. now rewrite <- Dk0.
Qed.

Lemma setup_frame clock certDir w w' :
  setup clock certDir w = (Normal tt, w') ->
  (forall h, existsSync w (in_dir certDir (h ++ ".crt")) = true ->
             fs w' (in_dir certDir (h ++ ".crt")) = fs w (in_dir certDir (h ++ ".crt"))) /\
  (forall h, h <> "ca" -> ~ In h platforms ->
             fs w' (in_dir certDir (h ++ ".crt")) = fs w (in_dir certDir (h ++ ".crt")) /\
             fs w' (in_dir certDir (h ++ ".key")) = fs w (in_dir certDir (h ++ ".key"))).
Proof.
  intros H. pose proof (setup_spec clock certDir w) as S. rewrite H in S.
  destruct S as (K & O & _). now split.
Qed.

Lemma setup_issues clock certDir w w' :
  setup clock certDir w = (Normal tt, w') ->
  forall p, In p platforms ->
    existsSync w (in_dir certDir (p ++ ".crt")) = false ->
    exists c k,
      certificate_of certDir p w' = Some c /\
      fs w' (in_dir certDir (p ++ ".key")) = Some (PrivateKeyPem k) /\
      public_of k = certPublicKey c /\
      subject c = [ {| name := "commonName"; value := p |} ] /\
      extensions c
      = [ SubjectAltName [ {| type := 2; altValue := p |};
                           {| type := 2; altValue := "*." ++ p |} ] ].
Proof.
  intros H p Hp Hm. pose proof (setup_spec clock certDir w) as S. rewrite H in S.
  destruct S as (_ & _ & _ & _ & _ & Iss & _).
  destruct (Iss p Hp Hm)
    as (caCert & caKey & c & k & n & _ & _ & Hc & Hk & Hpub & _ & _ & _ & _ & _ & Hsub & Hext).
  now exists c, k.
Qed.

(** The first run of [setup] over an empty directory completes. *)
Lemma setup_from_nothing :
  setup Scenario.clock2026 Scenario.certDir Scenario.empty_world
  = (Normal tt, Scenario.world_setup).
Proof.
  assert (F : fst (setup Scenario.clock2026 Scenario.certDir Scenario.empty_world) = Normal tt)
    by (vm_compute; reflexivity).
  unfold Scenario.world_setup.
  destruct (setup Scenario.clock2026 Scenario.certDir Scenario.empty_world) as [r w'].
  cbn [fst snd] in *. now subst r.
Qed.





(** Running [setup] again changes nothing on disk: every platform's
    certificate is kept, expired or not. *)
Theorem setup_keeps_existing_certificates :
  forall clock certDir w,
    existsSync w (in_dir certDir "ca.crt") = true ->
    (forall platform, In platform platforms ->
                      existsSync w (in_dir certDir (platform ++ ".crt")) = true) ->
    setup clock certDir w = (Normal tt, w).
Proof.
  intros clock certDir w Hca Hall. unfold setup. rewrite Hca. simpl negb. cbv iota.
  induction platforms as [|p rest IH]; [reflexivity|].
  cbn [forEach]. unfold setup_platform at 1.
  rewrite (Hall p) by now left. simpl negb. cbv iota.
  apply IH. intros q Hq. apply Hall. now right.
Qed.

(** A second run of [setup] over the directory the first one left. *)
Lemma setup_twice_witness :
  setup Scenario.clock2026 Scenario.certDir Scenario.world_setup
  = (Normal tt, Scenario.world_setup).
Proof.
  apply (setup_keeps_existing_certificates
           Scenario.clock2026 Scenario.certDir Scenario.world_setup).
  - vm_compute. reflexivity.
  - intros platform [<-|[<-|[<-|[<-|[]]]]]; vm_compute; reflexivity.
Defined.

(** How [setup] ends. It throws for two reasons only: a write did not
    succeed; or [ca.crt] is there, the certificate of a platform is
    missing and the certificate or the key of the CA cannot be loaded, and
    then it throws that loading error and leaves everything as it was.
    On a disk where every write succeeds it completes whenever [ca.crt]
    is missing. When it completes, [ca.crt] and the certificate of each
    of the four platforms exist, and no file has gone. *)
Theorem setup_throws_for_two_reasons :
  forall clock certDir w,
    (forall e w', setup clock certDir w = (Throw e, w') ->
        CertDisk.write_failed w w' \/
        (w' = w /\
         existsSync w (in_dir certDir "ca.crt") = true /\
         (exists p, In p platforms /\ existsSync w (in_dir certDir (p ++ ".crt")) = false) /\
         (load_certificate w (in_dir certDir "ca.crt") = Throw e \/
          load_privateKey w (in_dir certDir "ca.key") = Throw e))) /\
    (CertDisk.healthy w ->
     existsSync w (in_dir certDir "ca.crt") = false ->
     exists w', setup clock certDir w = (Normal tt, w')) /\
    (forall w', setup clock certDir w = (Normal tt, w') ->
        existsSync w' (in_dir certDir "ca.crt") = true /\
        (forall p, In p platforms -> existsSync w' (in_dir certDir (p ++ ".crt")) = true) /\
        (forall path, existsSync w path = true -> existsSync w' path = true)).
Proof.
  intros clock certDir w. pose proof (setup_spec clock certDir w) as S.
  destruct (setup clock certDir w) as [[u|e0] w0].
  - split; [intros e w' H; discriminate H|]. split.
    + intros _ _. exists w0. now destruct u.
    + intros w' H. destruct u. injection H as <-.
      destruct S as (_ & _ & Mono & Ca & Ex & _). now split.
  - split; [intros e w' H; injection H as <- <-; exact S|]. split.
    + intros Hd E. exfalso. destruct S as [(n & _ & _ & N)|(_ & E' & _)].
      * apply N, Hd.
      * congruence.
    + intros w' H. discriminate H.
Qed.

(** On a disk that refuses the second write, [setup] over an empty
    directory throws after [ca.crt] has been written. *)
Lemma setup_throws_witness :
  CertDisk.write_failed Scenario.second_write_refused
    (snd (setup Scenario.clock2026 Scenario.certDir Scenario.second_write_refused)) /\
  existsSync (snd (setup Scenario.clock2026 Scenario.certDir Scenario.second_write_refused))
    (in_dir Scenario.certDir "ca.crt") = true /\
  existsSync (snd (setup Scenario.clock2026 Scenario.certDir Scenario.second_write_refused))
    (in_dir Scenario.certDir "ca.key") = false.
Proof.
  assert (F : fst (setup Scenario.clock2026 Scenario.certDir Scenario.second_write_refused)
              = Throw (TypeError "EACCES")) by (vm_compute; reflexivity).
  split; [|split; vm_compute; reflexivity].
  destruct (proj1 (setup_throws_for_two_reasons
                     Scenario.clock2026 Scenario.certDir Scenario.second_write_refused)
              (TypeError "EACCES")
              (snd (setup Scenario.clock2026 Scenario.certDir Scenario.second_write_refused)))
    as [W|(_ & E & _)].
  - destruct (setup Scenario.clock2026 Scenario.certDir Scenario.second_write_refused)
      as [r w']. cbn [fst snd] in *. now subst r.
  - exact W.
  - discriminate E.
Defined.

(** [setup] never overwrites a certificate it finds, expired or not and
    whoever signed it, and it touches the files of no host but the four
    platforms and the CA ([h] a file name, with no path separator). *)
Theorem setup_overwrites_no_certificate :
  forall clock certDir w w',
    setup clock certDir w = (Normal tt, w') ->
    (forall h, Text.no_separator h = true ->
               existsSync w (in_dir certDir (h ++ ".crt")) = true ->
               fs w' (in_dir certDir (h ++ ".crt")) = fs w (in_dir certDir (h ++ ".crt"))) /\
    (forall h, Text.no_separator h = true -> h <> "ca" -> ~ In h platforms ->
               fs w' (in_dir certDir (h ++ ".crt")) = fs w (in_dir certDir (h ++ ".crt")) /\
               fs w' (in_dir certDir (h ++ ".key")) = fs w (in_dir certDir (h ++ ".key"))).
Proof.
  intros clock certDir w w' H. destruct (setup_frame clock certDir w w' H) as (K & O).
  split.
  - intros h _. apply K.
  - intros h _. apply O.
Qed.

Lemma setup_overwrites_no_certificate_witness :
  fs Scenario.world_setup (in_dir Scenario.certDir ("gemini.google.com" ++ ".crt"))
  = fs Scenario.empty_world (in_dir Scenario.certDir ("gemini.google.com" ++ ".crt")) /\
  fs Scenario.world_setup (in_dir Scenario.certDir ("gemini.google.com" ++ ".key"))
  = fs Scenario.empty_world (in_dir Scenario.certDir ("gemini.google.com" ++ ".key")).
Proof.
  apply (proj2 (setup_overwrites_no_certificate
                  Scenario.clock2026 Scenario.certDir Scenario.empty_world
                  Scenario.world_setup setup_from_nothing) "gemini.google.com").
  - reflexivity.
  - discriminate.
  - intros [H|[H|[H|[H|[]]]]]; discriminate H.
Defined.

(** A [setup] that completes over a directory without [ca.crt] has left
    a CA certificate that is self-signed with the key pair drawn for it
    and marked as a CA, whose [notBefore] is the first reading of the
    clock and whose [notAfter] is the second reading with the year set to
    that of [notBefore] plus ten, together with the matching [ca.key].
    Every platform certificate it issued is signed with that key and
    names the CA as issuer; a platform certificate that was already there
    is kept as it is, whatever key signed it. *)
Theorem setup_without_ca_issues_under_a_new_ca :
  forall clock certDir w w',
    existsSync w (in_dir certDir "ca.crt") = false ->
    setup clock certDir w = (Normal tt, w') ->
    exists ca,
      certificate_of certDir "ca" w' = Some ca /\
      certPublicKey ca = Pub (keysDrawn w) /\
      signedWith ca = Priv (keysDrawn w) /\
      issuer ca = subject ca /\
      extensions ca = [BasicConstraints true; KeyUsage true true true] /\
      notBefore ca = calendar (clock (clockReads w)) /\
      notAfter ca
      = setFullYear (calendar (clock (S (clockReads w)))) (fullYear (notBefore ca) + 10) /\
      load_privateKey w' (in_dir certDir "ca.key") = Normal (Priv (keysDrawn w)) /\
      (forall p, In p platforms ->
         (existsSync w (in_dir certDir (p ++ ".crt")) = false ->
          exists c k,
            certificate_of certDir p w' = Some c /\
            fs w' (in_dir certDir (p ++ ".key")) = Some (PrivateKeyPem k) /\
            public_of k = certPublicKey c /\
            signedWith c = Priv (keysDrawn w) /\
            issuer c = subject ca /\
            subject c = [ {| name := "commonName"; value := p |} ]) /\
         (forall c, certificate_of certDir p w = Some c ->
                    certificate_of certDir p w' = Some c)).
Proof.
  intros clock certDir w w' E H.
  pose proof (setup_spec clock certDir w) as S. rewrite H in S.
  destruct S as (K & _ & _ & _ & _ & Iss & New).
  destruct (New E) as (Fc & Fk).
  eexists. split.
  { unfold certificate_of. change ("ca" ++ ".crt") with "ca.crt". rewrite Fc. reflexivity. }
  split; [reflexivity|]. split; [reflexivity|]. split; [reflexivity|].
  split; [reflexivity|]. split; [reflexivity|]. split; [reflexivity|].
  split; [now apply load_privateKey_file|].
  intros p Hp. split.
  - intros Hm.
    destruct (Iss p Hp Hm)
      as (caCert & caKey & c & k & n & Lc & Lk & Hc & Hk & Hpub & _ & _ & _ & Hs & Hi & Hsub & _).
    apply load_certificate_file in Lc. apply load_privateKey_file in Lk.
    rewrite Fc in Lc. rewrite Fk in Lk. injection Lc as <-. injection Lk as <-.
    exists c, k. repeat split; assumption.
  - intros c Hc. unfold certificate_of in *. rewrite K; [exact Hc|].
    unfold existsSync.
    destruct (fs w (in_dir certDir (p ++ ".crt"))); [reflexivity | discriminate Hc].
Qed.

Lemma setup_without_ca_witness :
  exists ca,
    certificate_of Scenario.certDir "ca" Scenario.world_setup = Some ca /\
    certPublicKey ca = Pub 0 /\
    signedWith ca = Priv 0.
Proof.
  destruct (setup_without_ca_issues_under_a_new_ca
              Scenario.clock2026 Scenario.certDir Scenario.empty_world Scenario.world_setup
              eq_refl setup_from_nothing)
    as (ca & H1 & H2 & H3 & _).
  exists ca. repeat split; assumption.
Defined.

End Certificates.

(** ** CONNECT over the directory [setup] wrote *)

Section Deployed.
Import JS CertManager.

Lemma certPath_in_dir cenv h :
  Server.certPath cenv h
  = in_dir (Deployment.certDir (Server.dirname cenv)) (h ++ ".crt").
Proof.
  unfold Server.certPath, in_dir, Deployment.certDir. now rewrite append_assoc.
Qed.

Lemma keyPath_in_dir cenv h :
  Server.keyPath cenv h
  = in_dir (Deployment.certDir (Server.dirname cenv)) (h ++ ".key").
Proof.
  unfold Server.keyPath, in_dir, Deployment.certDir. now rewrite append_assoc.
Qed.

Lemma setup_of_the_app :
  setup Scenario.clock2026 (Deployment.certDir "/app") Scenario.empty_world
  = (Normal tt, Scenario.world_setup).
Proof. exact setup_from_nothing. Qed.

(** After [setup] the CONNECT handler finds the certificate of a host only
    when the host is named exactly like one of the four platforms. For
    such a host, whose certificate [setup] issued, it finds the
    certificate, whose subject is the host, and the key that matches it,
    writes the 200 line and then throws (at the latest when it calls
    [TLSSocket] without [new]): no TLS handshake follows. Any other host
    the proxy counts as an AI platform ([gemini.google.com], a subdomain
    such as [www.claude.ai]) has no files unless they were put there by
    other means, and its CONNECT is answered with the 500 line. *)
Theorem connect_after_setup_needs_a_platform_name :
  forall clock dirname w w' pem tls_accepts reachable h port,
    setup clock (Deployment.certDir dirname) w = (Normal tt, w') ->
    Text.no_separator h = true ->
    Server.isAIPlatform h = true ->
    existsSync w (in_dir (Deployment.certDir dirname) (h ++ ".crt")) = false ->
    (~ In h platforms ->
     Server.handleConnect
       (Deployment.connect_env pem dirname w' tls_accepts reachable) h port
     = ([Server.SockEnd Server.server_error], Normal tt)) /\
    (In h platforms ->
     exists c k,
       certificate_of (Deployment.certDir dirname) h w' = Some c /\
       subject c = [ {| name := "commonName"; value := h |} ] /\
       public_of k = certPublicKey c /\
       Server.files (Deployment.connect_env pem dirname w' tls_accepts reachable)
         (Server.certPath
            (Deployment.connect_env pem dirname w' tls_accepts reachable) h)
       = Server.Content (pem (CertificatePem c)) /\
       Server.files (Deployment.connect_env pem dirname w' tls_accepts reachable)
         (Server.keyPath
            (Deployment.connect_env pem dirname w' tls_accepts reachable) h)
       = Server.Content (pem (PrivateKeyPem k)) /\
       Server.handleConnect
         (Deployment.connect_env pem dirname w' tls_accepts reachable) h port
       = ([Server.SockWrite Server.established],
          Throw (TypeError (if tls_accepts (pem (CertificatePem c)) (pem (PrivateKeyPem k))
                            then "this._wrapHandle is not a function"
                            else "createServer")))).
Proof.
  intros clock dirname w w' pem tls_accepts reachable h port H _ AI Em.
  assert (N : h <> "ca") by (intros ->; discriminate AI).
  unfold Server.handleConnect. rewrite AI. split.
  - intros NP.
    destruct (proj2 (setup_frame clock (Deployment.certDir dirname) w w' H) h N NP)
      as (Fc & _).
    apply handleAIConnect_without_files. left.
    rewrite certPath_in_dir. unfold Server.existsSync, Deployment.connect_env,
      Deployment.files_of. cbn [Server.files Server.dirname].
    rewrite Fc. unfold existsSync in Em.
    destruct (fs w (in_dir (Deployment.certDir dirname) (h ++ ".crt")));
      [discriminate Em | reflexivity].
  - intros Hp.
    destruct (setup_issues clock (Deployment.certDir dirname) w w' H h Hp Em)
      as (c & k & Hc & Hk & Hpub & Hsub & _).
    exists c, k. split; [exact Hc|]. split; [exact Hsub|]. split; [exact Hpub|].
    unfold certificate_of in Hc.
    destruct (fs w' (in_dir (Deployment.certDir dirname) (h ++ ".crt"))) as [[c'|k'| ]|] eqn:Fc;
      try discriminate Hc.
    injection Hc as ->.
    assert (Pc : Server.files (Deployment.connect_env pem dirname w' tls_accepts reachable)
                   (Server.certPath
                      (Deployment.connect_env pem dirname w' tls_accepts reachable) h)
                 = Server.Content (pem (CertificatePem c))).
    { rewrite certPath_in_dir. unfold Deployment.connect_env, Deployment.files_of.
      cbn [Server.files Server.dirname]. now rewrite Fc. }
    assert (Pk : Server.files (Deployment.connect_env pem dirname w' tls_accepts reachable)
                   (Server.keyPath
                      (Deployment.connect_env pem dirname w' tls_accepts reachable) h)
                 = Server.Content (pem (PrivateKeyPem k))).
    { rewrite keyPath_in_dir. unfold Deployment.connect_env, Deployment.files_of.
      cbn [Server.files Server.dirname]. now rewrite Hk. }
    split; [exact Pc|]. split; [exact Pk|].
    unfold Server.handleAIConnect, Server.existsSync, Server.readFileSync.
    rewrite Pc, Pk. cbn [negb orb Server.tls_accepts Deployment.connect_env].
    destruct (tls_accepts (pem (CertificatePem c)) (pem (PrivateKeyPem k))); reflexivity.
Qed.

Lemma connect_after_setup_witness :
  Server.handleConnect
    (Deployment.connect_env (fun _ => "pem") "/app" Scenario.world_setup
       (fun _ _ => true) (fun _ _ => Server.Refused))
    "gemini.google.com" (Some 443%Z)
  = ([Server.SockEnd Server.server_error], Normal tt) /\
  exists c k,
    certificate_of (Deployment.certDir "/app") "claude.ai" Scenario.world_setup = Some c /\
    public_of k = certPublicKey c /\
    Server.handleConnect
      (Deployment.connect_env (fun _ => "pem") "/app" Scenario.world_setup
         (fun _ _ => true) (fun _ _ => Server.Refused))
      "claude.ai" (Some 443%Z)
    = ([Server.SockWrite Server.established],
       Throw (TypeError "this._wrapHandle is not a function")).
Proof.
  split.
  - apply (proj1 (connect_after_setup_needs_a_platform_name
                    Scenario.clock2026 "/app" Scenario.empty_world Scenario.world_setup
                    (fun _ => "pem") (fun _ _ => true) (fun _ _ => Server.Refused)
                    "gemini.google.com" (Some 443%Z)
                    setup_of_the_app eq_refl eq_refl eq_refl)).
    intros [H|[H|[H|[H|[]]]]]; discriminate H.
  - destruct (proj2 (connect_after_setup_needs_a_platform_name
                       Scenario.clock2026 "/app" Scenario.empty_world Scenario.world_setup
                       (fun _ => "pem") (fun _ _ => true) (fun _ _ => Server.Refused)
                       "claude.ai" (Some 443%Z)
                       setup_of_the_app eq_refl eq_refl eq_refl))
      as (c & k & H1 & _ & H2 & _ & _ & H3); [right; left; reflexivity|].
    exists c, k. split; [exact H1|]. split; [exact H2 | exact H3].
Defined.

End Deployed.

(** ** [start()] over the directory [setup] wrote *)

Section Started.
Import JS CertManager Startup.

Lemma start_certPath cenv :
  Startup.certPath cenv
  = in_dir (Deployment.certDir (Server.dirname cenv)) ("chat.openai.com" ++ ".crt").
Proof.
  unfold Startup.certPath, in_dir, Deployment.certDir. now rewrite append_assoc.
Qed.

Lemma start_keyPath cenv :
  Startup.keyPath cenv
  = in_dir (Deployment.certDir (Server.dirname cenv)) ("chat.openai.com" ++ ".key").
Proof.
  unfold Startup.keyPath, in_dir, Deployment.certDir. now rewrite append_assoc.
Qed.

(** The TLS listener of [start()] has one certificate for every host, the
    one of [chat.openai.com]. Over a directory in which [setup] issued it,
    the listener gets the PEM text of a certificate whose subject and
    alternative names are [chat.openai.com] and [*.chat.openai.com] only,
    with the matching key: the certificates [setup] issues for the other
    three platforms are not what this listener presents. In [part_001] the
    listener is started only when the configuration has an API key; the
    web interface is started in every case. *)
Theorem proxy_listens_with_the_certificate_of_one_host :
  forall clock dirname w w' pem tls_accepts reachable config,
    setup clock (Deployment.certDir dirname) w = (Normal tt, w') ->
    existsSync w (in_dir (Deployment.certDir dirname) ("chat.openai.com" ++ ".crt")) = false ->
    exists c k,
      certificate_of (Deployment.certDir dirname) "chat.openai.com" w' = Some c /\
      subject c = [ {| name := "commonName"; value := "chat.openai.com" |} ] /\
      extensions c
      = [ SubjectAltName [ {| type := 2; altValue := "chat.openai.com" |};
                           {| type := 2; altValue := "*.chat.openai.com" |} ] ] /\
      public_of k = certPublicKey c /\
      Server2Start.start (Deployment.connect_env pem dirname w' tls_accepts reachable) config
      = (if tls_accepts (pem (CertificatePem c)) (pem (PrivateKeyPem k))
         then ([ListenWeb (own_or_undefined config "webPort");
                ListenProxy (pem (CertificatePem c)) (pem (PrivateKeyPem k))
                  (own_or_undefined config "proxyPort")], Normal tt)
         else ([ListenWeb (own_or_undefined config "webPort")],
               Throw (TypeError "createServer"))) /\
      Part001Start.start (Deployment.connect_env pem dirname w' tls_accepts reachable) config
      = (if truthy (own_or_undefined config "geminiApiKey")
         then Server2Start.start
                (Deployment.connect_env pem dirname w' tls_accepts reachable) config
         else ([ListenWeb (own_or_undefined config "webPort"); NoApiKey], Normal tt)).
Proof.
  intros clock dirname w w' pem tls_accepts reachable config H Em.
  destruct (setup_issues clock (Deployment.certDir dirname) w w' H "chat.openai.com")
    as (c & k & Hc & Hk & Hpub & Hsub & Hext); [now left | exact Em |].
  exists c, k. split; [exact Hc|]. split; [exact Hsub|]. split; [exact Hext|].
  split; [exact Hpub|].
  unfold certificate_of in Hc.
  destruct (fs w' (in_dir (Deployment.certDir dirname) ("chat.openai.com" ++ ".crt")))
    as [[c'|k'| ]|] eqn:Fc; try discriminate Hc.
  injection Hc as ->.
  assert (S2 : Server2Start.start
                 (Deployment.connect_env pem dirname w' tls_accepts reachable) config
               = (if tls_accepts (pem (CertificatePem c)) (pem (PrivateKeyPem k))
                  then ([ListenWeb (own_or_undefined config "webPort");
                         ListenProxy (pem (CertificatePem c)) (pem (PrivateKeyPem k))
                           (own_or_undefined config "proxyPort")], Normal tt)
                  else ([ListenWeb (own_or_undefined config "webPort")],
                        Throw (TypeError "createServer")))).
  { unfold Server2Start.start, listen_with_files, Server.existsSync, Server.readFileSync.
    rewrite start_certPath, start_keyPath.
    unfold Deployment.connect_env, Deployment.files_of.
    cbn [Server.files Server.dirname Server.tls_accepts].
    rewrite Fc, Hk. cbn [negb orb].
    destruct (tls_accepts (pem (CertificatePem c)) (pem (PrivateKeyPem k))); reflexivity. }
  split; [exact S2|].
  rewrite S2. unfold Part001Start.start.
  destruct (truthy (own_or_undefined config "geminiApiKey")); [|reflexivity].
  unfold listen_with_files, Server.existsSync, Server.readFileSync.
  rewrite start_certPath, start_keyPath.
  unfold Deployment.connect_env, Deployment.files_of.
  cbn [Server.files Server.dirname Server.tls_accepts].
  rewrite Fc, Hk. cbn [andb].
  destruct (tls_accepts (pem (CertificatePem c)) (pem (PrivateKeyPem k))); reflexivity.
Qed.

Lemma proxy_listens_witness :
  exists c k,
    certificate_of (Deployment.certDir "/app") "chat.openai.com" Scenario.world_setup = Some c /\
    subject c = [ {| name := "commonName"; value := "chat.openai.com" |} ] /\
    public_of k = certPublicKey c.
Proof.
  destruct (proxy_listens_with_the_certificate_of_one_host
              Scenario.clock2026 "/app" Scenario.empty_world Scenario.world_setup
              (fun _ => "pem") (fun _ _ => true) (fun _ _ => Server.Refused) []
              setup_of_the_app eq_refl)
    as (c & k & H1 & H2 & _ & H3 & _).
  exists c, k. repeat split; assumption.
Defined.

End Started.
